(** * serve-test-app.py: the CORS static file server of the BioID test app

    A shallow embedding of [serve-test-app.py] and of the methods of the
    Python standard library (CPython 3.11: [http.server], [http.client],
    [socketserver], [socket]) that the script inherits and calls.

    - Strings and byte strings are [string]: sequences of code points
      below 256, the range of the [iso-8859-1] decoding [http.server]
      applies to the request line and the header lines and of the
      [latin-1] encoding it applies to the lines it sends.
    - A request handler is a record of the attributes the methods read and
      write, with the bytes of the connection ([rfile], [wfile]); a method
      is a function from handler to handler.  [handle_one_request] is
      embedded whole: it reads the request line from [rfile], calls
      [parse_request], which reads the header lines, and calls the method
      of the command.  A method that calls [self.end_headers()] takes the
      receiver's [end_headers] as an argument, so that the override of
      [CORSHTTPRequestHandler] is the one that runs inside the inherited
      [send_error] and [send_head].  An exception that no method catches
      is recorded in the handler and ends the handling of the request.
    - [main] runs in a small monad over the state of the process, with
      three outcomes: a value, a raised exception, or an endless serve
      loop.  What the operating system and the user decide (whether the
      bind succeeds, how [webbrowser.open] ends, what ends
      [serve_forever]) is read from a [scenario]. *)

From Stdlib Require Import ZArith List String Ascii Bool.
From Stdlib Require Import DecimalString.
Import ListNotations.

Local Open Scope string_scope.
Local Open Scope Z_scope.

(** ** Strings *)

Definition CR : ascii := ascii_of_nat 13.
Definition LF : ascii := ascii_of_nat 10.

(** The two bytes [b"\r\n"]. *)
Definition CRLF : string := String CR (String LF EmptyString).

(** [str(n)] and ["%d" % n] for an integer. *)
Definition str_Z (n : Z) : string := NilEmpty.string_of_int (Z.to_int n).

(** [b"".join(l)]. *)
Definition join (l : list string) : string := String.concat "" l.

(** [c.lower()] for a code point below 256: [A-Z] and the upper-case
    letters of Latin-1 ([U+00C0]-[U+00DE] without the multiplication sign
    [U+00D7]) move up by 32. *)
Definition lower_ascii (c : ascii) : ascii :=
  let n := nat_of_ascii c in
  if (((65 <=? n) && (n <=? 90)) ||
      ((192 <=? n) && (n <=? 222) && negb (n =? 215)))%nat
  then ascii_of_nat (n + 32) else c.

Fixpoint lower (s : string) : string :=
  match s with
  | EmptyString => EmptyString
  | String c s' => String (lower_ascii c) (lower s')
  end.

(** [s.endswith("/")]. *)
Fixpoint endswith_slash (s : string) : bool :=
  match s with
  | EmptyString => false
  | String c EmptyString => Ascii.eqb c "/"
  | String _ s' => endswith_slash s'
  end.

(** [s.rfind(c)]: the highest index of [c] in [s], [-1] when absent. *)
Fixpoint rfind_from (c : ascii) (s : string) (i : Z) (last : Z) : Z :=
  match s with
  | EmptyString => last
  | String d s' => rfind_from c s' (i + 1) (if Ascii.eqb d c then i else last)
  end.

Definition rfind (c : ascii) (s : string) : Z := rfind_from c s 0 (-1).

(** The slices [p[:i]] and [p[i:]] for [0 <= i]. *)
Definition slice_to (p : string) (i : Z) : string :=
  String.substring 0 (Z.to_nat i) p.

Definition slice_from (p : string) (i : Z) : string :=
  String.substring (Z.to_nat i) (String.length p - Z.to_nat i) p.

(** [genericpath._splitext(p, '/', None, '.')]: the [while] loop looks for
    a character other than a dot between the last separator and the last
    dot; [fuel] is [dotIndex - filenameIndex]. *)
Fixpoint splitext_loop (p : string) (dotIndex filenameIndex : Z) (fuel : nat)
  : string * string :=
  match fuel with
  | O => (p, "")
  | S fuel' =>
      if negb (String.eqb
                 (String.substring (Z.to_nat filenameIndex) 1 p) ".")
      then (slice_to p dotIndex, slice_from p dotIndex)
      else splitext_loop p dotIndex (filenameIndex + 1) fuel'
  end.

Definition splitext (p : string) : string * string :=
  let sepIndex := rfind "/" p in
  let dotIndex := rfind "." p in
  if sepIndex <? dotIndex
  then splitext_loop p dotIndex (sepIndex + 1)
         (Z.to_nat (dotIndex - (sepIndex + 1)))
  else (p, "").


(** [c.isspace()] for a code point below 256: the characters [s.split()]
    and [s.strip()] take for white space. *)
Definition is_space (c : ascii) : bool :=
  let n := nat_of_ascii c in
  (((9 <=? n) && (n <=? 13)) || ((28 <=? n) && (n <=? 32)) ||
   (n =? 133) || (n =? 160))%nat.

(** [s.split()]: the words of [s]; [word] is the word being read. *)
Fixpoint split_words (s : string) (word : string) : list string :=
  match s with
  | EmptyString => if String.eqb word "" then [] else [word]
  | String c s' =>
      if is_space c
      then if String.eqb word "" then split_words s' ""
           else word :: split_words s' ""
      else split_words s' (word ++ String c EmptyString)
  end.

Definition split (s : string) : list string := split_words s "".

(** [s.split(sep)] for a character [sep]: all the parts, empty ones
    included; [part] is the part being read. *)
Fixpoint split_on (sep : ascii) (s : string) (part : string) : list string :=
  match s with
  | EmptyString => [part]
  | String c s' =>
      if Ascii.eqb c sep then part :: split_on sep s' ""
      else split_on sep s' (part ++ String c EmptyString)
  end.

(** [s.split(sep, 1)[1]]: what follows the first [sep]; [None] when there
    is no [sep] ([IndexError]). *)
Fixpoint after_first (sep : ascii) (s : string) : option string :=
  match s with
  | EmptyString => None
  | String c s' => if Ascii.eqb c sep then Some s' else after_first sep s'
  end.

(** [s.rstrip('\r\n')] *)
Fixpoint rstrip_crlf (s : string) : string :=
  match s with
  | EmptyString => EmptyString
  | String c s' =>
      let t := rstrip_crlf s' in
      if String.eqb t "" && (Ascii.eqb c CR || Ascii.eqb c LF)
      then EmptyString else String c t
  end.

(** [s.lstrip('/')] *)
Fixpoint lstrip_slash (s : string) : string :=
  match s with
  | String c s' => if Ascii.eqb c "/" then lstrip_slash s' else s
  | EmptyString => EmptyString
  end.

(** [s.strip()] *)
Fixpoint lstrip (s : string) : string :=
  match s with
  | String c s' => if is_space c then lstrip s' else s
  | EmptyString => EmptyString
  end.

Fixpoint rstrip (s : string) : string :=
  match s with
  | EmptyString => EmptyString
  | String c s' =>
      let t := rstrip s' in
      if String.eqb t "" && is_space c then EmptyString else String c t
  end.

Definition strip (s : string) : string := rstrip (lstrip s).

(** [f.readline(limit)] on the bytes [s] that are left to read: the line
    (with its line feed, at most [limit] bytes) and the bytes after it. *)
Fixpoint readline (s : string) (limit : Z) : string * string :=
  match s with
  | EmptyString => (EmptyString, EmptyString)
  | String c s' =>
      if limit <=? 0 then (EmptyString, s)
      else if Ascii.eqb c LF then (String c EmptyString, s')
      else let '(line, rest) := readline s' (limit - 1) in
           (String c line, rest)
  end.

(** [int(s)] in base 10: white space around, a sign, digits with single
    underscores between them, and at most 4300 digits
    ([sys.get_int_max_str_digits()]); [None] for [ValueError].  Below 256
    the decimal digits are [0]-[9]. *)
Definition digit_of (c : ascii) : option Z :=
  let n := nat_of_ascii c in
  if ((48 <=? n) && (n <=? 57))%nat then Some (Z.of_nat (n - 48)) else None.

Fixpoint int_digits (s : string) (value count : Z) (after_digit : bool)
  : option (Z * Z) :=
  match s with
  | EmptyString => if after_digit then Some (value, count) else None
  | String c s' =>
      match digit_of c with
      | Some d => int_digits s' (10 * value + d) (count + 1) true
      | None =>
          if Ascii.eqb c "_" && after_digit
          then int_digits s' value count false
          else None
      end
  end.

Definition int (s : string) : option Z :=
  let s := strip s in
  let '(sign, digits) :=
    match s with
    | String c s' =>
        if Ascii.eqb c "+" then (1, s')
        else if Ascii.eqb c "-" then (-1, s')
        else (1, s)
    | EmptyString => (1, s)
    end in
  match int_digits digits 0 0 false with
  | Some (value, count) => if 4300 <? count then None else Some (sign * value)
  | None => None
  end.

(** A null character in a file name: the system calls of Python refuse it
    with [ValueError]. *)
Fixpoint contains_nul (s : string) : bool :=
  match s with
  | EmptyString => false
  | String c s' => Ascii.eqb c Ascii.zero || contains_nul s'
  end.

(** [list.sort(key=lambda a: a.lower())]: a stable sort by the lower-case
    name. *)
Fixpoint insert_by_lower (x : string) (l : list string) : list string :=
  match l with
  | [] => [x]
  | y :: l' =>
      if String.ltb (lower x) (lower y) then x :: l
      else y :: insert_by_lower x l'
  end.

Definition sort_by_lower (l : list string) : list string :=
  fold_left (fun sorted x => insert_by_lower x sorted) l [].
(** ** The request handler and its environment *)

(** What the lookup of a request does to the file system under the
    document root, in order.  (The tables of [mimetypes] are read from the
    system's files when [guess_type] first needs them; that happens once
    in the life of the process and is no part of this log.) *)
Inductive fs_event : Type :=
| FsIsDir (p : string)        (* os.path.isdir(p) *)
| FsIsFile (p : string)       (* os.path.isfile(p) *)
| FsIsLink (p : string)       (* os.path.islink(p) *)
| FsOpen (p : string)         (* open(p, 'rb') *)
| FsStat (p : string)         (* os.fstat(f.fileno()) *)
| FsListDir (p : string)      (* os.listdir(p) *)
| FsRead (p : string).        (* shutil.copyfileobj(f, wfile) *)

(** What the handler writes to its log ([log_message], on stderr). *)
Inductive log_entry : Type :=
| LogRequest (code : Z)                   (* log_request(code) *)
| LogError (code : Z) (message : string). (* log_error("code %d, message %s", ...) *)

(** The attributes of a request handler.  [command], [path],
    [request_version] and [headers] hold the request once [parse_request]
    has read it; [command] is [""] both for [None] and for [''] (the two
    values it has before a method name is stored in it: neither is a
    method name, and the only test made on them is [!= 'HEAD']).
    [_headers_buffer] is [[]] both when the attribute is absent and when it
    is empty; [flush_headers] writes the same bytes (none) in both cases.
    [rfile] holds the bytes of the connection that have not been read yet,
    [wfile] those written so far.  [raised] is the exception that left a
    method of the handler, if one did: [handle_one_request] catches
    [TimeoutError] only, so the exception ends the handling of the
    request. *)
Record handler : Type := mkHandler {
  command : string;
  path : string;
  request_version : string;
  headers : list (string * string);
  _headers_buffer : list string;
  wfile : string;
  close_connection : bool;
  fs_log : list fs_event;
  log : list log_entry;
  rfile : string;
  raw_requestline : string;
  requestline : string;
  raised : option string
}.

Definition set_command (c : string) (h : handler) : handler :=
  mkHandler c (path h) (request_version h) (headers h)
            (_headers_buffer h) (wfile h) (close_connection h) (fs_log h)
            (log h) (rfile h) (raw_requestline h) (requestline h) (raised h).

Definition set_path (p : string) (h : handler) : handler :=
  mkHandler (command h) p (request_version h) (headers h)
            (_headers_buffer h) (wfile h) (close_connection h) (fs_log h)
            (log h) (rfile h) (raw_requestline h) (requestline h) (raised h).

Definition set_request_version (v : string) (h : handler) : handler :=
  mkHandler (command h) (path h) v (headers h)
            (_headers_buffer h) (wfile h) (close_connection h) (fs_log h)
            (log h) (rfile h) (raw_requestline h) (requestline h) (raised h).

Definition set_headers (hs : list (string * string)) (h : handler)
  : handler :=
  mkHandler (command h) (path h) (request_version h) hs
            (_headers_buffer h) (wfile h) (close_connection h) (fs_log h)
            (log h) (rfile h) (raw_requestline h) (requestline h) (raised h).

Definition set_headers_buffer (b : list string) (h : handler) : handler :=
  mkHandler (command h) (path h) (request_version h) (headers h)
            b (wfile h) (close_connection h) (fs_log h)
            (log h) (rfile h) (raw_requestline h) (requestline h) (raised h).

Definition wfile_write (data : string) (h : handler) : handler :=
  mkHandler (command h) (path h) (request_version h) (headers h)
            (_headers_buffer h) (wfile h ++ data) (close_connection h)
            (fs_log h)
            (log h) (rfile h) (raw_requestline h) (requestline h) (raised h).

Definition set_close_connection (b : bool) (h : handler) : handler :=
  mkHandler (command h) (path h) (request_version h) (headers h)
            (_headers_buffer h) (wfile h) b (fs_log h)
            (log h) (rfile h) (raw_requestline h) (requestline h) (raised h).

Definition fs_access (e : fs_event) (h : handler) : handler :=
  mkHandler (command h) (path h) (request_version h) (headers h)
            (_headers_buffer h) (wfile h) (close_connection h)
            (fs_log h ++ [e])
            (log h) (rfile h) (raw_requestline h) (requestline h) (raised h).

Definition log_message (e : log_entry) (h : handler) : handler :=
  mkHandler (command h) (path h) (request_version h) (headers h)
            (_headers_buffer h) (wfile h) (close_connection h)
            (fs_log h) (log h ++ [e])
            (rfile h) (raw_requestline h) (requestline h) (raised h).

Definition set_rfile (r : string) (h : handler) : handler :=
  mkHandler (command h) (path h) (request_version h) (headers h)
            (_headers_buffer h) (wfile h) (close_connection h) (fs_log h)
            (log h) r (raw_requestline h) (requestline h) (raised h).

Definition set_raw_requestline (l : string) (h : handler) : handler :=
  mkHandler (command h) (path h) (request_version h) (headers h)
            (_headers_buffer h) (wfile h) (close_connection h) (fs_log h)
            (log h) (rfile h) l (requestline h) (raised h).

Definition set_requestline (l : string) (h : handler) : handler :=
  mkHandler (command h) (path h) (request_version h) (headers h)
            (_headers_buffer h) (wfile h) (close_connection h) (fs_log h)
            (log h) (rfile h) (raw_requestline h) l (raised h).

(** [raise e], [e] an exception of class [name]. *)
Definition raise_from_method (name : string) (h : handler) : handler :=
  mkHandler (command h) (path h) (request_version h) (headers h)
            (_headers_buffer h) (wfile h) (close_connection h) (fs_log h)
            (log h) (rfile h) (raw_requestline h) (requestline h)
            (Some name).

(** An entry of the file system: a directory ([listing] is what
    [os.listdir] returns, [None] when it raises [OSError]) or a regular
    file ([readable]: [open(p, 'rb')] succeeds; [mtime]: [st_mtime] in whole
    seconds since the epoch). *)
Inductive node : Type :=
| Directory (listing : option (list string))
| Regular (readable : bool) (content : string) (mtime : Z).

(** A [datetime]: its time zone, and the seconds since the epoch of its
    wall-clock fields read as UTC. *)
Inductive tzinfo : Type := TzNaive | TzUTC | TzOther.

Record datetime : Type := mkDatetime { dt_tzinfo : tzinfo; dt_seconds : Z }.

(** What the handler takes from outside [serve-test-app.py] and the
    methods embedded below: the clock, the file system under the current
    directory, and library functions that are used as black boxes. *)
Record environ : Type := mkEnviron {
  (* self.version_string(): "SimpleHTTP/0.6 Python/3.11.2" *)
  version_string : string;
  (* self.date_time_string(): the current time as an HTTP date *)
  date_time_now : string;
  (* self.date_time_string(timestamp) *)
  date_time_string : Z -> string;
  (* self.translate_path(path), rooted at os.getcwd() *)
  translate_path : string -> string;
  (* the file system, by local file name *)
  fs : string -> option node;
  (* os.path.join(path, index) *)
  path_join : string -> string -> string;
  (* urllib.parse.urlsplit(self.path).path; None when urlsplit raises
     ValueError *)
  urlsplit_path : string -> option string;
  (* urlunsplit of self.path with "/" appended to its path *)
  redirect_url : string -> string;
  (* mimetypes.guess_type(path)[0] *)
  mimetypes_guess_type : string -> option string;
  (* email.utils.parsedate_to_datetime(value); None when it raises *)
  parsedate_to_datetime : string -> option datetime;
  (* sys.getfilesystemencoding() *)
  filesystemencoding : string;
  (* the page list_directory builds from self.path and, for each name of
     the listing, the name, os.path.isdir and os.path.islink of the entry,
     encoded; None when the encoding raises UnicodeEncodeError *)
  render_listing : string -> list (string * bool * bool) -> option string;
  (* error_message_format % {code, message, explain}, encoded as UTF-8 *)
  error_message : Z -> string -> string -> string;
  (* "%r" % s *)
  repr : string -> string;
  (* email.parser.Parser(_class=HTTPMessage).parsestr(hstring): the header
     fields, in order *)
  parse_message : string -> list (string * string);
  (* whether os.fsencode(name) succeeds; when it does not, a system call
     on the name raises UnicodeEncodeError, a ValueError *)
  fsencodable : string -> bool;
  (* os.path.islink(name) *)
  islink : string -> bool
}.

(** [protocol_version]: the version the server speaks in its status line. *)
Definition protocol_version : string := "HTTP/1.0".

(** [default_request_version] *)
Definition default_request_version : string := "HTTP/0.9".

(** [error_content_type]. *)
Definition error_content_type : string := "text/html;charset=utf-8".

(** The entries of [responses] ([HTTPStatus]: phrase and description) for
    the status codes the handler sends. *)
Definition responses (code : Z) : option (string * string) :=
  match code with
  | 100 => Some ("Continue", "Request received, please continue")
  | 200 => Some ("OK", "Request fulfilled, document follows")
  | 204 => Some ("No Content", "Request fulfilled, nothing follows")
  | 205 => Some ("Reset Content", "Clear input form for further input")
  | 301 => Some ("Moved Permanently",
                 "Object moved permanently -- see URI list")
  | 304 => Some ("Not Modified",
                 "Document has not changed since given time")
  | 400 => Some ("Bad Request",
                 "Bad request syntax or unsupported method")
  | 404 => Some ("Not Found", "Nothing matches the given URI")
  | 414 => Some ("Request-URI Too Long", "URI is too long")
  | 431 => Some ("Request Header Fields Too Large",
                 "The server is unwilling to process the request because its header fields are too large")
  | 501 => Some ("Not Implemented",
                 "Server does not support this operation")
  | 505 => Some ("HTTP Version Not Supported", "Cannot fulfill request")
  | _ => None
  end.

(** [name in self.headers]: header names compare without case. *)
Definition header_in (name : string) (hs : list (string * string)) : bool :=
  existsb (fun kv => String.eqb (lower (fst kv)) (lower name)) hs.

(** [self.headers[name]]: the first field of that name. *)
Definition header_get (name : string) (hs : list (string * string))
  : option string :=
  match find (fun kv => String.eqb (lower (fst kv)) (lower name)) hs with
  | Some kv => Some (snd kv)
  | None => None
  end.

(** [a >= b] for two strings, and for two pairs of integers. *)
Definition str_ge (a b : string) : bool := negb (String.ltb a b).

Definition pair_ge (a b : Z * Z) : bool :=
  (fst b <? fst a) || ((fst a =? fst b) && (snd b <=? snd a)).

(** ** [http.client]: reading the header lines *)

Definition _MAXLINE : Z := 65536.
Definition _MAXHEADERS : nat := 100.

(** How [_read_headers] ends: the lines it read, or one of its two
    exceptions with its text ([LineTooLong] is an [HTTPException]). *)
Inductive read_headers_result : Type :=
| HeaderLines (lines : list string)
| LineTooLong (text : string)
| HTTPException (text : string).

(** [_read_headers(fp)].  [room] is [_MAXHEADERS - len(headers)]: the
    loop ends, by [raise], when a line is appended to a list that has no
    room left.  Returns the bytes left in [fp] as well. *)
Fixpoint _read_headers (room : nat) (fp : string) (headers : list string)
  : read_headers_result * string :=
  let '(line, fp) := readline fp (_MAXLINE + 1) in
  if _MAXLINE <? Z.of_nat (String.length line)
  then (LineTooLong ("got more than " ++ str_Z _MAXLINE ++
                     " bytes when reading " ++ "header line"), fp)
  else
    match room with
    | O => (HTTPException ("got more than " ++
                           str_Z (Z.of_nat _MAXHEADERS) ++ " headers"), fp)
    | S room =>
        let headers := (headers ++ [line])%list in
        if String.eqb line CRLF || String.eqb line (String LF EmptyString)
           || String.eqb line ""
        then (HeaderLines headers, fp)
        else _read_headers room fp headers
    end.

(** ** [http.server.BaseHTTPRequestHandler] *)

Module BaseHTTPRequestHandler.

(** [self.request_version != 'HTTP/0.9'] *)
Definition not_http09 (h : handler) : bool :=
  negb (String.eqb (request_version h) "HTTP/0.9").

(** ["%s %d %s\r\n" % (self.protocol_version, code, message)] *)
Definition status_line (code : Z) (message : string) : string :=
  protocol_version ++ " " ++ str_Z code ++ " " ++ message ++ CRLF.

(** ["%s: %s\r\n" % (keyword, value)] *)
Definition header_line (keyword value : string) : string :=
  keyword ++ ": " ++ value ++ CRLF.

Definition send_response_only (code : Z) (message : option string)
           (h : handler) : handler :=
  if not_http09 h then
    let message :=
      match message with
      | Some m => m
      | None => match responses code with
                | Some (phrase, _) => phrase
                | None => ""
                end
      end in
    set_headers_buffer (_headers_buffer h ++ [status_line code message]) h
  else h.

Definition send_header (keyword value : string) (h : handler) : handler :=
  let h :=
    if not_http09 h
    then set_headers_buffer
           (_headers_buffer h ++ [header_line keyword value]) h
    else h in
  if String.eqb (lower keyword) "connection" then
    if String.eqb (lower value) "close" then set_close_connection true h
    else if String.eqb (lower value) "keep-alive"
         then set_close_connection false h
         else h
  else h.

Definition flush_headers (h : handler) : handler :=
  set_headers_buffer [] (wfile_write (join (_headers_buffer h)) h).

Definition end_headers (h : handler) : handler :=
  if not_http09 h
  then flush_headers
         (set_headers_buffer (_headers_buffer h ++ [CRLF]) h)
  else h.

Definition log_request (code : Z) (h : handler) : handler :=
  log_message (LogRequest code) h.

Definition log_error (code : Z) (message : string) (h : handler)
  : handler :=
  log_message (LogError code message) h.

(** The [try] block of [parse_request] on the last word of a request
    line of three words or more: [base_version_number] and
    [version_number]; [None] when it raises [ValueError] or
    [IndexError]. *)
Definition parse_version (version : string) : option (string * (Z * Z)) :=
  if negb (String.prefix "HTTP/" version) then None
  else
    match after_first "/" version with
    | None => None
    | Some base_version_number =>
        match split_on "." base_version_number "" with
        | [major; minor] =>
            match int major, int minor with
            | Some a, Some b => Some (base_version_number, (a, b))
            | _, _ => None
            end
        | _ => None
        end
    end.

Section Methods.

Variable env : environ.

(** The receiver's [end_headers]: the method [self.end_headers()]
    resolves to. *)
Variable self_end_headers : handler -> handler.

Definition send_response (code : Z) (message : option string)
           (h : handler) : handler :=
  let h := log_request code h in
  let h := send_response_only code message h in
  let h := send_header "Server" (version_string env) h in
  send_header "Date" (date_time_now env) h.

Definition send_error (code : Z) (message explain : option string)
           (h : handler) : handler :=
  let '(shortmsg, longmsg) :=
    match responses code with
    | Some sl => sl
    | None => ("???", "???")
    end in
  let message := match message with Some m => m | None => shortmsg end in
  let explain := match explain with Some e => e | None => longmsg end in
  let h := log_error code message h in
  let h := send_response code (Some message) h in
  let h := send_header "Connection" "close" h in
  let has_body :=
    (200 <=? code) &&
    negb ((code =? 204) || (code =? 205) || (code =? 304)) in
  let body := error_message env code message explain in
  let h :=
    if has_body then
      let h := send_header "Content-Type" error_content_type h in
      send_header "Content-Length"
                  (str_Z (Z.of_nat (String.length body))) h
    else h in
  let h := self_end_headers h in
  if negb (String.eqb (command h) "HEAD") && has_body &&
     negb (String.eqb body "")
  then wfile_write body h
  else h.

Definition handle_expect_100 (h : handler) : bool * handler :=
  let h := send_response_only 100 None h in
  let h := self_end_headers h in
  (true, h).

(** [parse_request] from the call of [http.client.parse_headers] on. *)
Definition parse_request_headers (h : handler) : bool * handler :=
  let '(r, fp) := _read_headers _MAXHEADERS (rfile h) [] in
  let h := set_rfile fp h in
  match r with
  | LineTooLong err =>
      (false, send_error 431 (Some "Line too long") (Some err) h)
  | HTTPException err =>
      (false, send_error 431 (Some "Too many headers") (Some err) h)
  | HeaderLines lines =>
      let h := set_headers (parse_message env (join lines)) h in
      let conntype :=
        match header_get "Connection" (headers h) with
        | Some v => v
        | None => ""
        end in
      let h :=
        if String.eqb (lower conntype) "close"
        then set_close_connection true h
        else if String.eqb (lower conntype) "keep-alive" &&
                str_ge protocol_version "HTTP/1.1"
             then set_close_connection false h
             else h in
      let expect :=
        match header_get "Expect" (headers h) with
        | Some v => v
        | None => ""
        end in
      if String.eqb (lower expect) "100-continue" &&
         str_ge protocol_version "HTTP/1.1" &&
         str_ge (request_version h) "HTTP/1.1"
      then
        let '(ok, h) := handle_expect_100 h in
        if negb ok then (false, h) else (true, h)
      else (true, h)
  end.

(** [parse_request] from [if not 2 <= len(words) <= 3] on. *)
Definition parse_request_words (words : list string) (h : handler)
  : bool * handler :=
  if negb ((2 <=? List.length words)%nat && (List.length words <=? 3)%nat)
  then
    (false,
     send_error 400
       (Some ("Bad request syntax (" ++ repr env (requestline h) ++ ")"))
       None h)
  else
    let word0 := nth 0 words "" in
    let word1 := nth 1 words "" in
    let h :=
      if (List.length words =? 2)%nat then set_close_connection true h
      else h in
    if (List.length words =? 2)%nat && negb (String.eqb word0 "GET")
    then
      (false,
       send_error 400
         (Some ("Bad HTTP/0.9 request type (" ++ repr env word0 ++ ")"))
         None h)
    else
      let h := set_path word1 (set_command word0 h) in
      let h :=
        if String.prefix "//" (path h)
        then set_path ("/" ++ lstrip_slash (path h)) h
        else h in
      parse_request_headers h.

Definition parse_request (h : handler) : bool * handler :=
  let h := set_command "" h in
  let h := set_request_version default_request_version h in
  let h := set_close_connection true h in
  let h := set_requestline (rstrip_crlf (raw_requestline h)) h in
  let words := split (requestline h) in
  if (List.length words =? 0)%nat then (false, h)
  else if (3 <=? List.length words)%nat then
    let version := last words "" in
    match parse_version version with
    | None =>
        (false,
         send_error 400
           (Some ("Bad request version (" ++ repr env version ++ ")"))
           None h)
    | Some (base_version_number, version_number) =>
        let h :=
          if pair_ge version_number (1, 1) &&
             str_ge protocol_version "HTTP/1.1"
          then set_close_connection false h
          else h in
        if pair_ge version_number (2, 0) then
          (false,
           send_error 505
             (Some ("Invalid HTTP version (" ++ base_version_number ++ ")"))
             None h)
        else parse_request_words words (set_request_version version h)
    end
  else parse_request_words words h.

End Methods.

End BaseHTTPRequestHandler.
(** ** [http.server.SimpleHTTPRequestHandler] *)

Module SimpleHTTPRequestHandler.

Import BaseHTTPRequestHandler.

(** What [send_head] returns and [do_GET] copies to [wfile]: the file it
    opened, or the [io.BytesIO] of a directory listing. *)
Inductive file_obj : Type :=
| FileIO (name : string) (data : string)
| BytesIO (data : string).

Definition file_data (f : file_obj) : string :=
  match f with FileIO _ d => d | BytesIO d => d end.

(** [extensions_map] *)
Definition extensions_map (ext : string) : option string :=
  if String.eqb ext ".gz" then Some "application/gzip"
  else if String.eqb ext ".Z" then Some "application/octet-stream"
  else if String.eqb ext ".bz2" then Some "application/x-bzip2"
  else if String.eqb ext ".xz" then Some "application/x-xz"
  else None.

(** How [open(p, 'rb')] ends: the content and [st_mtime] of the file, an
    [OSError] ([FileNotFoundError], [PermissionError],
    [IsADirectoryError], ...), or a [ValueError] for a name that no system
    call takes. *)
Inductive open_result : Type :=
| Opened (content : string) (mtime : Z)
| OpenOSError
| OpenValueError.

Section Methods.

Variable env : environ.
Variable self_end_headers : handler -> handler.

(** A name with a null character, or one that cannot be encoded for the
    file system: a system call on it raises [ValueError]. *)
Definition invalid_name (p : string) : bool :=
  contains_nul p || negb (fsencodable env p).

(** [os.path.isdir] and [os.path.isfile] return [False] when [os.stat]
    raises [OSError] or [ValueError]. *)
Definition isdir (p : string) : bool :=
  if invalid_name p then false
  else match fs env p with Some (Directory _) => true | _ => false end.

Definition isfile (p : string) : bool :=
  if invalid_name p then false
  else match fs env p with Some (Regular _ _ _) => true | _ => false end.

(** [open(p, 'rb')] with [os.fstat]. *)
Definition open_rb (p : string) : open_result :=
  if invalid_name p then OpenValueError
  else
    match fs env p with
    | Some (Regular true content mtime) => Opened content mtime
    | _ => OpenOSError
    end.

(** [os.listdir(p)] for a directory [p]; [None] when it raises
    [OSError]. *)
Definition listdir (p : string) : option (list string) :=
  match fs env p with Some (Directory l) => l | _ => None end.

Definition guess_type (p : string) : string :=
  let '(_, ext) := splitext p in
  match extensions_map ext with
  | Some t => t
  | None =>
      match extensions_map (lower ext) with
      | Some t => t
      | None =>
          match mimetypes_guess_type env p with
          | Some guess =>
              if String.eqb guess "" then "application/octet-stream"
              else guess
          | None => "application/octet-stream"
          end
      end
  end.

(** The test of [send_head] on [If-Modified-Since]: the header is
    there, [If-None-Match] is not, the date parses, is in UTC (or has
    no zone) and is not before the file's last modification. *)
Definition not_modified_since (h : handler) (mtime : Z) : bool :=
  if header_in "If-Modified-Since" (headers h) &&
     negb (header_in "If-None-Match" (headers h))
  then
    match header_get "If-Modified-Since" (headers h) with
    | Some value =>
        match parsedate_to_datetime env value with
        | Some ims =>
            let tz := match dt_tzinfo ims with
                      | TzNaive => TzUTC
                      | tz => tz
                      end in
            match tz with
            | TzUTC => mtime <=? dt_seconds ims
            | _ => false
            end
        | None => false
        end
    | None => false
    end
  else false.

(** The two tests the loop of [list_directory] makes on each name. *)
Definition list_entry (p name : string) (h : handler) : handler :=
  let fullname := path_join env p name in
  let h := fs_access (FsIsDir fullname) h in
  fs_access (FsIsLink fullname) h.

Definition list_directory (p : string) (h : handler)
  : option file_obj * handler :=
  let h := fs_access (FsListDir p) h in
  match listdir p with
  | None =>
      (None,
       send_error env self_end_headers 404
                  (Some "No permission to list directory") None h)
  | Some list =>
      let list := sort_by_lower list in
      let h := fold_left (fun h name => list_entry p name h) list h in
      let entries :=
        map (fun name =>
               (name, isdir (path_join env p name),
                islink env (path_join env p name))) list in
      let enc := filesystemencoding env in
      match render_listing env (path h) entries with
      | None => (None, raise_from_method "UnicodeEncodeError" h)
      | Some encoded =>
          let h := send_response env 200 None h in
          let h := send_header "Content-type"
                               ("text/html; charset=" ++ enc) h in
          let h := send_header "Content-Length"
                               (str_Z (Z.of_nat (String.length encoded))) h in
          let h := self_end_headers h in
          (Some (BytesIO encoded), h)
      end
  end.

(** [send_head] from [ctype = self.guess_type(path)] on. *)
Definition send_head_file (p : string) (h : handler)
  : option file_obj * handler :=
  let ctype := guess_type p in
  if endswith_slash p then
    (None,
     send_error env self_end_headers 404 (Some "File not found") None h)
  else
    let h := fs_access (FsOpen p) h in
    match open_rb p with
    | OpenOSError =>
        (None,
         send_error env self_end_headers 404
                    (Some "File not found") None h)
    | OpenValueError => (None, raise_from_method "ValueError" h)
    | Opened content mtime =>
        let h := fs_access (FsStat p) h in
        if not_modified_since h mtime then
          let h := send_response env 304 None h in
          let h := self_end_headers h in
          (None, h)
        else
          let h := send_response env 200 None h in
          let h := send_header "Content-type" ctype h in
          let h := send_header "Content-Length"
                     (str_Z (Z.of_nat (String.length content))) h in
          let h := send_header "Last-Modified"
                     (date_time_string env mtime) h in
          let h := self_end_headers h in
          (Some (FileIO p content), h)
    end.

Definition send_head (h : handler) : option file_obj * handler :=
  let p := translate_path env (path h) in
  let h := fs_access (FsIsDir p) h in
  if isdir p then
    match urlsplit_path env (path h) with
    | None => (None, raise_from_method "ValueError" h)
    | Some parts_path =>
        if negb (endswith_slash parts_path) then
          let h := send_response env 301 None h in
          let h := send_header "Location" (redirect_url env (path h)) h in
          let h := send_header "Content-Length" "0" h in
          let h := self_end_headers h in
          (None, h)
        else
          let index := path_join env p "index.html" in
          let h := fs_access (FsIsFile index) h in
          if isfile index then send_head_file index h
          else
            let index := path_join env p "index.htm" in
            let h := fs_access (FsIsFile index) h in
            if isfile index then send_head_file index h
            else list_directory p h
    end
  else send_head_file p h.

(** [shutil.copyfileobj(source, self.wfile)] *)
Definition copyfile (source : file_obj) (h : handler) : handler :=
  match source with
  | FileIO name data => wfile_write data (fs_access (FsRead name) h)
  | BytesIO data => wfile_write data h
  end.

Definition do_GET (h : handler) : handler :=
  let '(f, h) := send_head h in
  match f with
  | Some f => copyfile f h
  | None => h
  end.

Definition do_HEAD (h : handler) : handler :=
  let '(f, h) := send_head h in h.

End Methods.

End SimpleHTTPRequestHandler.

(** ** [serve-test-app.py]: [CORSHTTPRequestHandler] *)

Module CORSHTTPRequestHandler.

(** [end_headers]: the three header lines, then the inherited
    [end_headers]. *)
Definition end_headers (h : handler) : handler :=
  let h := BaseHTTPRequestHandler.send_header
             "Access-Control-Allow-Origin" "*" h in
  let h := BaseHTTPRequestHandler.send_header
             "Access-Control-Allow-Methods" "GET, POST, OPTIONS" h in
  let h := BaseHTTPRequestHandler.send_header
             "Access-Control-Allow-Headers"
             "Content-Type, Authorization" h in
  BaseHTTPRequestHandler.end_headers h.

Section Methods.

Variable env : environ.

Definition do_OPTIONS (h : handler) : handler :=
  let h := BaseHTTPRequestHandler.send_response env 200 None h in
  end_headers h.

(** The inherited methods, with [self.end_headers] bound to the
    override. *)
Definition send_error : Z -> option string -> option string ->
                        handler -> handler :=
  BaseHTTPRequestHandler.send_error env end_headers.

Definition parse_request : handler -> bool * handler :=
  BaseHTTPRequestHandler.parse_request env end_headers.

Definition do_GET : handler -> handler :=
  SimpleHTTPRequestHandler.do_GET env end_headers.

Definition do_HEAD : handler -> handler :=
  SimpleHTTPRequestHandler.do_HEAD env end_headers.

(** [getattr(self, mname)] for the names [handle_one_request] asks
    for; [None] when [hasattr(self, mname)] is false. *)
Definition getattr (mname : string) : option (handler -> handler) :=
  if String.eqb mname "do_OPTIONS" then Some do_OPTIONS
  else if String.eqb mname "do_GET" then Some do_GET
  else if String.eqb mname "do_HEAD" then Some do_HEAD
  else None.

(** The inherited [handle_one_request]: one request is read from
    [rfile] and answered on [wfile]. *)
Definition handle_one_request (h : handler) : handler :=
  let '(line, fp) := readline (rfile h) 65537 in
  let h := set_raw_requestline line (set_rfile fp h) in
  if 65536 <? Z.of_nat (String.length (raw_requestline h)) then
    let h := set_requestline "" h in
    let h := set_request_version "" h in
    let h := set_command "" h in
    send_error 414 None None h
  else if String.eqb (raw_requestline h) "" then
    set_close_connection true h
  else
    let '(ok, h) := parse_request h in
    if negb ok then h
    else
      let mname := "do_" ++ command h in
      match getattr mname with
      | None =>
          send_error 501
            (Some ("Unsupported method (" ++ repr env (command h) ++ ")"))
            None h
      | Some method => method h
      end.

End Methods.

(** The handler [socketserver] creates for a connection on which the
    client sends the bytes [rfile]: no request attribute is set yet, and
    [handle] has set [close_connection]. *)
Definition new_handler (rfile : string) : handler :=
  mkHandler "" "" "" [] [] "" true [] [] rfile "" "" None.

End CORSHTTPRequestHandler.

(** ** The process: exceptions, the listening socket, standard output *)

(** The exceptions [main] tells apart: its two [except] clauses name
    [KeyboardInterrupt] and [OSError]; [sys.exit] raises [SystemExit];
    [OtherException] is any exception that is none of the three. *)
Inductive exn : Type :=
| KeyboardInterrupt
| OSError (errno : option Z) (strerror : string)
| SystemExit (code : Z)
| OtherException (name : string).

(** [str(e)] for an [OSError]. *)
Definition str_OSError (errno : option Z) (strerror : string) : string :=
  match errno with
  | Some n => "[Errno " ++ str_Z n ++ "] " ++ strerror
  | None => strerror
  end.

(** [errno.EADDRINUSE], the error number of a bind to an occupied port,
    on the platforms CPython runs on. *)
Inductive platform : Type := Darwin | Linux | Windows.

Definition EADDRINUSE (p : platform) : Z :=
  match p with
  | Darwin => 48
  | Linux => 98
  | Windows => 10048
  end.

(** The listening socket of the server: the [_closed] flag of the Python
    object, whether it still holds a file descriptor, the address it is
    bound to and whether it listens. *)
Record socket : Type := mkSocket {
  _closed : bool;
  has_fd : bool;
  bound : option (string * Z);
  listening : bool
}.

(** What the process asks of the operating system, in order. *)
Inductive sys_event : Type :=
| SysSocket
| SysBind (host : string) (port : Z)
| SysListen (backlog : Z)
| SysClose
| SysBrowserOpen (url : string)
| SysServeForever.

Record world : Type := mkWorld {
  stdout : list string;           (* one entry per call of print *)
  httpd_socket : option socket;   (* httpd.socket, once created *)
  trace : list sys_event
}.

Definition initial_world : world := mkWorld [] None [].

(** A connection attempt to the port succeeds only while the socket holds
    its file descriptor and listens. *)
Definition accepts_connections (w : world) : bool :=
  match httpd_socket w with
  | Some s => has_fd s && listening s
  | None => false
  end.

(** What is decided outside the script: how the three system calls of the
    [TCPServer] constructor end ([None]: they succeed), how
    [webbrowser.open] ends (it raises, or returns whether a browser was
    launched) and what ends [serve_forever] ([None]: nothing does, the loop
    goes on; no code calls [shutdown], so it never returns). *)
Record scenario : Type := mkScenario {
  socket_result : option exn;
  bind_result : option exn;
  listen_result : option exn;
  browser_result : exn + bool;
  serve_result : option exn
}.

(** The outcome of a computation: a value, a raised exception, or the
    endless serve loop. *)
Inductive result (A : Type) : Type :=
| Ret (a : A)
| Raise (e : exn)
| Forever.

Arguments Ret {A} a.
Arguments Raise {A} e.
Arguments Forever {A}.

Definition M (A : Type) : Type := world -> result A * world.

Definition ret {A : Type} (a : A) : M A := fun w => (Ret a, w).

Definition bind {A B : Type} (m : M A) (k : A -> M B) : M B :=
  fun w =>
    match m w with
    | (Ret a, w') => k a w'
    | (Raise e, w') => (Raise e, w')
    | (Forever, w') => (Forever, w')
    end.

Definition raise {A : Type} (e : exn) : M A := fun w => (Raise e, w).

(** [try: body  except <clauses>]: [clauses e] is the body of the first
    clause that matches [e], [None] when no clause does. *)
Definition try_except {A : Type} (body : M A) (clauses : exn -> option (M A))
  : M A :=
  fun w =>
    match body w with
    | (Raise e, w') =>
        match clauses e with
        | Some k => k w'
        | None => (Raise e, w')
        end
    | r => r
    end.

(** [with <enter> as x: body], for a context manager whose [__exit__]
    returns [None]: [__exit__] runs when the body ends, by a value or by an
    exception, and an exception of the body is raised again after it. *)
Definition with_ {A : Type} (enter : M unit) (exit : M unit) (body : M A)
  : M A :=
  bind enter (fun _ w =>
    match body w with
    | (Ret a, w') =>
        match exit w' with
        | (Ret _, w'') => (Ret a, w'')
        | (Raise e, w'') => (Raise e, w'')
        | (Forever, w'') => (Forever, w'')
        end
    | (Raise e, w') =>
        match exit w' with
        | (Ret _, w'') => (Raise e, w'')
        | (Raise e', w'') => (Raise e', w'')
        | (Forever, w'') => (Forever, w'')
        end
    | (Forever, w') => (Forever, w')
    end).

Declare Scope proc_scope.
Delimit Scope proc_scope with proc.
Notation "m ;; k" := (bind m (fun _ => k))
  (at level 61, right associativity) : proc_scope.

Definition print (s : string) : M unit :=
  fun w => (Ret tt, mkWorld (stdout w ++ [s]) (httpd_socket w) (trace w)).

Definition sys_exit {A : Type} (code : Z) : M A := raise (SystemExit code).

Definition syscall (e : sys_event) : M unit :=
  fun w => (Ret tt, mkWorld (stdout w) (httpd_socket w) (trace w ++ [e])).

Definition set_socket (s : socket) : M unit :=
  fun w => (Ret tt, mkWorld (stdout w) (Some s) (trace w)).

Definition outcome (r : option exn) : M unit :=
  match r with
  | None => ret tt
  | Some e => raise e
  end.

(** ** [socket.socket] and [socketserver.TCPServer] *)

Section Process.

Variable sc : scenario.

Local Open Scope proc_scope.

(** [socket.socket(AF_INET, SOCK_STREAM)] *)
Definition socket_socket : M unit :=
  syscall SysSocket ;;
  outcome (socket_result sc) ;;
  set_socket (mkSocket false true None false).

(** [sock.bind(address)] *)
Definition socket_bind (host : string) (port : Z) : M unit :=
  fun w =>
    match httpd_socket w with
    | Some s =>
        (syscall (SysBind host port) ;;
         outcome (bind_result sc) ;;
         set_socket (mkSocket (_closed s) (has_fd s)
                              (Some (host, port)) (listening s))) w
    | None => (Ret tt, w)
    end.

(** [sock.listen(backlog)] *)
Definition socket_listen (backlog : Z) : M unit :=
  fun w =>
    match httpd_socket w with
    | Some s =>
        (syscall (SysListen backlog) ;;
         outcome (listen_result sc) ;;
         set_socket (mkSocket (_closed s) (has_fd s) (bound s) true)) w
    | None => (Ret tt, w)
    end.

(** [sock.close()]: sets [_closed]; [_real_close] gives the file
    descriptor back to the system if the socket still has one. *)
Definition socket_close : M unit :=
  fun w =>
    match httpd_socket w with
    | Some s =>
        if has_fd s
        then (syscall SysClose ;;
              set_socket (mkSocket true false (bound s) (listening s))) w
        else set_socket (mkSocket true false (bound s) (listening s)) w
    | None => (Ret tt, w)
    end.

(** [request_queue_size] *)
Definition request_queue_size : Z := 5.

Definition server_bind (host : string) (port : Z) : M unit :=
  socket_bind host port.

Definition server_activate : M unit := socket_listen request_queue_size.

Definition server_close : M unit := socket_close.

(** [TCPServer.__init__(server_address, RequestHandlerClass)]: a failure
    of [server_bind] or [server_activate] closes the socket and is raised
    again. *)
Definition TCPServer_init (host : string) (port : Z) : M unit :=
  socket_socket ;;
  try_except (server_bind host port ;; server_activate)
             (fun e => Some (server_close ;; raise e)).

(** [BaseServer.__exit__] *)
Definition TCPServer_exit : M unit := server_close.

(** [httpd.serve_forever()]: the loop ends only by an exception. *)
Definition serve_forever : M unit :=
  syscall SysServeForever ;;
  match serve_result sc with
  | Some e => raise e
  | None => fun w => (Forever, w)
  end.

(** [webbrowser.open(url)] *)
Definition webbrowser_open (url : string) : M bool :=
  syscall (SysBrowserOpen url) ;;
  match browser_result sc with
  | inl e => raise e
  | inr launched => ret launched
  end.

(** ** [serve-test-app.py]: [main] *)

Definition PORT : Z := 3000.

Definition msg_starting : string :=
  "🚀 BioID Test App Server starting on port " ++ str_Z PORT.
Definition msg_open_browser : string :=
  "📱 Open your browser to: http://localhost:" ++ str_Z PORT
    ++ "/test-app.html".
Definition msg_keycloak : string :=
  "🔐 Make sure your Keycloak is running on: http://localhost:8080".
Definition msg_press_ctrl_c : string :=
  "⏹️  Press Ctrl+C to stop the server".
Definition msg_browser_opened : string :=
  "✅ Browser opened automatically".
Definition msg_browser_failed : string :=
  "ℹ️  Could not open browser automatically".
Definition msg_stopped : string :=
  String LF "🛑 Server stopped by user".
Definition msg_port_in_use : string :=
  "❌ Port " ++ str_Z PORT
    ++ " is already in use. Try a different port or stop the other service.".
Definition msg_error_starting (errno : option Z) (strerror : string)
  : string :=
  "❌ Error starting server: " ++ str_OSError errno strerror.

Definition test_app_url : string :=
  "http://localhost:" ++ str_Z PORT ++ "/test-app.html".

(** The inner [try] of [main]: the browser is opened and the success
    line printed; the bare [except] catches every exception. *)
Definition open_browser : M unit :=
  try_except
    (bind (webbrowser_open test_app_url) (fun _ =>
     print msg_browser_opened))
    (fun _ => Some (print msg_browser_failed)).

(** The body of the [with] block. *)
Definition main_body : M unit :=
  print msg_starting ;;
  print msg_open_browser ;;
  print msg_keycloak ;;
  print msg_press_ctrl_c ;;
  print "" ;;
  open_browser ;;
  print "" ;;
  serve_forever.

(** The two [except] clauses of the outer [try]. *)
Definition main_clauses (e : exn) : option (M unit) :=
  match e with
  | KeyboardInterrupt => Some (print msg_stopped ;; sys_exit 0)
  | OSError errno strerror =>
      Some (match errno with
            | Some 48 => print msg_port_in_use ;; sys_exit 1
            | _ => print (msg_error_starting errno strerror) ;; sys_exit 1
            end)
  | _ => None
  end.

Definition main : M unit :=
  try_except
    (with_ (TCPServer_init "" PORT) TCPServer_exit main_body)
    main_clauses.

End Process.

(** How the process ends: [sys.exit(code)] and a return from [main] end
    it with an exit code; another exception that leaves [main] ends it with
    a traceback; [Runs]: it is still serving. *)
Inductive termination : Type :=
| Exits (code : Z)
| Traceback (e : exn)
| Runs.

Definition termination_of (r : result unit) : termination :=
  match r with
  | Ret _ => Exits 0
  | Raise (SystemExit code) => Exits code
  | Raise e => Traceback e
  | Forever => Runs
  end.

(** Running the script: [main()] from the initial state. *)
Definition run (sc : scenario) : termination * world :=
  let '(r, w) := main sc initial_world in (termination_of r, w).

(** ** Responses, as the specification describes them *)

(** The three header fields of the CORS policy. *)
Definition cors_headers : list (string * string) :=
  [("Access-Control-Allow-Origin", "*");
   ("Access-Control-Allow-Methods", "GET, POST, OPTIONS");
   ("Access-Control-Allow-Headers", "Content-Type, Authorization")].

Definition header_lines (hdrs : list (string * string)) : list string :=
  map (fun kv => BaseHTTPRequestHandler.header_line (fst kv) (snd kv)) hdrs.

(** The bytes of a response on the wire: the status line, one line per
    header field, the blank line that ends the header section, the body. *)
Definition response (code : Z) (message : string)
           (hdrs : list (string * string)) (body : string) : string :=
  join (BaseHTTPRequestHandler.status_line code message
          :: (header_lines hdrs ++ [CRLF])%list) ++ body.

(** The request of a handler does not change while it is answered. *)
Definition same_request (h0 h : handler) : Prop :=
  command h = command h0 /\ path h = path h0 /\
  request_version h = request_version h0 /\ headers h = headers h0.

(** Nothing of the response has been produced yet. *)
Definition Idle (h0 h : handler) : Prop :=
  same_request h0 h /\ wfile h = wfile h0 /\ _headers_buffer h = [].

(** The status line and the header fields [hdrs] wait in
    [_headers_buffer]; nothing has been written. *)
Definition Pending (h0 : handler) (code : Z) (message : string)
           (hdrs : list (string * string)) (h : handler) : Prop :=
  same_request h0 h /\ wfile h = wfile h0 /\
  _headers_buffer h =
    BaseHTTPRequestHandler.status_line code message :: header_lines hdrs.

(** The bytes [out] have been written after those of [h0], and the buffer
    is empty. *)
Definition Sent (h0 : handler) (out : string) (h : handler) : Prop :=
  same_request h0 h /\ wfile h = wfile h0 ++ out /\ _headers_buffer h = [].

(** A whole response has been written whose header section ends with the
    three CORS fields. *)
Definition Responded (h0 h : handler) : Prop :=
  exists code message hdrs body,
    Sent h0 (response code message (hdrs ++ cors_headers)%list body) h.

(** The reason phrase [send_response_only] puts in the status line. *)
Definition reason_phrase (code : Z) (message : option string) : string :=
  match message with
  | Some m => m
  | None => match responses code with
            | Some (phrase, _) => phrase
            | None => ""
            end
  end.

(** The header fields of the 404 answer of [send_error], without the CORS
    fields. *)
Definition not_found_headers (env : environ) (body : string)
  : list (string * string) :=
  [("Server", version_string env); ("Date", date_time_now env);
   ("Connection", "close"); ("Content-Type", error_content_type);
   ("Content-Length", str_Z (Z.of_nat (String.length body)))].


(** A handler that holds a request and has done nothing about it:
    nothing buffered, nothing written, nothing logged. *)
Definition request_handler (command path version : string)
           (headers : list (string * string)) : handler :=
  mkHandler command path version headers [] "" true [] [] "" "" "" None.

(** The request [handle_one_request] hands to a method, if it gets that
    far with the bytes [rfile] of a new connection: the handler as
    [parse_request] leaves it when it returns [True]; [None] when the
    request line is too long, when there is none or when [parse_request]
    returns [False]. *)
Definition accepted (env : environ) (rfile : string) : option handler :=
  let h := CORSHTTPRequestHandler.new_handler rfile in
  let '(line, fp) := readline rfile 65537 in
  let h := set_raw_requestline line (set_rfile fp h) in
  if (65536 <? Z.of_nat (String.length line)) || String.eqb line ""
  then None
  else
    let '(ok, h) := CORSHTTPRequestHandler.parse_request env h in
    if ok then Some h else None.

(** Nothing has been done for the request yet. *)
Definition Fresh (h : handler) : Prop :=
  wfile h = "" /\ _headers_buffer h = [] /\ fs_log h = [] /\ log h = [] /\
  raised h = None.

(** The last step of [handle_one_request], for the request [h] that
    [parse_request] has accepted: the method of the command is called;
    when the class has none, the answer is 501. *)
Definition call_method (env : environ) (h : handler) : handler :=
  match CORSHTTPRequestHandler.getattr env ("do_" ++ command h) with
  | None =>
      CORSHTTPRequestHandler.send_error env 501
        (Some ("Unsupported method (" ++ repr env (command h) ++ ")"))
        None h
  | Some method => method h
  end.

(** The request has been answered with a whole response, or nothing at
    all has been written for it. *)
Definition Answered (h0 h : handler) : Prop := Responded h0 h \/ Idle h0 h.

(** What [send_head] returns with its file object. *)
Definition HeadSent (h0 : handler)
           (r : option SimpleHTTPRequestHandler.file_obj * handler) : Prop :=
  match fst r with
  | Some _ => Responded h0 (snd r)
  | None => Answered h0 (snd r)
  end.

(** [h'] has written, buffered, looked up, logged and raised what [h]
    has. *)
Definition same_output (h h' : handler) : Prop :=
  wfile h' = wfile h /\ _headers_buffer h' = _headers_buffer h /\
  fs_log h' = fs_log h /\ log h' = log h /\ raised h' = raised h.

(** How [parse_request] leaves the handler [h]: accepted and nothing
    done, or refused with no answer, or refused with the answer of
    [send_error], with status 400 or 431, or with status 505 while the
    request version is still the default one. *)
Definition Parsed (env : environ) (h : handler) (r : bool * handler)
  : Prop :=
  if fst r then same_output h (snd r)
  else
    same_output h (snd r) \/
    exists hx code message explain,
      same_output h hx /\
      (In code [400; 431] \/
       code = 505 /\ request_version hx = "HTTP/0.9") /\
      snd r = CORSHTTPRequestHandler.send_error env code message explain hx.

(** A request line of three words and a header section. *)
Definition request_bytes (method target version : string)
           (fields : list (string * string)) : string :=
  method ++ " " ++ target ++ " " ++ version ++ CRLF ++
  join (header_lines fields) ++ CRLF.

(** [True] when the handler sent a status line with that code. *)
Definition has_status (code : Z) (h : handler) : Prop :=
  exists message hdrs body, wfile h = response code message hdrs body.

(** A scenario with another end of [webbrowser.open], or of
    [serve_forever]. *)
Definition with_browser (r : exn + bool) (sc : scenario) : scenario :=
  mkScenario (socket_result sc) (bind_result sc) (listen_result sc)
             r (serve_result sc).

Definition with_serve (r : option exn) (sc : scenario) : scenario :=
  mkScenario (socket_result sc) (bind_result sc) (listen_result sc)
             (browser_result sc) r.

(** The constructor of [TCPServer] succeeds: the port is bound and the
    socket listens. *)
Definition starts (sc : scenario) : Prop :=
  socket_result sc = None /\ bind_result sc = None /\ listen_result sc = None.

(** The bind fails because the port is occupied, on platform [p]. *)
Definition port_occupied (p : platform) : scenario :=
  mkScenario None
             (Some (OSError (Some (EADDRINUSE p)) "Address already in use"))
             None (inr true) None.

(** The lines [main] prints before it tries the browser. *)
Definition banner : list string :=
  [msg_starting; msg_open_browser; msg_keycloak; msg_press_ctrl_c; ""].

(** The line the inner [try] of [main] prints. *)
Definition browser_line (r : exn + bool) : string :=
  match r with
  | inl _ => msg_browser_failed
  | inr _ => msg_browser_opened
  end.

(** The system calls of a script that reached its serve loop. *)
Definition serving_trace : list sys_event :=
  [SysSocket; SysBind "" 3000; SysListen 5;
   SysBrowserOpen "http://localhost:3000/test-app.html"; SysServeForever].

(** The listening socket while the server serves, and once it is closed. *)
Definition listening_socket : socket :=
  mkSocket false true (Some ("", 3000)) true.

Definition closed_socket : socket :=
  mkSocket true false (Some ("", 3000)) true.

(** The state of the process inside [serve_forever]. *)
Definition serving_world (sc : scenario) : world :=
  mkWorld (banner ++ [browser_line (browser_result sc); ""])
          (Some listening_socket) serving_trace.

(** The bind fails with [e]. *)
Definition bind_fails (e : exn) : scenario :=
  mkScenario None (Some e) None (inr true) None.

(** ** A document root with [test-app.html], for examples *)

Definition demo_mtime : Z := 1700000000.
Definition demo_date : string := "Tue, 14 Nov 2023 22:13:20 GMT".
Definition demo_page : string := "<html><body>BioID test app</body></html>".

Definition demo_fs (p : string) : option node :=
  if String.eqb p "/srv/app" then Some (Directory (Some ["test-app.html"]))
  else if String.eqb p "/srv/app/test-app.html"
       then Some (Regular true demo_page demo_mtime)
       else None.

(** A parser for header sections made of [Name: value] lines. *)
Fixpoint demo_header_field (line name : string) : option (string * string) :=
  match line with
  | EmptyString => None
  | String c s =>
      if Ascii.eqb c ":" then Some (name, strip s)
      else demo_header_field s (name ++ String c EmptyString)
  end.

Definition demo_parse_message (hstring : string) : list (string * string) :=
  flat_map (fun line => match demo_header_field (rstrip_crlf line) "" with
                        | Some field => [field]
                        | None => []
                        end)
           (split_on LF hstring "").

(** [%00] in a request path is a null character in the local name. *)
Definition demo_translate_path (p : string) : string :=
  if String.eqb p "/%00" then "/srv/app/" ++ String Ascii.zero EmptyString
  else "/srv/app" ++ p.

Definition demo_env : environ :=
  mkEnviron
    "SimpleHTTP/0.6 Python/3.11.2"
    "Wed, 04 Nov 2026 10:00:00 GMT"
    (fun _ => demo_date)
    demo_translate_path
    demo_fs
    (fun a b => a ++ "/" ++ b)
    (fun p => Some p)
    (fun p => p ++ "/")
    (fun p => if String.eqb (snd (splitext p)) ".html"
              then Some "text/html" else None)
    (fun v => if String.eqb v demo_date
              then Some (mkDatetime TzUTC demo_mtime) else None)
    "utf-8"
    (fun _ _ => Some "<html>listing</html>")
    (fun _ _ _ => "<html>error</html>")
    (fun s => "'" ++ s ++ "'")
    demo_parse_message
    (fun _ => true)
    (fun _ => false).

(** The bytes of some requests. *)
Definition demo_get : string :=
  request_bytes "GET" "/test-app.html" "HTTP/1.1"
                [("Host", "localhost:3000")].


Definition demo_get_missing : string :=
  request_bytes "GET" "/missing.html" "HTTP/1.1"
                [("Host", "localhost:3000")].

Definition demo_options : string :=
  request_bytes "OPTIONS" "/anything" "HTTP/1.1"
                [("Origin", "http://localhost:8080")].

Definition demo_put : string :=
  request_bytes "PUT" "/test-app.html" "HTTP/1.1" [].

(** A simple request of HTTP/0.9: the method and the path, no version,
    no header section. *)
Definition demo_simple_get : string := "GET /test-app.html" ++ CRLF.

(** The server starts, the browser opens, the user presses Ctrl+C. *)
Definition demo_interrupted : scenario :=
  mkScenario None None None (inr true) (Some KeyboardInterrupt).

(** ** Running the script in any scenario *)

(** The exception that ends the constructor of [TCPServer], if one does:
    that of the first of [socket], [bind] and [listen] that fails. *)
Definition constructor_failure (sc : scenario) : option exn :=
  match socket_result sc with
  | Some e => Some e
  | None =>
      match bind_result sc with
      | Some e => Some e
      | None => listen_result sc
      end
  end.

(** The exception that leaves the [with] statement of [main], if one
    does: that of the constructor, or else that of the serve loop. *)
Definition first_failure (sc : scenario) : option exn :=
  match constructor_failure sc with
  | Some e => Some e
  | None => serve_result sc
  end.

(** The state of the process when the constructor has raised: no socket
    when [socket] failed, a closed one when [bind] or [listen] did. *)
Definition failed_world (sc : scenario) : world :=
  match socket_result sc with
  | Some _ => mkWorld [] None [SysSocket]
  | None =>
      match bind_result sc with
      | Some _ =>
          mkWorld [] (Some (mkSocket true false None false))
                  [SysSocket; SysBind "" 3000; SysClose]
      | None =>
          mkWorld [] (Some (mkSocket true false (Some ("", 3000)) false))
                  [SysSocket; SysBind "" 3000; SysListen 5; SysClose]
      end
  end.

(** How many times the process gave a descriptor back to the system. *)
Definition is_close (e : sys_event) : bool :=
  match e with SysClose => true | _ => false end.

Definition count_close (tr : list sys_event) : nat :=
  List.length (filter is_close tr).

Definition is_browser_open (e : sys_event) : bool :=
  match e with SysBrowserOpen _ => true | _ => false end.

Definition is_serve_forever (e : sys_event) : bool :=
  match e with SysServeForever => true | _ => false end.

(** The lines the two [except] clauses of [main] print. *)
Definition is_final_line (l : string) : Prop :=
  l = msg_stopped \/ l = msg_port_in_use \/
  exists errno strerror, l = msg_error_starting errno strerror.

(** The header fields of an answer of [send_error] that has a body,
    without the CORS fields. *)
Definition error_headers (env : environ) (body : string)
  : list (string * string) :=
  [("Server", version_string env); ("Date", date_time_now env);
   ("Connection", "close"); ("Content-Type", error_content_type);
   ("Content-Length", str_Z (Z.of_nat (String.length body)))].

(** The header fields of the answer of [list_directory], without the CORS
    fields. *)
Definition listing_headers (env : environ) (encoded : string)
  : list (string * string) :=
  [("Server", version_string env); ("Date", date_time_now env);
   ("Content-type", "text/html; charset=" ++ filesystemencoding env);
   ("Content-Length", str_Z (Z.of_nat (String.length encoded)))].

(** What [list_directory] hands to the page for the names [names] of the
    directory [p]: each name, in the order of the lower-case names, with
    what [os.path.isdir] and [os.path.islink] say of the entry; and the
    two tests it makes for each name. *)
Definition listing_entries (env : environ) (p : string) (names : list string)
  : list (string * bool * bool) :=
  map (fun name =>
         (name, SimpleHTTPRequestHandler.isdir env (path_join env p name),
          islink env (path_join env p name)))
      (sort_by_lower names).

Definition listing_lookups (env : environ) (p : string) (names : list string)
  : list fs_event :=
  flat_map (fun name => [FsIsDir (path_join env p name);
                         FsIsLink (path_join env p name)])
           (sort_by_lower names).

(** The lookups of [send_head] and [list_directory] for a directory [p]
    without index file. *)
Definition listing_fs_log (env : environ) (p : string)
           (listing : option (list string)) : list fs_event :=
  ([FsIsDir p; FsIsFile (path_join env p "index.html");
    FsIsFile (path_join env p "index.htm"); FsListDir p]
     ++ match listing with
        | Some names => listing_lookups env p names
        | None => []
        end)%list.

(** The header fields of the redirection of [send_head], without the CORS
    fields. *)
Definition redirect_headers (env : environ) (path : string)
  : list (string * string) :=
  [("Server", version_string env); ("Date", date_time_now env);
   ("Location", redirect_url env path); ("Content-Length", "0")].

(** The status codes the handler sends in a status line. *)
Definition sent_codes : list Z := [200; 301; 304; 400; 404; 414; 431; 501].

(** A status line with one of these codes waits in the buffer. *)
Definition PendingPlain (h0 h : handler) : Prop :=
  exists code message hdrs,
    Pending h0 code message hdrs h /\ In code sent_codes.

(** A whole response has been written: one of these codes, then header
    fields that end with the three CORS fields. *)
Definition RespondedPlain (h0 h : handler) : Prop :=
  exists code message hdrs body,
    Sent h0 (response code message (hdrs ++ cors_headers)%list body) h /\
    In code sent_codes.

(** What [send_head] returns with its file object, with the status
    codes. *)
Definition HeadPlain (h0 : handler)
           (r : option SimpleHTTPRequestHandler.file_obj * handler) : Prop :=
  match fst r with
  | Some _ => RespondedPlain h0 (snd r)
  | None => RespondedPlain h0 (snd r) \/ Idle h0 (snd r)
  end.

(** ** A document root with a directory, for examples *)

Definition demo_dir_fs (p : string) : option node :=
  if String.eqb p "/srv/app/" then Some (Directory (Some ["test-app.html"]))
  else if String.eqb p "/srv/app/docs"
       then Some (Directory (Some ["index.html"]))
  else if String.eqb p "/srv/app/docs/"
       then Some (Directory (Some ["index.html"]))
  else if String.eqb p "/srv/app/docs/index.html"
       then Some (Regular true "<html>docs</html>" demo_mtime)
  else if String.eqb p "/srv/app/test-app.html"
       then Some (Regular true demo_page demo_mtime)
  else if String.eqb p "/srv/app/secret.html"
       then Some (Regular false "<html>secret</html>" demo_mtime)
  else None.

Definition demo_dir_env : environ :=
  mkEnviron
    (version_string demo_env) (date_time_now demo_env)
    (date_time_string demo_env) (translate_path demo_env)
    demo_dir_fs
    (fun a b => if endswith_slash a then a ++ b else a ++ "/" ++ b)
    (urlsplit_path demo_env) (redirect_url demo_env)
    (mimetypes_guess_type demo_env) (parsedate_to_datetime demo_env)
    (filesystemencoding demo_env) (render_listing demo_env)
    (error_message demo_env) (repr demo_env)
    (parse_message demo_env) (fsencodable demo_env) (islink demo_env).

(** ** Lemmas on strings *)

Lemma append_nil_r (s : string) : s ++ "" = s.
Proof. induction s as [|c s IH]; simpl; [reflexivity | now rewrite IH]. Qed.

Lemma append_assoc (s1 s2 s3 : string) : (s1 ++ s2) ++ s3 = s1 ++ s2 ++ s3.
Proof.
  induction s1 as [|c s1 IH]; simpl; [reflexivity | now rewrite IH].
Qed.

Lemma join_cons (s : string) (l : list string) : join (s :: l) = s ++ join l.
Proof.
  unfold join. destruct l as [|t l]; simpl.
  - now rewrite append_nil_r.
  - reflexivity.
Qed.

Lemma join_app (l1 l2 : list string) :
  join (l1 ++ l2)%list = join l1 ++ join l2.
Proof.
  induction l1 as [|s l1 IH].
  - reflexivity.
  - rewrite <- app_comm_cons, !join_cons, IH. now rewrite append_assoc.
Qed.

Lemma header_lines_app (l1 l2 : list (string * string)) :
  header_lines (l1 ++ l2)%list = (header_lines l1 ++ header_lines l2)%list.
Proof. apply map_app. Qed.

(** ** Lemmas on the header buffer *)

Section HeaderBuffer.

Import BaseHTTPRequestHandler.

Variable env : environ.
Variable h0 : handler.
Hypothesis http1x : not_http09 h0 = true.

Lemma same_request_not_http09 h :
  same_request h0 h -> not_http09 h = true.
Proof.
  intros (_ & _ & Hv & _). unfold not_http09 in *. now rewrite Hv.
Qed.

Lemma idle_refl : _headers_buffer h0 = [] -> Idle h0 h0.
Proof. intros Hb. repeat split; auto. Qed.

Lemma idle_fs_access e h : Idle h0 h -> Idle h0 (fs_access e h).
Proof. intros ((Hc & Hp & Hv & Hh) & Hw & Hb). repeat split; assumption. Qed.

Lemma idle_log_message e h : Idle h0 h -> Idle h0 (log_message e h).
Proof. intros ((Hc & Hp & Hv & Hh) & Hw & Hb). repeat split; assumption. Qed.

(** [send_header] touches the buffer and [close_connection] only. *)
Lemma send_header_buffer k v h :
  not_http09 h = true ->
  same_request h (send_header k v h) /\
  wfile (send_header k v h) = wfile h /\
  fs_log (send_header k v h) = fs_log h /\
  _headers_buffer (send_header k v h)
    = (_headers_buffer h ++ [header_line k v])%list.
Proof.
  intros H. unfold send_header. rewrite H.
  destruct (String.eqb (lower k) "connection");
    [destruct (String.eqb (lower v) "close");
     [|destruct (String.eqb (lower v) "keep-alive")]|];
    repeat split; reflexivity.
Qed.

Lemma same_request_trans h1 h2 :
  same_request h0 h1 -> same_request h1 h2 -> same_request h0 h2.
Proof.
  intros (Hc & Hp & Hv & Hh) (Hc' & Hp' & Hv' & Hh').
  repeat split; congruence.
Qed.

Lemma pending_send_header code message hdrs k v h :
  Pending h0 code message hdrs h ->
  Pending h0 code message (hdrs ++ [(k, v)])%list (send_header k v h).
Proof.
  intros (Hr & Hw & Hb).
  destruct (send_header_buffer k v h (same_request_not_http09 h Hr))
    as (Hr' & Hw' & _ & Hb').
  split; [eapply same_request_trans; eassumption|].
  split; [congruence|].
  rewrite Hb', Hb, header_lines_app. reflexivity.
Qed.

Lemma idle_send_response code message h :
  Idle h0 h ->
  Pending h0 code (reason_phrase code message)
          [("Server", version_string env); ("Date", date_time_now env)]
          (send_response env code message h).
Proof.
  intros (Hr & Hw & Hb).
  assert (Hp : Pending h0 code (reason_phrase code message) []
                       (send_response_only code message
                                           (log_request code h))).
  { unfold send_response_only, log_request.
    replace (not_http09 (log_message (LogRequest code) h)) with true
      by (symmetry; apply same_request_not_http09;
          destruct Hr as (? & ? & ? & ?); repeat split; assumption).
    destruct Hr as (Hc & Hpa & Hv & Hh).
    repeat split; simpl; try assumption.
    rewrite Hb. reflexivity. }
  unfold send_response.
  apply (pending_send_header _ _ [("Server", version_string env)]).
  apply (pending_send_header _ _ []). exact Hp.
Qed.

(** The override of [end_headers]: the buffer is written out with the
    three CORS lines and the blank line after what was pending. *)
Lemma cors_end_headers_flush h :
  not_http09 h = true ->
  same_request h (CORSHTTPRequestHandler.end_headers h) /\
  fs_log (CORSHTTPRequestHandler.end_headers h) = fs_log h /\
  _headers_buffer (CORSHTTPRequestHandler.end_headers h) = [] /\
  wfile (CORSHTTPRequestHandler.end_headers h)
    = wfile h ++ join (_headers_buffer h ++ header_lines cors_headers
                         ++ [CRLF])%list.
Proof.
  intros H. unfold CORSHTTPRequestHandler.end_headers.
  set (h1 := send_header "Access-Control-Allow-Origin" "*" h).
  set (h2 := send_header "Access-Control-Allow-Methods"
                         "GET, POST, OPTIONS" h1).
  set (h3 := send_header "Access-Control-Allow-Headers"
                         "Content-Type, Authorization" h2).
  destruct (send_header_buffer "Access-Control-Allow-Origin" "*" h H)
    as (R1 & W1 & F1 & B1). fold h1 in R1, W1, F1, B1.
  assert (H1 : not_http09 h1 = true).
  { unfold not_http09 in *. destruct R1 as (_ & _ & Hv & _).
    now rewrite Hv. }
  destruct (send_header_buffer "Access-Control-Allow-Methods"
                               "GET, POST, OPTIONS" h1 H1)
    as (R2 & W2 & F2 & B2). fold h2 in R2, W2, F2, B2.
  assert (H2 : not_http09 h2 = true).
  { unfold not_http09 in *. destruct R2 as (_ & _ & Hv & _).
    now rewrite Hv. }
  destruct (send_header_buffer "Access-Control-Allow-Headers"
                               "Content-Type, Authorization" h2 H2)
    as (R3 & W3 & F3 & B3). fold h3 in R3, W3, F3, B3.
  assert (H3 : not_http09 h3 = true).
  { unfold not_http09 in *. destruct R3 as (_ & _ & Hv & _).
    now rewrite Hv. }
  unfold end_headers. rewrite H3. unfold flush_headers. simpl.
  destruct R1 as (? & ? & ? & ?), R2 as (? & ? & ? & ?),
           R3 as (? & ? & ? & ?).
  repeat split; cbn; try congruence.
  rewrite B3, B2, B1, W3, W2, W1.
  rewrite <- !app_assoc. reflexivity.
Qed.

Lemma pending_cors_end_headers code message hdrs h :
  Pending h0 code message hdrs h ->
  Sent h0 (response code message (hdrs ++ cors_headers)%list "")
       (CORSHTTPRequestHandler.end_headers h).
Proof.
  intros (Hr & Hw & Hb).
  destruct (cors_end_headers_flush h (same_request_not_http09 h Hr))
    as (Hr' & _ & Hb' & Hw').
  split; [eapply same_request_trans; eassumption|].
  split; [|assumption].
  rewrite Hw', Hw, Hb. unfold response.
  rewrite append_nil_r, header_lines_app, <- app_comm_cons, <- app_assoc.
  reflexivity.
Qed.

Lemma sent_wfile_write code message hdrs body data h :
  Sent h0 (response code message hdrs body) h ->
  Sent h0 (response code message hdrs (body ++ data)) (wfile_write data h).
Proof.
  intros ((Hc & Hp & Hv & Hh) & Hw & Hb).
  repeat split; try assumption.
  simpl. rewrite Hw. unfold response. now rewrite !append_assoc.
Qed.

Lemma sent_fs_access out e h : Sent h0 out h -> Sent h0 out (fs_access e h).
Proof. intros ((Hc & Hp & Hv & Hh) & Hw & Hb). repeat split; assumption. Qed.

End HeaderBuffer.

(** ** Every method of the handler answers with a whole response *)

Section Responses.

Import BaseHTTPRequestHandler SimpleHTTPRequestHandler.

Variable env : environ.
Variable h0 : handler.
Hypothesis http1x : not_http09 h0 = true.

Local Abbreviation cors_end := CORSHTTPRequestHandler.end_headers.

Lemma pending_responded code message hdrs h :
  Pending h0 code message hdrs h -> Responded h0 (cors_end h).
Proof.
  intros Hp. exists code, message, hdrs, "".
  now apply pending_cors_end_headers.
Qed.

Lemma responded_wfile_write data h :
  Responded h0 h -> Responded h0 (wfile_write data h).
Proof.
  intros (code & message & hdrs & body & Hs).
  exists code, message, hdrs, (body ++ data).
  now apply sent_wfile_write.
Qed.

Lemma responded_fs_access e h :
  Responded h0 h -> Responded h0 (fs_access e h).
Proof.
  intros (code & message & hdrs & body & Hs).
  exists code, message, hdrs, body. now apply sent_fs_access.
Qed.

Lemma idle_raise name h : Idle h0 h -> Idle h0 (raise_from_method name h).
Proof. intros ((Hc & Hp & Hv & Hh) & Hw & Hb). repeat split; assumption. Qed.

Lemma idle_list_entries p l h :
  Idle h0 h ->
  Idle h0 (fold_left (fun h name => list_entry env p name h) l h).
Proof.
  revert h. induction l as [|name l IH]; intros h Hi; [exact Hi|].
  apply IH. unfold list_entry. now repeat apply idle_fs_access.
Qed.

Lemma send_error_responded code message explain h :
  Idle h0 h ->
  Responded h0 (send_error env cors_end code message explain h).
Proof.
  intros Hi. unfold send_error.
  destruct (match responses code with
            | Some sl => sl
            | None => ("???", "???")
            end) as [shortmsg longmsg].
  set (m := match message with Some m => m | None => shortmsg end).
  set (x := match explain with Some e => e | None => longmsg end).
  pose proof (idle_send_response env h0 http1x code (Some m) _
                (idle_log_message h0 (LogError code m) h Hi)) as Hp.
  apply (pending_send_header h0 http1x _ _ _ "Connection" "close") in Hp.
  fold (log_error code m h) in Hp.
  set (hs := send_header "Connection" "close"
               (send_response env code (Some m) (log_error code m h))) in *.
  destruct ((200 <=? code) &&
            negb ((code =? 204) || (code =? 205) || (code =? 304))).
  - apply (pending_send_header h0 http1x _ _ _
             "Content-Type" error_content_type) in Hp.
    apply (pending_send_header h0 http1x _ _ _ "Content-Length"
             (str_Z (Z.of_nat (String.length (error_message env code m x)))))
      in Hp.
    apply pending_responded in Hp.
    match goal with
    | |- Responded _ (if ?b then _ else _) => destruct b
    end; [apply responded_wfile_write|]; exact Hp.
  - apply pending_responded in Hp.
    match goal with
    | |- Responded _ (if ?b then _ else _) => destruct b
    end; [apply responded_wfile_write|]; exact Hp.
Qed.

Lemma list_directory_head_sent p h :
  Idle h0 h -> HeadSent h0 (list_directory env cors_end p h).
Proof.
  intros Hi. unfold list_directory, HeadSent.
  apply (idle_fs_access h0 (FsListDir p)) in Hi.
  destruct (listdir env p) as [l|]; cbn [fst snd].
  - apply (idle_list_entries p (sort_by_lower l)) in Hi.
    destruct (render_listing env _ _) as [encoded|]; cbn [fst snd].
    + eapply pending_responded.
      do 2 apply (pending_send_header h0 http1x).
      apply (idle_send_response env h0 http1x). exact Hi.
    + right. now apply idle_raise.
  - left. now apply send_error_responded.
Qed.

Lemma send_head_file_head_sent p h :
  Idle h0 h -> HeadSent h0 (send_head_file env cors_end p h).
Proof.
  intros Hi. unfold send_head_file, HeadSent.
  destruct (endswith_slash p); cbn [fst snd].
  { left. now apply send_error_responded. }
  pose proof (idle_fs_access h0 (FsOpen p) h Hi) as Hi'.
  destruct (open_rb env p) as [content mtime| |]; cbn [fst snd].
  - apply (idle_fs_access h0 (FsStat p)) in Hi'.
    destruct (not_modified_since env _ mtime); cbn [fst snd].
    + left. eapply pending_responded.
      apply (idle_send_response env h0 http1x). exact Hi'.
    + eapply pending_responded.
      do 3 apply (pending_send_header h0 http1x).
      apply (idle_send_response env h0 http1x). exact Hi'.
  - left. now apply send_error_responded.
  - right. now apply idle_raise.
Qed.

Lemma send_head_head_sent h :
  Idle h0 h -> HeadSent h0 (send_head env cors_end h).
Proof.
  intros Hi. unfold send_head.
  set (p := translate_path env (path h)).
  pose proof (idle_fs_access h0 (FsIsDir p) h Hi) as Hi1.
  destruct (isdir env p).
  - destruct (urlsplit_path env _) as [parts_path|].
    + destruct (endswith_slash parts_path); cbn [negb].
      * set (i1 := path_join env p "index.html").
        pose proof (idle_fs_access h0 (FsIsFile i1) _ Hi1) as Hi2.
        destruct (isfile env i1).
        -- now apply send_head_file_head_sent.
        -- set (i2 := path_join env p "index.htm").
           pose proof (idle_fs_access h0 (FsIsFile i2) _ Hi2) as Hi3.
           destruct (isfile env i2).
           ++ now apply send_head_file_head_sent.
           ++ now apply list_directory_head_sent.
      * left. eapply pending_responded.
        do 2 apply (pending_send_header h0 http1x).
        apply (idle_send_response env h0 http1x). exact Hi1.
    + right. now apply idle_raise.
  - now apply send_head_file_head_sent.
Qed.

Lemma do_GET_answered h :
  Idle h0 h -> Answered h0 (CORSHTTPRequestHandler.do_GET env h).
Proof.
  intros Hi. unfold CORSHTTPRequestHandler.do_GET, do_GET.
  pose proof (send_head_head_sent h Hi) as Hr. unfold HeadSent in Hr.
  destruct (send_head env cors_end h) as [[f|] h']; cbn [fst snd] in Hr.
  - left. destruct f; cbn [copyfile].
    + apply responded_wfile_write. now apply responded_fs_access.
    + now apply responded_wfile_write.
  - exact Hr.
Qed.

Lemma do_HEAD_answered h :
  Idle h0 h -> Answered h0 (CORSHTTPRequestHandler.do_HEAD env h).
Proof.
  intros Hi. unfold CORSHTTPRequestHandler.do_HEAD, do_HEAD.
  pose proof (send_head_head_sent h Hi) as Hr. unfold HeadSent in Hr.
  destruct (send_head env cors_end h) as [[f|] h']; cbn [fst snd] in Hr.
  - now left.
  - exact Hr.
Qed.

Lemma do_OPTIONS_sent h :
  Idle h0 h ->
  Sent h0 (response 200 "OK"
             ([("Server", version_string env);
               ("Date", date_time_now env)] ++ cors_headers)%list "")
       (CORSHTTPRequestHandler.do_OPTIONS env h).
Proof.
  intros Hi. unfold CORSHTTPRequestHandler.do_OPTIONS.
  apply (pending_cors_end_headers h0 http1x).
  apply (idle_send_response env h0 http1x 200 None). exact Hi.
Qed.

Lemma call_method_answered h :
  Idle h0 h -> Answered h0 (call_method env h).
Proof.
  intros Hi. unfold call_method.
  unfold CORSHTTPRequestHandler.getattr.
  destruct (String.eqb _ "do_OPTIONS").
  { left. eexists _, _, _, _. now apply do_OPTIONS_sent. }
  destruct (String.eqb _ "do_GET").
  { now apply do_GET_answered. }
  destruct (String.eqb _ "do_HEAD").
  { now apply do_HEAD_answered. }
  left. now apply send_error_responded.
Qed.

End Responses.

(** ** What the methods leave unchanged *)

Section Unchanged.

Import BaseHTTPRequestHandler SimpleHTTPRequestHandler.

Variable env : environ.

Local Abbreviation cors_end := CORSHTTPRequestHandler.end_headers.

Lemma send_header_request_version k v h :
  request_version (send_header k v h) = request_version h.
Proof.
  unfold send_header.
  destruct (not_http09 h); destruct (String.eqb (lower k) "connection");
    destruct (String.eqb (lower v) "close");
    destruct (String.eqb (lower v) "keep-alive"); reflexivity.
Qed.

Lemma send_response_request_version code message h :
  request_version (send_response env code message h) = request_version h.
Proof.
  unfold send_response. rewrite !send_header_request_version.
  unfold send_response_only.
  destruct (not_http09 _); reflexivity.
Qed.

Lemma cors_end_headers_request_version h :
  request_version (cors_end h) = request_version h.
Proof.
  unfold CORSHTTPRequestHandler.end_headers.
  set (h3 := send_header "Access-Control-Allow-Headers" _ _).
  transitivity (request_version h3).
  - unfold end_headers. destruct (not_http09 h3); reflexivity.
  - subst h3. now rewrite !send_header_request_version.
Qed.

Lemma send_error_request_version code message explain h :
  request_version (send_error env cors_end code message explain h)
  = request_version h.
Proof.
  unfold send_error.
  destruct (match responses code with
            | Some sl => sl
            | None => ("???", "???")
            end) as [shortmsg longmsg].
  match goal with
  | |- request_version (if ?b then wfile_write ?d ?hh else _) = _ =>
      transitivity (request_version hh); [destruct b; reflexivity|]
  end.
  rewrite cors_end_headers_request_version.
  match goal with
  | |- request_version (if ?b then _ else _) = _ => destruct b
  end;
    rewrite ?send_header_request_version, send_response_request_version;
    reflexivity.
Qed.

Lemma list_entries_request_version p l h :
  request_version (fold_left (fun h name => list_entry env p name h) l h)
  = request_version h.
Proof.
  revert h. induction l as [|name l IH]; intros h; [reflexivity|].
  cbn [fold_left]. now rewrite IH.
Qed.

Lemma list_directory_request_version p h :
  request_version (snd (list_directory env cors_end p h))
  = request_version h.
Proof.
  unfold list_directory.
  destruct (listdir env p) as [l|]; cbn [snd].
  - destruct (render_listing env _ _) as [encoded|]; cbn [snd].
    + rewrite cors_end_headers_request_version,
        !send_header_request_version, send_response_request_version.
      now rewrite list_entries_request_version.
    + cbn [request_version raise_from_method].
      now rewrite list_entries_request_version.
  - now rewrite send_error_request_version.
Qed.

Lemma send_head_file_request_version p h :
  request_version (snd (send_head_file env cors_end p h))
  = request_version h.
Proof.
  unfold send_head_file.
  destruct (endswith_slash p); cbn [snd].
  { now rewrite send_error_request_version. }
  destruct (open_rb env p) as [content mtime| |]; cbn [snd].
  - destruct (not_modified_since env _ mtime); cbn [snd];
      now rewrite cors_end_headers_request_version,
        ?send_header_request_version, send_response_request_version.
  - now rewrite send_error_request_version.
  - reflexivity.
Qed.

Lemma send_head_request_version h :
  request_version (snd (send_head env cors_end h)) = request_version h.
Proof.
  unfold send_head.
  destruct (isdir env _).
  - destruct (urlsplit_path env _) as [parts_path|]; [|reflexivity].
    destruct (endswith_slash parts_path); cbn [negb].
    + destruct (isfile env _).
      * now rewrite send_head_file_request_version.
      * destruct (isfile env _).
        -- now rewrite send_head_file_request_version.
        -- now rewrite list_directory_request_version.
    + cbn [snd].
      now rewrite cors_end_headers_request_version,
        !send_header_request_version, send_response_request_version.
  - now rewrite send_head_file_request_version.
Qed.

Lemma call_method_request_version h :
  request_version (call_method env h) = request_version h.
Proof.
  unfold call_method, CORSHTTPRequestHandler.getattr.
  destruct (String.eqb _ "do_OPTIONS").
  { unfold CORSHTTPRequestHandler.do_OPTIONS.
    now rewrite cors_end_headers_request_version,
      send_response_request_version. }
  destruct (String.eqb _ "do_GET").
  { unfold CORSHTTPRequestHandler.do_GET, do_GET.
    pose proof (send_head_request_version h) as Hv.
    destruct (send_head env cors_end h) as [[f|] h']; cbn [snd] in Hv;
      [destruct f|]; exact Hv. }
  destruct (String.eqb _ "do_HEAD").
  { unfold CORSHTTPRequestHandler.do_HEAD, do_HEAD.
    pose proof (send_head_request_version h) as Hv.
    now destruct (send_head env cors_end h) as [f h']. }
  apply send_error_request_version.
Qed.

End Unchanged.

(** ** [parse_request] and the first steps of [handle_one_request] *)

Section Parsing.

Import BaseHTTPRequestHandler.

Variable env : environ.

Local Abbreviation cors_end := CORSHTTPRequestHandler.end_headers.

Lemma same_output_refl h : same_output h h.
Proof. repeat split. Qed.

Lemma same_output_trans h1 h2 h3 :
  same_output h1 h2 -> same_output h2 h3 -> same_output h1 h3.
Proof.
  intros (A1 & A2 & A3 & A4 & A5) (B1 & B2 & B3 & B4 & B5).
  repeat split; congruence.
Qed.

Lemma parsed_trans h1 h2 r :
  same_output h1 h2 -> Parsed env h2 r -> Parsed env h1 r.
Proof.
  intros H12. unfold Parsed. destruct (fst r).
  - now apply same_output_trans.
  - intros [H|(hx & code & message & explain & Hx & Hc & Hr)].
    + left. now apply (same_output_trans h1 h2).
    + right. exists hx, code, message, explain.
      split; [now apply (same_output_trans h1 h2)|split; assumption].
Qed.

Lemma parsed_send_error h code message explain :
  In code [400; 431] \/ code = 505 /\ request_version h = "HTTP/0.9" ->
  Parsed env h (false, send_error env cors_end code message explain h).
Proof.
  intros Hc. right. exists h, code, message, explain.
  split; [apply same_output_refl|split; [exact Hc|reflexivity]].
Qed.

Ltac refused := apply parsed_send_error; left; cbn; tauto.

Lemma protocol_below_1_1 : str_ge protocol_version "HTTP/1.1" = false.
Proof. reflexivity. Qed.

Lemma parse_request_headers_parsed h :
  Parsed env h (parse_request_headers env cors_end h).
Proof.
  unfold parse_request_headers.
  destruct (_read_headers _MAXHEADERS (rfile h) []) as [r fp].
  destruct r as [lines|err|err].
  - rewrite protocol_below_1_1, !andb_false_r. cbn [andb].
    match goal with
    | |- Parsed _ _ (true, if ?b then _ else _) => destruct b
    end; repeat split.
  - apply (parsed_trans h (set_rfile fp h)); [repeat split|].
    refused.
  - apply (parsed_trans h (set_rfile fp h)); [repeat split|].
    refused.
Qed.

Lemma parse_request_words_parsed words h :
  Parsed env h (parse_request_words env cors_end words h).
Proof.
  unfold parse_request_words.
  destruct (negb _).
  { refused. }
  destruct (List.length words =? 2)%nat; cbn [andb].
  - destruct (negb (String.eqb (nth 0 words "") "GET")).
    + apply (parsed_trans h (set_close_connection true h)); [repeat split|].
      refused.
    + match goal with
      | |- Parsed _ _ (parse_request_headers _ _ ?hh) =>
          apply (parsed_trans h hh);
            [|apply parse_request_headers_parsed]
      end.
      match goal with
      | |- same_output _ (if ?b then _ else _) => destruct b
      end; repeat split.
  - match goal with
    | |- Parsed _ _ (parse_request_headers _ _ ?hh) =>
        apply (parsed_trans h hh);
          [|apply parse_request_headers_parsed]
    end.
    match goal with
    | |- same_output _ (if ?b then _ else _) => destruct b
    end; repeat split.
Qed.

Lemma parse_request_parsed h :
  Parsed env h (parse_request env cors_end h).
Proof.
  unfold parse_request.
  set (hq := set_requestline _ _).
  assert (Hq : same_output h hq) by (repeat split).
  destruct (List.length (split (requestline hq)) =? 0)%nat.
  { left. exact Hq. }
  destruct (3 <=? List.length (split (requestline hq)))%nat.
  - destruct (parse_version _) as [[base_version_number version_number]|].
    + rewrite protocol_below_1_1, andb_false_r.
      destruct (pair_ge version_number (2, 0)).
      * apply (parsed_trans h hq _ Hq). apply parsed_send_error.
        right. split; reflexivity.
      * match goal with
        | |- Parsed _ _ (parse_request_words _ _ _ ?hh) =>
            apply (parsed_trans h hh);
              [repeat split|apply parse_request_words_parsed]
        end.
    + apply (parsed_trans h hq _ Hq). refused.
  - apply (parsed_trans h hq _ Hq). apply parse_request_words_parsed.
Qed.

(** How [handle_one_request] ends on a new connection: with no answer,
    with an answer of [send_error] to a request it refuses, or with the
    method of the request it has accepted. *)
Lemma handle_one_request_cases bytes :
  let h0 := CORSHTTPRequestHandler.new_handler bytes in
  let hf := CORSHTTPRequestHandler.handle_one_request env h0 in
  (accepted env bytes = None /\ same_output h0 hf) \/
  (accepted env bytes = None /\
   exists hx code message explain,
      same_output h0 hx /\
      (In code [400; 414; 431] \/
       code = 505 /\ request_version hx = "HTTP/0.9") /\
      hf = CORSHTTPRequestHandler.send_error env code message explain hx) \/
  (exists h1,
      accepted env bytes = Some h1 /\ same_output h0 h1 /\
      hf = call_method env h1).
Proof.
  intros h0 hf. subst hf.
  unfold CORSHTTPRequestHandler.handle_one_request, accepted.
  change (rfile h0) with bytes.
  destruct (readline bytes 65537) as [line fp].
  fold h0.
  set (hr := set_raw_requestline line (set_rfile fp h0)).
  change (raw_requestline hr) with line.
  destruct (65536 <? Z.of_nat (String.length line)); cbn [orb].
  { right. left. split; [reflexivity|]. eexists _, 414, None, None.
    split; [|split; [left; cbn; tauto|reflexivity]]. repeat split. }
  destruct (String.eqb line "").
  { left. split; [reflexivity|]. repeat split. }
  pose proof (parse_request_parsed hr) as Hp.
  fold (CORSHTTPRequestHandler.parse_request env hr) in Hp.
  destruct (CORSHTTPRequestHandler.parse_request env hr) as [ok h1].
  unfold Parsed in Hp. cbn [fst snd] in Hp.
  destruct ok; cbn [negb].
  - right. right. exists h1.
    split; [reflexivity|]. split; [|reflexivity].
    apply (same_output_trans h0 hr); [repeat split|exact Hp].
  - destruct Hp as [Hp|(hx & code & message & explain & Hx & Hc & Hr)].
    + left. split; [reflexivity|].
      apply (same_output_trans h0 hr); [repeat split|exact Hp].
    + right. left. split; [reflexivity|].
      exists hx, code, message, explain.
      split; [apply (same_output_trans h0 hr); [repeat split|exact Hx]|].
      split; [|exact Hr].
      destruct Hc as [Hc|Hc]; [left; cbn in Hc |- *; tauto|now right].
Qed.

Lemma same_output_new_fresh bytes h :
  same_output (CORSHTTPRequestHandler.new_handler bytes) h -> Fresh h.
Proof. intros (A1 & A2 & A3 & A4 & A5). repeat split; assumption. Qed.

(** An accepted request is handed to its method, and nothing has been
    done for it before. *)
Lemma accepted_call_method bytes h1 :
  accepted env bytes = Some h1 ->
  Fresh h1 /\
  CORSHTTPRequestHandler.handle_one_request
    env (CORSHTTPRequestHandler.new_handler bytes)
  = call_method env h1.
Proof.
  intros Ha.
  destruct (handle_one_request_cases bytes)
    as [(Hn & _)|[(Hn & _)|(h1' & Ha' & Ho & Hr)]];
    try (rewrite Ha in Hn; discriminate Hn).
  rewrite Ha in Ha'. injection Ha' as <-.
  split; [now apply (same_output_new_fresh bytes)|exact Hr].
Qed.

End Parsing.
(** ** The handler: CORS headers, preflight, files *)

Lemma not_http09_iff h :
  request_version h <> "HTTP/0.9" <->
  BaseHTTPRequestHandler.not_http09 h = true.
Proof.
  unfold BaseHTTPRequestHandler.not_http09.
  rewrite negb_true_iff. symmetry. apply String.eqb_neq.
Qed.

Lemma fresh_idle h : Fresh h -> Idle h h.
Proof. intros (_ & Hb & _). repeat split. exact Hb. Qed.

Lemma answered_fresh h0 h :
  Fresh h0 -> Answered h0 h ->
  _headers_buffer h = [] /\
  (wfile h = "" \/
   exists code message hdrs body,
     wfile h = response code message (hdrs ++ cors_headers)%list body).
Proof.
  intros (Hw0 & _) [(code & message & hdrs & body & _ & Hw & Hb)
                   |(_ & Hw & Hb)].
  - split; [exact Hb|]. right. exists code, message, hdrs, body.
    now rewrite Hw, Hw0.
  - split; [exact Hb|]. left. now rewrite Hw.
Qed.

(** C1, as the spec states it, fails: a simple request of HTTP/0.9 (a
    request line without a version) for the existing file [test-app.html]
    is answered with the bare content of the file, and a request that
    names version 2.0 with the bare error page of status 505: no status
    line, no header field, no CORS field. *)
Lemma cors_headers_not_on_every_response :
  let h := CORSHTTPRequestHandler.handle_one_request
             demo_env (CORSHTTPRequestHandler.new_handler demo_simple_get) in
  let h' := CORSHTTPRequestHandler.handle_one_request
              demo_env
              (CORSHTTPRequestHandler.new_handler
                 ("GET /test-app.html HTTP/2.0" ++ CRLF ++ CRLF)) in
  (wfile h = demo_page /\ log h = [LogRequest 200] /\
   ~ exists code message hdrs body,
       wfile h = response code message (hdrs ++ cors_headers)%list body) /\
  (wfile h' = error_message demo_env 505 "Invalid HTTP version (2.0)"
                            "Cannot fulfill request" /\
   log h' = [LogError 505 "Invalid HTTP version (2.0)"; LogRequest 505] /\
   ~ exists code message hdrs body,
       wfile h' = response code message (hdrs ++ cors_headers)%list body).
Proof.
  cbv zeta. split; (split; [vm_compute; reflexivity|]);
    (split; [vm_compute; reflexivity|]);
    intros (code & message & hdrs & body & H);
    unfold response in H; rewrite join_cons in H;
    vm_compute in H; discriminate H.
Qed.

(** C1, amended. Whatever bytes a client sends, if the handler ends with
    a request version other than HTTP/0.9 (the version it gives a request
    line without a version, and keeps while it refuses a version it cannot
    read or one from 2.0 on; for a request it accepts, the version the
    request line names), then what it has written, if anything, is a
    response whose header section ends with the three CORS fields
    [Access-Control-Allow-Origin: *],
    [Access-Control-Allow-Methods: GET, POST, OPTIONS] and
    [Access-Control-Allow-Headers: Content-Type, Authorization], whatever
    the method and the status code, the answers 400, 414, 431 and 501 of
    the inherited methods included; and [end_headers] puts the three lines
    into the buffer after the pending lines and before the blank line that
    ends the header section, so that they are part of what is flushed. *)
Theorem cors_headers_on_every_response (env : environ) (bytes : string) :
  let h := CORSHTTPRequestHandler.handle_one_request
             env (CORSHTTPRequestHandler.new_handler bytes) in
  request_version h <> "HTTP/0.9" ->
  (_headers_buffer h = [] /\
   (wfile h = "" \/
    exists code message hdrs body,
      wfile h = response code message (hdrs ++ cors_headers)%list body))
  /\
  (forall h1, accepted env bytes = Some h1 ->
              request_version h1 = request_version h)
  /\
  (forall h' code message pending,
      request_version h' <> "HTTP/0.9" ->
      _headers_buffer h'
        = BaseHTTPRequestHandler.status_line code message
            :: header_lines pending ->
      wfile (CORSHTTPRequestHandler.end_headers h')
        = wfile h' ++ response code message (pending ++ cors_headers)%list ""
      /\ _headers_buffer (CORSHTTPRequestHandler.end_headers h') = []).
Proof.
  intros h Hv. split; [|split].
  - subst h.
    destruct (handle_one_request_cases env bytes)
      as [(_ & Ho)|[(_ & hx & code & message & explain & Hx & _ & Hr)
                   |(h1 & _ & Ho & Hr)]].
    + destruct Ho as (Hw & Hb & _). split; [exact Hb|left; exact Hw].
    + rewrite Hr in Hv |- *.
      unfold CORSHTTPRequestHandler.send_error in Hv |- *.
      rewrite send_error_request_version in Hv.
      apply (same_output_new_fresh bytes) in Hx.
      apply (answered_fresh hx _ Hx). left.
      apply send_error_responded;
        [now apply not_http09_iff|now apply fresh_idle].
    + rewrite Hr in Hv |- *.
      rewrite call_method_request_version in Hv.
      apply (same_output_new_fresh bytes) in Ho.
      apply (answered_fresh h1 _ Ho).
      apply call_method_answered;
        [now apply not_http09_iff|now apply fresh_idle].
  - intros h1 Ha. subst h.
    destruct (accepted_call_method env bytes h1 Ha) as (_ & ->).
    now rewrite call_method_request_version.
  - intros h' code message pending Hv' Hb.
    assert (Hp : Pending h' code message pending h')
      by (repeat split; exact Hb).
    destruct (pending_cors_end_headers h' (proj1 (not_http09_iff h') Hv')
                code message pending h' Hp)
      as (_ & Hw & Hb').
    split; assumption.
Qed.

Lemma cors_headers_on_every_response_witness :
  request_version (CORSHTTPRequestHandler.handle_one_request
                     demo_env (CORSHTTPRequestHandler.new_handler demo_put))
    <> "HTTP/0.9" /\
  wfile (CORSHTTPRequestHandler.handle_one_request
           demo_env (CORSHTTPRequestHandler.new_handler demo_put)) <> "" /\
  exists code message hdrs body,
    wfile (CORSHTTPRequestHandler.handle_one_request
             demo_env (CORSHTTPRequestHandler.new_handler demo_put))
      = response code message (hdrs ++ cors_headers)%list body.
Proof.
  assert (Hv : request_version
                 (CORSHTTPRequestHandler.handle_one_request
                    demo_env (CORSHTTPRequestHandler.new_handler demo_put))
               <> "HTTP/0.9") by (vm_compute; discriminate).
  assert (Hw : wfile
                 (CORSHTTPRequestHandler.handle_one_request
                    demo_env (CORSHTTPRequestHandler.new_handler demo_put))
               <> "") by (vm_compute; discriminate).
  split; [exact Hv|]. split; [exact Hw|].
  destruct (cors_headers_on_every_response demo_env demo_put Hv)
    as ((_ & [He|Hr]) & _); [contradiction|exact Hr].
Defined.

Lemma send_header_fs_log k v h :
  fs_log (BaseHTTPRequestHandler.send_header k v h) = fs_log h.
Proof.
  unfold BaseHTTPRequestHandler.send_header.
  destruct (BaseHTTPRequestHandler.not_http09 h);
    destruct (String.eqb (lower k) "connection");
    destruct (String.eqb (lower v) "close");
    destruct (String.eqb (lower v) "keep-alive"); reflexivity.
Qed.

Lemma send_response_fs_log env code message h :
  fs_log (BaseHTTPRequestHandler.send_response env code message h) = fs_log h.
Proof.
  unfold BaseHTTPRequestHandler.send_response.
  rewrite !send_header_fs_log.
  unfold BaseHTTPRequestHandler.send_response_only.
  destruct (BaseHTTPRequestHandler.not_http09 _); reflexivity.
Qed.

Lemma end_headers_fs_log h :
  fs_log (BaseHTTPRequestHandler.end_headers h) = fs_log h.
Proof.
  unfold BaseHTTPRequestHandler.end_headers.
  destruct (BaseHTTPRequestHandler.not_http09 h); reflexivity.
Qed.

Lemma do_OPTIONS_fs_log env h :
  fs_log (CORSHTTPRequestHandler.do_OPTIONS env h) = fs_log h.
Proof.
  unfold CORSHTTPRequestHandler.do_OPTIONS,
    CORSHTTPRequestHandler.end_headers.
  now rewrite end_headers_fs_log, !send_header_fs_log, send_response_fs_log.
Qed.

Lemma call_method_OPTIONS env h :
  command h = "OPTIONS" ->
  call_method env h = CORSHTTPRequestHandler.do_OPTIONS env h.
Proof. intros Hc. unfold call_method. rewrite Hc. reflexivity. Qed.

Lemma call_method_GET env h :
  command h = "GET" ->
  call_method env h = CORSHTTPRequestHandler.do_GET env h.
Proof. intros Hc. unfold call_method. rewrite Hc. reflexivity. Qed.

(** C2, as the spec states it, fails: an [OPTIONS] request that names
    version HTTP/0.9 is accepted and handed to [do_OPTIONS], which then
    writes nothing, no status line at all; and an [OPTIONS] request with
    101 header lines is refused with status 431 before [do_OPTIONS] is
    reached. *)
Lemma options_not_always_200 :
  let h := CORSHTTPRequestHandler.handle_one_request
             demo_env
             (CORSHTTPRequestHandler.new_handler
                ("OPTIONS /anything HTTP/0.9" ++ CRLF ++ CRLF)) in
  let h' := CORSHTTPRequestHandler.handle_one_request
              demo_env
              (CORSHTTPRequestHandler.new_handler
                 ("OPTIONS /anything HTTP/1.1" ++ CRLF ++
                  join (repeat ("X-Pad: 1" ++ CRLF) 101) ++ CRLF)) in
  (command h = "OPTIONS" /\ wfile h = "" /\ ~ has_status 200 h) /\
  (command h' = "OPTIONS" /\ has_status 431 h' /\ ~ has_status 200 h').
Proof.
  cbv zeta. split; (split; [vm_compute; reflexivity|]); split.
  - vm_compute; reflexivity.
  - intros (message & hdrs & body & H).
    unfold response in H. rewrite join_cons in H.
    vm_compute in H. discriminate H.
  - exists "Too many headers",
      (error_headers demo_env "<html>error</html>" ++ cors_headers)%list,
      "<html>error</html>".
    vm_compute. reflexivity.
  - intros (message & hdrs & body & H).
    unfold response in H. rewrite join_cons in H.
    vm_compute in H. discriminate H.
Qed.

(** C2, amended. A request that [parse_request] accepts (a request line
    it can read, a version below 2.0, at most 100 header lines of at most
    65536 bytes), whose method is [OPTIONS] and whose version is not
    HTTP/0.9, on any path and with any header fields, is answered with
    status 200 and an empty body (the response ends with the blank line of
    its header section), and answering it looks nothing up in the file
    system: [do_OPTIONS] runs instead of the file lookup of [send_head]. *)
Theorem options_preflight_200_empty_no_lookup
        (env : environ) (bytes : string) (h1 : handler) :
  accepted env bytes = Some h1 ->
  command h1 = "OPTIONS" ->
  request_version h1 <> "HTTP/0.9" ->
  let h := CORSHTTPRequestHandler.handle_one_request
             env (CORSHTTPRequestHandler.new_handler bytes) in
  wfile h = response 200 "OK"
              ([("Server", version_string env); ("Date", date_time_now env)]
                 ++ cors_headers)%list "" /\
  fs_log h = [].
Proof.
  intros Ha Hc Hv h. subst h.
  destruct (accepted_call_method env bytes h1 Ha) as (Hf & ->).
  rewrite call_method_OPTIONS by exact Hc.
  split.
  - destruct (do_OPTIONS_sent env h1 (proj1 (not_http09_iff h1) Hv) h1
                (fresh_idle h1 Hf))
      as (_ & Hw & _).
    rewrite Hw. destruct Hf as (-> & _). reflexivity.
  - rewrite do_OPTIONS_fs_log. now destruct Hf as (_ & _ & -> & _).
Qed.

Lemma options_preflight_200_empty_no_lookup_witness :
  (exists h1, accepted demo_env demo_options = Some h1 /\
              command h1 = "OPTIONS" /\ request_version h1 <> "HTTP/0.9") /\
  wfile (CORSHTTPRequestHandler.handle_one_request
           demo_env (CORSHTTPRequestHandler.new_handler demo_options))
    = response 200 "OK"
        ([("Server", version_string demo_env);
          ("Date", date_time_now demo_env)] ++ cors_headers)%list "" /\
  fs_log (CORSHTTPRequestHandler.handle_one_request
            demo_env (CORSHTTPRequestHandler.new_handler demo_options))
    = [].
Proof.
  split.
  - eexists. split; [vm_compute; reflexivity|].
    split; [reflexivity|discriminate].
  - refine (options_preflight_200_empty_no_lookup
              demo_env demo_options _ _ _ _).
    + vm_compute. reflexivity.
    + reflexivity.
    + discriminate.
Defined.

(** ** Files: [send_head] on a missing and on an existing file *)

Section Files.

Import BaseHTTPRequestHandler SimpleHTTPRequestHandler.

Variable env : environ.
Variable h0 : handler.
Hypothesis http1x : not_http09 h0 = true.
Hypothesis is_get : command h0 = "GET".

Lemma send_error_404_sent message h :
  Idle h0 h ->
  let body := error_message env 404 message
                            "Nothing matches the given URI" in
  Sent h0 (response 404 message
             (not_found_headers env body ++ cors_headers)%list body)
       (send_error env CORSHTTPRequestHandler.end_headers
                   404 (Some message) None h).
Proof.
  intros Hi body. unfold send_error.
  change (responses 404) with
    (Some ("Not Found", "Nothing matches the given URI")).
  cbv iota beta.
  pose proof (idle_send_response env h0 http1x 404 (Some message) _
                (idle_log_message h0 (LogError 404 message) h Hi)) as Hp.
  apply (pending_send_header h0 http1x _ _ _ "Connection" "close") in Hp.
  apply (pending_send_header h0 http1x _ _ _
           "Content-Type" error_content_type) in Hp.
  apply (pending_send_header h0 http1x _ _ _ "Content-Length"
           (str_Z (Z.of_nat (String.length body)))) in Hp.
  apply (pending_cors_end_headers h0 http1x) in Hp.
  change ((200 <=? 404) &&
          negb ((404 =? 204) || (404 =? 205) || (404 =? 304))) with true.
  cbv iota.
  fold body. unfold log_error.
  simpl reason_phrase in Hp. simpl app in Hp.
  match goal with
  | H : Sent _ _ ?hh |- _ =>
      assert (Hc : command hh = "GET")
        by (destruct H as ((Hc & _) & _); now rewrite Hc)
  end.
  rewrite Hc.
  change (negb (String.eqb "GET" "HEAD") && true) with true.
  cbn [andb].
  destruct (String.eqb body "") eqn:He; cbn [negb].
  - apply String.eqb_eq in He. rewrite He in *. exact Hp.
  - apply (sent_wfile_write h0 _ _ _ "" body) in Hp. exact Hp.
Qed.

Lemma send_head_missing_sent :
  Idle h0 h0 ->
  invalid_name env (translate_path env (path h0)) = false ->
  fs env (translate_path env (path h0)) = None ->
  let body := error_message env 404 "File not found"
                            "Nothing matches the given URI" in
  Sent h0 (response 404 "File not found"
             (not_found_headers env body ++ cors_headers)%list body)
       (CORSHTTPRequestHandler.do_GET env h0).
Proof.
  intros Hi Hvalid Hfs body.
  unfold CORSHTTPRequestHandler.do_GET, do_GET, send_head.
  unfold isdir. rewrite Hvalid, Hfs.
  pose proof (idle_fs_access h0 (FsIsDir (translate_path env (path h0)))
                             h0 Hi) as Hi1.
  unfold send_head_file.
  destruct (endswith_slash _).
  - now apply send_error_404_sent.
  - unfold open_rb. cbn [path fs_access]. rewrite Hvalid, Hfs.
    apply send_error_404_sent. now apply idle_fs_access.
Qed.



End Files.

Lemma sent_fresh_wfile h0 out h :
  Fresh h0 -> Sent h0 out h -> wfile h = out.
Proof. intros (Hw0 & _) (_ & Hw & _). now rewrite Hw, Hw0. Qed.

(** C6, as the spec states it, fails: a simple request of HTTP/0.9 for a
    file that does not exist is answered with the bare error page, without
    the status line that would carry 404; a request whose path maps to a
    name with a null character, which names no file, makes [open] raise
    [ValueError], which [send_head] does not catch: nothing is written;
    and a request for a file that does not exist with 101 header lines is
    refused with status 431 before any file is looked up. *)
Lemma get_missing_file_not_always_404 :
  let h := CORSHTTPRequestHandler.handle_one_request
             demo_env
             (CORSHTTPRequestHandler.new_handler
                ("GET /missing.html" ++ CRLF)) in
  let h' := CORSHTTPRequestHandler.handle_one_request
              demo_env
              (CORSHTTPRequestHandler.new_handler
                 ("GET /%00 HTTP/1.1" ++ CRLF ++ CRLF)) in
  let h'' := CORSHTTPRequestHandler.handle_one_request
               demo_env
               (CORSHTTPRequestHandler.new_handler
                  ("GET /missing.html HTTP/1.1" ++ CRLF ++
                   join (repeat ("X-Pad: 1" ++ CRLF) 101) ++ CRLF)) in
  (command h = "GET" /\
   fs demo_env (translate_path demo_env (path h)) = None /\
   wfile h = error_message demo_env 404 "File not found"
                           "Nothing matches the given URI" /\
   ~ has_status 404 h) /\
  (command h' = "GET" /\ request_version h' = "HTTP/1.1" /\
   fs demo_env (translate_path demo_env (path h')) = None /\
   wfile h' = "" /\ raised h' = Some "ValueError" /\
   ~ has_status 404 h') /\
  (command h'' = "GET" /\ request_version h'' = "HTTP/1.1" /\
   fs demo_env (translate_path demo_env (path h'')) = None /\
   has_status 431 h'' /\ fs_log h'' = [] /\
   ~ has_status 404 h'').
Proof.
  cbv zeta. split; [|split].
  - do 3 (split; [vm_compute; reflexivity|]).
    intros (message & hdrs & body & H).
    unfold response in H. rewrite join_cons in H.
    vm_compute in H. discriminate H.
  - do 5 (split; [vm_compute; reflexivity|]).
    intros (message & hdrs & body & H).
    unfold response in H. rewrite join_cons in H.
    vm_compute in H. discriminate H.
  - do 3 (split; [vm_compute; reflexivity|]).
    split; [|split; [vm_compute; reflexivity|]].
    + exists "Too many headers",
        (error_headers demo_env "<html>error</html>" ++ cors_headers)%list,
        "<html>error</html>".
      vm_compute. reflexivity.
    + intros (message & hdrs & body & H).
      unfold response in H. rewrite join_cons in H.
      vm_compute in H. discriminate H.
Qed.

(** C6, amended. A GET request that [parse_request] accepts, of a version
    other than HTTP/0.9, whose path maps to a name the file system takes
    (no null character, encodable) and that has no entry under the
    document root, is answered with status 404: the response of
    [send_error(404, "File not found")], with the CORS fields at the end of
    its header section and the error page as its body. *)
Theorem get_missing_file_404
        (env : environ) (bytes : string) (h1 : handler) :
  accepted env bytes = Some h1 ->
  command h1 = "GET" ->
  request_version h1 <> "HTTP/0.9" ->
  let p := translate_path env (path h1) in
  SimpleHTTPRequestHandler.invalid_name env p = false ->
  fs env p = None ->
  let body := error_message env 404 "File not found"
                            "Nothing matches the given URI" in
  wfile (CORSHTTPRequestHandler.handle_one_request
           env (CORSHTTPRequestHandler.new_handler bytes))
    = response 404 "File not found"
        (not_found_headers env body ++ cors_headers)%list body.
Proof.
  intros Ha Hc Hv p Hvalid Hfs body.
  destruct (accepted_call_method env bytes h1 Ha) as (Hf & ->).
  rewrite call_method_GET by exact Hc.
  apply (sent_fresh_wfile h1 _ _ Hf).
  apply send_head_missing_sent;
    [now apply not_http09_iff|exact Hc|now apply fresh_idle
    |exact Hvalid|exact Hfs].
Qed.

Lemma get_missing_file_404_witness :
  (exists h1, accepted demo_env demo_get_missing = Some h1 /\
              command h1 = "GET" /\ request_version h1 <> "HTTP/0.9" /\
              SimpleHTTPRequestHandler.invalid_name
                demo_env (translate_path demo_env (path h1)) = false /\
              fs demo_env (translate_path demo_env (path h1)) = None) /\
  wfile (CORSHTTPRequestHandler.handle_one_request
           demo_env (CORSHTTPRequestHandler.new_handler demo_get_missing))
    = response 404 "File not found"
        (not_found_headers demo_env "<html>error</html>" ++ cors_headers)%list
        "<html>error</html>".
Proof.
  split.
  - eexists. split; [vm_compute; reflexivity|].
    split; [reflexivity|]. split; [discriminate|].
    split; reflexivity.
  - refine (get_missing_file_404 demo_env demo_get_missing _ _ _ _ _ _).
    + vm_compute. reflexivity.
    + reflexivity.
    + discriminate.
    + reflexivity.
    + reflexivity.
Defined.




(** ** The process: what [main] does once the server has started *)

Lemma starts_with_browser r sc : starts sc -> starts (with_browser r sc).
Proof. now destruct sc. Qed.

Lemma starts_with_serve r sc : starts sc -> starts (with_serve r sc).
Proof. now destruct sc. Qed.

(** The [with] block of [main], when the constructor succeeds: the script
    stays in the serve loop, or an exception ends the loop and leaves the
    block through [__exit__], which closes the socket. *)
Lemma with_block_started sc :
  starts sc ->
  with_ (TCPServer_init sc "" PORT) TCPServer_exit (main_body sc)
        initial_world
  = match serve_result sc with
    | None => (Forever, serving_world sc)
    | Some e => (Raise e, snd (server_close (serving_world sc)))
    end.
Proof.
  destruct sc as [so bi li br sr]. unfold starts. simpl.
  intros (-> & -> & ->).
  destruct br as [e|b], sr as [e'|]; vm_compute; reflexivity.
Qed.

Lemma main_started sc :
  starts sc ->
  main sc initial_world
  = match serve_result sc with
    | None => (Forever, serving_world sc)
    | Some e =>
        match main_clauses e with
        | Some k => k (snd (server_close (serving_world sc)))
        | None => (Raise e, snd (server_close (serving_world sc)))
        end
    end.
Proof.
  intros Hs. unfold main, try_except.
  rewrite (with_block_started sc Hs).
  destruct (serve_result sc) as [e|]; reflexivity.
Qed.

(** The world once the socket of a serving script has been closed. *)
Lemma server_close_serving sc :
  snd (server_close (serving_world sc))
  = mkWorld (banner ++ [browser_line (browser_result sc); ""])
            (Some closed_socket) (serving_trace ++ [SysClose]).
Proof. reflexivity. Qed.

Lemma run_started sc :
  starts sc ->
  run sc
  = match serve_result sc with
    | None => (Runs, serving_world sc)
    | Some e =>
        let w := snd (server_close (serving_world sc)) in
        match e with
        | KeyboardInterrupt =>
            (Exits 0, mkWorld (stdout w ++ [msg_stopped])
                              (httpd_socket w) (trace w))
        | OSError errno strerror =>
            (Exits 1,
             mkWorld (stdout w ++
                        [match errno with
                         | Some 48 => msg_port_in_use
                         | _ => msg_error_starting errno strerror
                         end])
                     (httpd_socket w) (trace w))
        | SystemExit code => (Exits code, w)
        | OtherException name => (Traceback (OtherException name), w)
        end
    end.
Proof.
  intros Hs. unfold run. rewrite (main_started sc Hs).
  destruct (serve_result sc) as [[| errno strerror | code | name]|];
    try reflexivity.
  cbn [main_clauses].
  destruct errno as [[|n|n]|]; try reflexivity.
  do 6 (destruct n as [n|n|]; try reflexivity).
Qed.

(** The [with] statement when [bind] fails: the constructor closes the
    socket and raises, the body does not run. *)
Lemma with_block_bind_fails e br sr :
  with_ (TCPServer_init (mkScenario None (Some e) None br sr) "" PORT)
        TCPServer_exit
        (main_body (mkScenario None (Some e) None br sr)) initial_world
  = (Raise e,
     mkWorld [] (Some (mkSocket true false None false))
             [SysSocket; SysBind "" 3000; SysClose]).
Proof. vm_compute. reflexivity. Qed.

Lemma run_bind_fails_OSError errno strerror br sr :
  run (mkScenario None (Some (OSError errno strerror)) None br sr)
  = (Exits 1,
     mkWorld [match errno with
              | Some 48 => msg_port_in_use
              | _ => msg_error_starting errno strerror
              end]
             (Some (mkSocket true false None false))
             [SysSocket; SysBind "" 3000; SysClose]).
Proof.
  unfold run, main, try_except. rewrite with_block_bind_fails.
  cbn [main_clauses].
  destruct errno as [[|n|n]|]; try reflexivity.
  do 6 (destruct n as [n|n|]; try reflexivity).
Qed.

(** C3. On Linux, where [EADDRINUSE] is 98, a bind that fails because the
    port is occupied is reported with the generic line of every other
    startup failure, not with the port-in-use line: the test
    [e.errno == 48] holds for an occupied port on macOS only.  On every
    platform the process ends with exit code 1. *)
Theorem port_in_use_classified_on_errno_48_only :
  (forall p, fst (run (port_occupied p)) = Exits 1) /\
  stdout (snd (run (port_occupied Darwin))) = [msg_port_in_use] /\
  stdout (snd (run (port_occupied Linux)))
    = ["❌ Error starting server: [Errno 98] Address already in use"] /\
  stdout (snd (run (port_occupied Windows)))
    = ["❌ Error starting server: [Errno 10048] Address already in use"] /\
  stdout (snd (run (bind_fails (OSError (Some 13) "Permission denied"))))
    = ["❌ Error starting server: [Errno 13] Permission denied"].
Proof.
  split; [intros []; reflexivity|].
  repeat split; reflexivity.
Qed.

(** C4. An interrupt while the server is in its serve loop stops it
    gracefully: the socket, which accepted connections until then, is
    closed and accepts none; the process prints the line of a stop by the
    user and no error line, and exits with code 0. *)
Theorem interrupt_in_serve_loop_exits_0 (sc : scenario) :
  starts sc ->
  serve_result sc = Some KeyboardInterrupt ->
  accepts_connections (snd (run (with_serve None sc))) = true /\
  fst (run sc) = Exits 0 /\
  httpd_socket (snd (run sc)) = Some closed_socket /\
  accepts_connections (snd (run sc)) = false /\
  trace (snd (run sc)) = (serving_trace ++ [SysClose])%list /\
  stdout (snd (run sc))
    = (banner ++ [browser_line (browser_result sc); ""; msg_stopped])%list /\
  ~ In msg_port_in_use (stdout (snd (run sc))) /\
  (forall errno strerror,
      ~ In (msg_error_starting errno strerror) (stdout (snd (run sc)))).
Proof.
  intros Hs Hi.
  split; [now rewrite (run_started _ (starts_with_serve None sc Hs))|].
  rewrite (run_started sc Hs), Hi.
  cbv zeta. rewrite server_close_serving.
  cbn [fst snd stdout httpd_socket trace].
  split; [reflexivity|]. split; [reflexivity|].
  split; [reflexivity|]. split; [reflexivity|].
  split; [now rewrite <- app_assoc|].
  split.
  - destruct (browser_result sc); vm_compute; intuition discriminate.
  - intros errno strerror.
    destruct (browser_result sc); unfold msg_error_starting;
      cbn; intuition discriminate.
Qed.

Lemma interrupt_in_serve_loop_exits_0_witness :
  starts demo_interrupted /\
  serve_result demo_interrupted = Some KeyboardInterrupt /\
  fst (run demo_interrupted) = Exits 0 /\
  accepts_connections (snd (run demo_interrupted)) = false.
Proof.
  assert (Hs : starts demo_interrupted) by (repeat split).
  split; [exact Hs|]. split; [reflexivity|].
  destruct (interrupt_in_serve_loop_exits_0 demo_interrupted Hs eq_refl)
    as (_ & Ht & _ & Ha & _).
  split; assumption.
Defined.

(** C7. Once the server has started, the script asks for the browser
    exactly once, at [http://localhost:3000/test-app.html], and then
    enters the serve loop.  However the attempt ends, by an exception of
    any class or by a result, it changes one line of the output and
    nothing else: how the process ends, the socket and the system calls
    are those of a run in which the browser opened.  The line says that
    the browser could not be opened only when the attempt raises: when
    [webbrowser.open] returns [False], its way of reporting that no
    browser could be launched, the script prints the line of the success,
    and its whole output is that of a run in which the browser opened. *)
Theorem failed_browser_launch_is_reported_as_opened (sc : scenario) :
  starts sc ->
  (exists rest,
      trace (snd (run sc))
        = ([SysSocket; SysBind "" 3000; SysListen 5;
            SysBrowserOpen "http://localhost:3000/test-app.html";
            SysServeForever] ++ rest)%list /\
      (rest = [] \/ rest = [SysClose])) /\
  (forall r,
      fst (run (with_browser r sc)) = fst (run sc) /\
      httpd_socket (snd (run (with_browser r sc)))
        = httpd_socket (snd (run sc)) /\
      trace (snd (run (with_browser r sc))) = trace (snd (run sc))) /\
  (exists tail,
      forall r,
        stdout (snd (run (with_browser r sc)))
          = (banner ++ [match r with
                        | inl _ => msg_browser_failed
                        | inr _ => msg_browser_opened
                        end; ""] ++ tail)%list) /\
  (nth 5 (stdout (snd (run (with_browser (inr false) sc)))) ""
     = msg_browser_opened /\
   msg_browser_opened <> msg_browser_failed /\
   stdout (snd (run (with_browser (inr false) sc)))
     = stdout (snd (run (with_browser (inr true) sc)))).
Proof.
  intros Hs.
  assert (Hserve : forall r, serve_result (with_browser r sc)
                             = serve_result sc) by reflexivity.
  split; [|split; [|split]].
  - rewrite (run_started sc Hs).
    destruct (serve_result sc) as [[| errno strerror | code | name]|];
      cbv zeta; try rewrite server_close_serving;
      cbn [snd trace serving_world];
      (exists [SysClose]; split; [reflexivity | now right])
      || (exists []; split; [reflexivity | now left]).
  - intros r.
    rewrite (run_started _ (starts_with_browser r sc Hs)), Hserve.
    rewrite (run_started sc Hs).
    destruct (serve_result sc) as [[| errno strerror | code | name]|];
      repeat split; reflexivity.
  - exists (skipn 7 (stdout (snd (run sc)))).
    intros r.
    rewrite (run_started _ (starts_with_browser r sc Hs)), Hserve.
    rewrite (run_started sc Hs).
    destruct (serve_result sc) as [[| errno strerror | code | name]|];
      destruct r; reflexivity.
  - rewrite (run_started _ (starts_with_browser (inr false) sc Hs)).
    rewrite (run_started _ (starts_with_browser (inr true) sc Hs)).
    rewrite !Hserve.
    split; [|split].
    + destruct (serve_result sc) as [[| errno strerror | code | name]|];
        reflexivity.
    + discriminate.
    + destruct (serve_result sc) as [[| errno strerror | code | name]|];
        reflexivity.
Qed.

Lemma failed_browser_launch_is_reported_as_opened_witness :
  starts demo_interrupted /\
  stdout (snd (run (with_browser (inr false) demo_interrupted)))
    = (banner ++ [msg_browser_opened; ""; msg_stopped])%list.
Proof.
  assert (Hs : starts demo_interrupted) by (repeat split).
  split; [exact Hs|].
  destruct (failed_browser_launch_is_reported_as_opened demo_interrupted Hs)
    as (_ & _ & _ & _ & _ & Ho).
  rewrite Ho. reflexivity.
Defined.

(** C8. Stopping the server is [server_close], which the [with] block of
    [main] calls when an exception leaves it.  It closes the listening
    socket; stopping a stopped server changes nothing, the socket stays
    closed and no second [close] reaches the system; and an interrupt
    during the serve loop ends in exactly that call: the state of the
    process after the interrupt is the state of the serving process with
    the socket closed and the line of the stop printed. *)
Theorem stop_closes_socket_and_is_idempotent (sc : scenario) :
  starts sc ->
  serve_result sc = Some KeyboardInterrupt ->
  (forall w, accepts_connections (snd (server_close w)) = false) /\
  (forall w, server_close (snd (server_close w))
             = (Ret tt, snd (server_close w))) /\
  snd (run (with_serve None sc)) = serving_world sc /\
  snd (run sc)
    = snd (print msg_stopped (snd (server_close (serving_world sc)))) /\
  trace (snd (run sc)) = (serving_trace ++ [SysClose])%list.
Proof.
  intros Hs Hi.
  split; [|split; [|split; [|split]]].
  - intros [out [[c f b l]|] tr]; [destruct f|]; reflexivity.
  - intros [out [[c f b l]|] tr]; [destruct f|]; reflexivity.
  - rewrite (run_started _ (starts_with_serve None sc Hs)).
    destruct sc; reflexivity.
  - rewrite (run_started sc Hs), Hi. reflexivity.
  - rewrite (run_started sc Hs), Hi. reflexivity.
Qed.

Lemma stop_closes_socket_and_is_idempotent_witness :
  starts demo_interrupted /\
  serve_result demo_interrupted = Some KeyboardInterrupt /\
  trace (snd (run demo_interrupted)) = (serving_trace ++ [SysClose])%list.
Proof.
  assert (Hs : starts demo_interrupted) by (repeat split).
  split; [exact Hs|]. split; [reflexivity|].
  destruct (stop_closes_socket_and_is_idempotent demo_interrupted Hs eq_refl)
    as (_ & _ & _ & _ & Ht).
  exact Ht.
Defined.

(** C9. An [OSError] that leaves [serve_forever], after a successful
    bind, reaches the [except OSError] clause of [main], the one of the
    startup failures: the socket is closed, the script prints the
    port-in-use line when [errno] is 48 and the generic line otherwise,
    the very line a failed bind with the same error prints, and the
    process exits with code 1. *)
Theorem oserror_in_serve_loop_exits_1
        (sc : scenario) (errno : option Z) (strerror : string) :
  starts sc ->
  serve_result sc = Some (OSError errno strerror) ->
  fst (run sc) = Exits 1 /\
  trace (snd (run sc)) = (serving_trace ++ [SysClose])%list /\
  accepts_connections (snd (run sc)) = false /\
  (exists line,
      stdout (snd (run sc))
        = (stdout (snd (run (with_serve None sc))) ++ [line])%list /\
      run (bind_fails (OSError errno strerror))
        = (Exits 1,
           mkWorld [line] (Some (mkSocket true false None false))
                   [SysSocket; SysBind "" 3000; SysClose]) /\
      (errno = Some 48 -> line = msg_port_in_use) /\
      (errno <> Some 48 -> line = msg_error_starting errno strerror)).
Proof.
  intros Hs Hr.
  assert (Hw : snd (run (with_serve None sc)) = serving_world sc).
  { rewrite (run_started _ (starts_with_serve None sc Hs)).
    now destruct sc. }
  rewrite Hw. rewrite (run_started sc Hs), Hr.
  cbv zeta. rewrite server_close_serving.
  cbn [fst snd stdout httpd_socket trace].
  split; [reflexivity|]. split; [reflexivity|]. split; [reflexivity|].
  eexists. split; [reflexivity|].
  split; [apply run_bind_fails_OSError|].
  split.
  - intros ->. reflexivity.
  - intros Hne.
    destruct errno as [[|n|n]|]; try reflexivity.
    do 6 (destruct n as [n|n|]; try reflexivity).
    now contradiction Hne.
Qed.

Lemma oserror_in_serve_loop_exits_1_witness :
  starts (with_serve (Some (OSError (Some 9) "Bad file descriptor"))
                     demo_interrupted) /\
  fst (run (with_serve (Some (OSError (Some 9) "Bad file descriptor"))
                       demo_interrupted)) = Exits 1.
Proof.
  assert (Hs : starts (with_serve
                         (Some (OSError (Some 9) "Bad file descriptor"))
                         demo_interrupted)) by (repeat split).
  split; [exact Hs|].
  exact (proj1 (oserror_in_serve_loop_exits_1 _ (Some 9)
                  "Bad file descriptor" Hs eq_refl)).
Defined.

(** C10. A [KeyboardInterrupt] raised while [webbrowser.open] runs is
    caught by the bare [except] of the inner [try]: the script prints the
    line that says the browser could not be opened, does not print the line
    of a stop by the user and does not exit there, and enters the serve
    loop; while nothing ends the loop the process keeps running with its
    socket open, and how it ends later is how a run ends in which the
    browser opened. *)
Theorem interrupt_during_browser_launch_is_swallowed (sc : scenario) :
  starts sc ->
  browser_result sc = inl KeyboardInterrupt ->
  run (with_serve None sc)
    = (Runs,
       mkWorld (banner ++ [msg_browser_failed; ""])
               (Some listening_socket)
               [SysSocket; SysBind "" 3000; SysListen 5;
                SysBrowserOpen "http://localhost:3000/test-app.html";
                SysServeForever]) /\
  accepts_connections (snd (run (with_serve None sc))) = true /\
  (exists tail rest,
      stdout (snd (run sc))
        = (banner ++ [msg_browser_failed; ""] ++ tail)%list /\
      trace (snd (run sc))
        = ([SysSocket; SysBind "" 3000; SysListen 5;
            SysBrowserOpen "http://localhost:3000/test-app.html";
            SysServeForever] ++ rest)%list) /\
  fst (run sc) = fst (run (with_browser (inr true) sc)).
Proof.
  intros Hs Hb.
  split; [|split; [|split]].
  - rewrite (run_started _ (starts_with_serve None sc Hs)).
    destruct sc as [so bi li br sr]. simpl in Hb. subst br. reflexivity.
  - rewrite (run_started _ (starts_with_serve None sc Hs)).
    reflexivity.
  - rewrite (run_started sc Hs).
    unfold serving_world. rewrite Hb.
    destruct (serve_result sc) as [[| errno strerror | code | name]|];
      cbv zeta; try rewrite server_close_serving;
      cbn [snd stdout trace browser_line];
      eexists _, _; split;
      try (rewrite <- !app_assoc; reflexivity); reflexivity.
  - rewrite (run_started sc Hs).
    rewrite (run_started _ (starts_with_browser (inr true) sc Hs)).
    destruct sc as [so bi li br sr]. cbn [serve_result with_browser].
    destruct sr as [[| errno strerror | code | name]|]; reflexivity.
Qed.

Lemma interrupt_during_browser_launch_is_swallowed_witness :
  starts (with_browser (inl KeyboardInterrupt) demo_interrupted) /\
  browser_result (with_browser (inl KeyboardInterrupt) demo_interrupted)
    = inl KeyboardInterrupt /\
  accepts_connections
    (snd (run (with_serve None
                 (with_browser (inl KeyboardInterrupt) demo_interrupted))))
    = true.
Proof.
  assert (Hs : starts (with_browser (inl KeyboardInterrupt)
                                    demo_interrupted)) by (repeat split).
  split; [exact Hs|]. split; [reflexivity|].
  destruct (interrupt_during_browser_launch_is_swallowed _ Hs eq_refl)
    as (_ & Ha & _).
  exact Ha.
Defined.

(** ** The process in any scenario *)

(** The [with] statement of [main], whatever happens. *)
Lemma with_block_result sc :
  with_ (TCPServer_init sc "" PORT) TCPServer_exit (main_body sc)
        initial_world
  = match first_failure sc with
    | None => (Forever, serving_world sc)
    | Some e =>
        (Raise e,
         match constructor_failure sc with
         | Some _ => failed_world sc
         | None => snd (server_close (serving_world sc))
         end)
    end.
Proof.
  destruct sc as [[e1|] [e2|] [e3|] [e4|b] [e5|]]; vm_compute; reflexivity.
Qed.

(** What the two [except] clauses of [main] do with an exception: they
    print at most one line and leave the socket and the system alone. *)
Lemma main_clauses_effect e w :
  let r := match main_clauses e with
           | Some k => k w
           | None => (Raise e, w)
           end in
  termination_of (fst r)
    = match e with
      | KeyboardInterrupt => Exits 0
      | OSError _ _ => Exits 1
      | SystemExit code => Exits code
      | OtherException name => Traceback (OtherException name)
      end /\
  httpd_socket (snd r) = httpd_socket w /\
  trace (snd r) = trace w /\
  (exists lines, stdout (snd r) = (stdout w ++ lines)%list /\
                 (List.length lines <= 1)%nat /\
                 Forall is_final_line lines /\
                 (main_clauses e = None -> lines = [])).
Proof.
  assert (Hprint : forall line code,
             is_final_line line ->
             let r := (bind (print line) (fun _ => sys_exit code)) w in
             termination_of (fst r) = Exits code /\
             httpd_socket (snd r) = httpd_socket w /\
             trace (snd r) = trace w /\
             (exists lines, stdout (snd r) = (stdout w ++ lines)%list /\
                            (List.length lines <= 1)%nat /\
                            Forall is_final_line lines /\
                            (Some (bind (print line)
                                        (fun _ => @sys_exit unit code))
                             = None -> lines = []))).
  { intros line code Hl. repeat split. exists [line].
    repeat split; auto. discriminate. }
  assert (Hnone : forall r : result unit,
             exists lines, stdout w = (stdout w ++ lines)%list /\
                           (List.length lines <= 1)%nat /\
                           Forall is_final_line lines /\
                           (@None (M unit) = None -> lines = [])).
  { intros _. exists []. rewrite app_nil_r. repeat split; auto. }
  assert (Hgen : forall errno strerror,
             is_final_line (msg_error_starting errno strerror)).
  { intros errno strerror. right; right. now exists errno, strerror. }
  destruct e as [| errno strerror | code | name]; cbn [main_clauses].
  - apply Hprint. now left.
  - destruct errno as [[|n|n]|]; try (apply Hprint, Hgen).
    do 6 (destruct n as [n|n|]; try (apply Hprint, Hgen)).
    apply Hprint. right; now left.
  - repeat split. apply (Hnone (Raise (SystemExit code))).
  - repeat split. apply (Hnone (Raise (OtherException name))).
Qed.

Lemma run_result sc :
  run sc
  = match first_failure sc with
    | None => (Runs, serving_world sc)
    | Some e =>
        let w := match constructor_failure sc with
                 | Some _ => failed_world sc
                 | None => snd (server_close (serving_world sc))
                 end in
        let r := match main_clauses e with
                 | Some k => k w
                 | None => (Raise e, w)
                 end in
        (termination_of (fst r), snd r)
    end.
Proof.
  unfold run, main, try_except. rewrite with_block_result.
  destruct (first_failure sc) as [e|]; [|reflexivity].
  cbv zeta. destruct (main_clauses e) as [k|]; [|reflexivity].
  now destruct (k _).
Qed.

Lemma run_effect sc :
  let w0 := match first_failure sc with
            | None => serving_world sc
            | Some _ =>
                match constructor_failure sc with
                | Some _ => failed_world sc
                | None => snd (server_close (serving_world sc))
                end
            end in
  fst (run sc)
    = match first_failure sc with
      | None => Runs
      | Some KeyboardInterrupt => Exits 0
      | Some (OSError _ _) => Exits 1
      | Some (SystemExit code) => Exits code
      | Some (OtherException name) => Traceback (OtherException name)
      end /\
  httpd_socket (snd (run sc)) = httpd_socket w0 /\
  trace (snd (run sc)) = trace w0 /\
  (exists lines, stdout (snd (run sc)) = (stdout w0 ++ lines)%list /\
                 (List.length lines <= 1)%nat /\
                 Forall is_final_line lines /\
                 (match first_failure sc with
                  | Some e => main_clauses e = None
                  | None => True
                  end -> lines = [])).
Proof.
  rewrite run_result.
  destruct (first_failure sc) as [e|].
  - cbv zeta. cbn [fst snd]. apply main_clauses_effect.
  - cbn [fst snd]. repeat split. exists [].
    repeat split; auto; now rewrite app_nil_r.
Qed.

Lemma failed_world_stdout sc : stdout (failed_world sc) = [].
Proof.
  unfold failed_world.
  destruct (socket_result sc); [|destruct (bind_result sc)]; reflexivity.
Qed.

Lemma final_line_not_banner l :
  is_final_line l -> ~ In l banner.
Proof.
  intros [-> | [-> | (errno & strerror & ->)]].
  - vm_compute. intuition discriminate.
  - vm_compute. intuition discriminate.
  - unfold msg_error_starting. cbn. intuition discriminate.
Qed.

(** X1. How the process ends depends on the class of the first exception
    that leaves the [with] statement, and on nothing else: without one it
    keeps serving; [KeyboardInterrupt] gives exit code 0 and [OSError] exit
    code 1, wherever they are raised; any other exception leaves [main]. *)
Theorem exit_status_by_exception_class (sc : scenario) :
  fst (run sc)
  = match first_failure sc with
    | None => Runs
    | Some KeyboardInterrupt => Exits 0
    | Some (OSError _ _) => Exits 1
    | Some (SystemExit code) => Exits code
    | Some (OtherException name) => Traceback (OtherException name)
    end.
Proof. exact (proj1 (run_effect sc)). Qed.

(** X2. The listening socket is never left open by a process that has
    ended: the socket accepts connections exactly while the script is in
    its serve loop, it holds its descriptor exactly then, and the
    descriptor is given back once when the process ends with a socket, and
    never otherwise. *)
Theorem socket_released_when_process_ends (sc : scenario) :
  accepts_connections (snd (run sc))
    = match fst (run sc) with Runs => true | _ => false end /\
  match httpd_socket (snd (run sc)) with
  | Some s => has_fd s = match fst (run sc) with Runs => true | _ => false end
  | None => socket_result sc <> None
  end /\
  count_close (trace (snd (run sc)))
    = match fst (run sc), socket_result sc with
      | Runs, _ => 0
      | _, Some _ => 0
      | _, None => 1
      end%nat.
Proof.
  destruct (run_effect sc) as (Ht & Hs & Htr & _).
  unfold accepts_connections. rewrite Ht, Hs, Htr.
  destruct sc as [[e1|] [e2|] [e3|] br [e5|]];
    cbn [first_failure constructor_failure socket_result bind_result
         listen_result serve_result failed_world];
    try rewrite server_close_serving;
    match goal with
    | |- context [match ?e with KeyboardInterrupt => _ | _ => _ end] =>
        destruct e
    | _ => idtac
    end;
    repeat split; try reflexivity; discriminate.
Qed.

(** X3. When the constructor of [TCPServer] raises, at [socket], [bind]
    or [listen], and whatever it raises, the script has done nothing else:
    it never asks for the browser, never enters the serve loop, prints at
    most the one line of its [except] clause and no line of its banner,
    and leaves no socket that accepts connections. *)
Theorem failed_start_does_nothing_else (sc : scenario) (e : exn) :
  constructor_failure sc = Some e ->
  existsb is_browser_open (trace (snd (run sc))) = false /\
  existsb is_serve_forever (trace (snd (run sc))) = false /\
  (List.length (stdout (snd (run sc))) <= 1)%nat /\
  (forall l, In l banner -> ~ In l (stdout (snd (run sc)))) /\
  accepts_connections (snd (run sc)) = false.
Proof.
  intros Hc.
  destruct (run_effect sc) as (_ & Hs & Htr & lines & Hout & Hlen & Hfin & _).
  unfold accepts_connections. rewrite Hs, Htr, Hout.
  unfold first_failure. rewrite Hc, failed_world_stdout. cbn [app].
  assert (Hb : forall l, In l banner -> ~ In l lines).
  { intros l Hl Hin. rewrite Forall_forall in Hfin.
    exact (final_line_not_banner l (Hfin l Hin) Hl). }
  unfold failed_world.
  destruct (socket_result sc); [|destruct (bind_result sc)];
    repeat split; auto.
Qed.

Lemma failed_start_does_nothing_else_witness :
  constructor_failure (port_occupied Linux)
    = Some (OSError (Some 98) "Address already in use") /\
  existsb is_browser_open (trace (snd (run (port_occupied Linux)))) = false.
Proof.
  split; [reflexivity|].
  exact (proj1 (failed_start_does_nothing_else (port_occupied Linux) _
                  eq_refl)).
Defined.

(** X4. An interrupt that arrives while the server is being set up, before
    anything is served, is reported like a stop of a running server: the
    only line printed is the one of a stop by the user, and the exit code
    is 0. *)
Theorem interrupt_during_startup_exits_0 (sc : scenario) :
  constructor_failure sc = Some KeyboardInterrupt ->
  fst (run sc) = Exits 0 /\
  stdout (snd (run sc)) = [msg_stopped].
Proof.
  intros Hc. rewrite run_result. unfold first_failure. rewrite Hc.
  cbv zeta. cbn [main_clauses fst snd bind print sys_exit raise].
  rewrite failed_world_stdout. split; reflexivity.
Qed.

Lemma interrupt_during_startup_exits_0_witness :
  constructor_failure (bind_fails KeyboardInterrupt)
    = Some KeyboardInterrupt /\
  fst (run (bind_fails KeyboardInterrupt)) = Exits 0 /\
  stdout (snd (run (bind_fails KeyboardInterrupt))) = [msg_stopped].
Proof.
  split; [reflexivity|].
  exact (interrupt_during_startup_exits_0 (bind_fails KeyboardInterrupt)
           eq_refl).
Defined.

(** X5. [main] catches [KeyboardInterrupt] and [OSError] only.  Any other
    exception that leaves the [with] statement leaves [main] as it is: the
    script prints nothing about it, so the output is empty when the
    constructor raised it and ends with the lines of a started server when
    the serve loop did; the [with] statement has closed the socket. *)
Theorem other_exception_propagates_silently (sc : scenario) (e : exn) :
  first_failure sc = Some e ->
  main_clauses e = None ->
  fst (run sc) = termination_of (Raise e) /\
  stdout (snd (run sc))
    = match constructor_failure sc with
      | Some _ => []
      | None => (banner ++ [browser_line (browser_result sc); ""])%list
      end /\
  accepts_connections (snd (run sc)) = false.
Proof.
  intros Hf Hn.
  rewrite run_result, Hf. cbv zeta. rewrite Hn.
  cbn [fst snd].
  split; [reflexivity|]. split.
  - destruct (constructor_failure sc).
    + apply failed_world_stdout.
    + reflexivity.
  - unfold accepts_connections, failed_world.
    destruct (constructor_failure sc); [|reflexivity].
    destruct (socket_result sc); [|destruct (bind_result sc)]; reflexivity.
Qed.

Lemma other_exception_propagates_silently_witness :
  first_failure (with_serve (Some (OtherException "ValueError"))
                            demo_interrupted)
    = Some (OtherException "ValueError") /\
  main_clauses (OtherException "ValueError") = None /\
  fst (run (with_serve (Some (OtherException "ValueError"))
                       demo_interrupted))
    = Traceback (OtherException "ValueError").
Proof.
  split; [reflexivity|]. split; [reflexivity|].
  exact (proj1 (other_exception_propagates_silently
                  (with_serve (Some (OtherException "ValueError"))
                              demo_interrupted)
                  (OtherException "ValueError") eq_refl eq_refl)).
Defined.

(** ** The handler: the other answers of the inherited methods *)

Section Lookup.

Import BaseHTTPRequestHandler SimpleHTTPRequestHandler.

Variable env : environ.
Variable h0 : handler.
Hypothesis http1x : not_http09 h0 = true.

Local Abbreviation cors_end := CORSHTTPRequestHandler.end_headers.

Lemma cors_end_headers_fs_log h : fs_log (cors_end h) = fs_log h.
Proof.
  unfold CORSHTTPRequestHandler.end_headers.
  now rewrite end_headers_fs_log, !send_header_fs_log.
Qed.

Lemma send_error_fs_log code message explain h :
  fs_log (send_error env cors_end code message explain h) = fs_log h.
Proof.
  unfold send_error.
  destruct (match responses code with
            | Some sl => sl
            | None => ("???", "???")
            end) as [shortmsg longmsg].
  match goal with
  | |- fs_log (if ?b then wfile_write ?d ?hh else _) = _ =>
      transitivity (fs_log hh); [destruct b; reflexivity|]
  end.
  rewrite cors_end_headers_fs_log.
  match goal with
  | |- fs_log (if ?b then _ else _) = _ => destruct b
  end;
    rewrite ?send_header_fs_log, send_response_fs_log; reflexivity.
Qed.

Lemma send_header_log k v h : log (send_header k v h) = log h.
Proof.
  unfold send_header.
  destruct (not_http09 h); destruct (String.eqb (lower k) "connection");
    destruct (String.eqb (lower v) "close");
    destruct (String.eqb (lower v) "keep-alive"); reflexivity.
Qed.

Lemma cors_end_headers_log h : log (cors_end h) = log h.
Proof.
  unfold CORSHTTPRequestHandler.end_headers.
  set (h3 := send_header "Access-Control-Allow-Headers" _ _).
  transitivity (log h3).
  - unfold end_headers. destruct (not_http09 h3); reflexivity.
  - subst h3. now rewrite !send_header_log.
Qed.

Lemma send_response_log code message h :
  log (send_response env code message h)
  = (log h ++ [LogRequest code])%list.
Proof.
  unfold send_response. rewrite !send_header_log.
  unfold send_response_only.
  destruct (not_http09 (log_request code h)); reflexivity.
Qed.

Lemma send_error_log code message h :
  log (send_error env cors_end code (Some message) None h)
  = (log h ++ [LogError code message; LogRequest code])%list.
Proof.
  unfold send_error.
  destruct (match responses code with
            | Some sl => sl
            | None => ("???", "???")
            end) as [shortmsg longmsg].
  match goal with
  | |- log (if ?b then wfile_write ?d ?hh else _) = _ =>
      transitivity (log hh); [destruct b; reflexivity|]
  end.
  rewrite cors_end_headers_log.
  match goal with
  | |- log (if ?b then _ else _) = _ => destruct b
  end;
    rewrite ?send_header_log, send_response_log;
    unfold log_error; cbn [log log_message];
    now rewrite <- app_assoc.
Qed.

Lemma send_header_raised k v h : raised (send_header k v h) = raised h.
Proof.
  unfold send_header.
  destruct (not_http09 h); destruct (String.eqb (lower k) "connection");
    destruct (String.eqb (lower v) "close");
    destruct (String.eqb (lower v) "keep-alive"); reflexivity.
Qed.

Lemma cors_end_headers_raised h : raised (cors_end h) = raised h.
Proof.
  unfold CORSHTTPRequestHandler.end_headers.
  set (h3 := send_header "Access-Control-Allow-Headers" _ _).
  transitivity (raised h3).
  - unfold end_headers. destruct (not_http09 h3); reflexivity.
  - subst h3. now rewrite !send_header_raised.
Qed.

Lemma send_response_raised code message h :
  raised (send_response env code message h) = raised h.
Proof.
  unfold send_response. rewrite !send_header_raised.
  unfold send_response_only.
  destruct (not_http09 (log_request code h)); reflexivity.
Qed.

Lemma send_error_raised code message explain h :
  raised (send_error env cors_end code message explain h) = raised h.
Proof.
  unfold send_error.
  destruct (match responses code with
            | Some sl => sl
            | None => ("???", "???")
            end) as [shortmsg longmsg].
  match goal with
  | |- raised (if ?b then wfile_write ?d ?hh else _) = _ =>
      transitivity (raised hh); [destruct b; reflexivity|]
  end.
  rewrite cors_end_headers_raised.
  match goal with
  | |- raised (if ?b then _ else _) = _ => destruct b
  end;
    rewrite ?send_header_raised, send_response_raised; reflexivity.
Qed.

(** [send_error] with a body: a code of [responses] from 200 on that is
    not 204, 205 or 304, for a request that is not [HEAD]. *)
Lemma send_error_with_body_sent code message shortmsg longmsg h :
  Idle h0 h ->
  responses code = Some (shortmsg, longmsg) ->
  (200 <=? code) &&
    negb ((code =? 204) || (code =? 205) || (code =? 304)) = true ->
  command h0 <> "HEAD" ->
  let body := error_message env code message longmsg in
  Sent h0 (response code message (error_headers env body ++ cors_headers)%list
                    body)
       (send_error env cors_end code (Some message) None h).
Proof.
  intros Hi Hresp Hbody Hcmd body. unfold send_error.
  rewrite Hresp, Hbody. cbv iota beta.
  pose proof (idle_send_response env h0 http1x code (Some message) _
                (idle_log_message h0 (LogError code message) h Hi)) as Hp.
  apply (pending_send_header h0 http1x _ _ _ "Connection" "close") in Hp.
  apply (pending_send_header h0 http1x _ _ _
           "Content-Type" error_content_type) in Hp.
  apply (pending_send_header h0 http1x _ _ _ "Content-Length"
           (str_Z (Z.of_nat (String.length body)))) in Hp.
  apply (pending_cors_end_headers h0 http1x) in Hp.
  fold body. unfold log_error.
  simpl reason_phrase in Hp. simpl app in Hp.
  match goal with
  | H : Sent _ _ ?hh |- _ =>
      assert (Hc : command hh = command h0)
        by (destruct H as ((Hc & _) & _); exact Hc)
  end.
  rewrite Hc.
  apply String.eqb_neq in Hcmd. rewrite Hcmd. cbn [negb andb].
  destruct (String.eqb body "") eqn:He; cbn [negb].
  - apply String.eqb_eq in He. rewrite He in *. exact Hp.
  - apply (sent_wfile_write h0 _ _ _ "" body) in Hp. exact Hp.
Qed.



Lemma list_entries_fs_log p l h :
  fs_log (fold_left (fun h name => list_entry env p name h) l h)
  = (fs_log h ++ flat_map (fun name => [FsIsDir (path_join env p name);
                                        FsIsLink (path_join env p name)]) l)%list.
Proof.
  revert h. induction l as [|name l IH]; intros h.
  - cbn [fold_left flat_map]. now rewrite app_nil_r.
  - cbn [fold_left flat_map]. rewrite IH.
    unfold list_entry. cbn [fs_log fs_access].
    now rewrite <- !app_assoc.
Qed.

End Lookup.

Lemma send_header_http09 k v h :
  BaseHTTPRequestHandler.not_http09 h = false ->
  String.eqb (lower k) "connection" = false ->
  BaseHTTPRequestHandler.send_header k v h = h.
Proof.
  intros H09 Hk. unfold BaseHTTPRequestHandler.send_header.
  now rewrite H09, Hk.
Qed.

(** X6. For a request of version HTTP/0.9 the override of [end_headers]
    does nothing: no CORS line is buffered or written, the handler is left
    as it was; and [do_OPTIONS] writes no byte, it only logs the request. *)
Theorem http09_gets_no_cors_header (env : environ) (h : handler) :
  request_version h = "HTTP/0.9" ->
  CORSHTTPRequestHandler.end_headers h = h /\
  CORSHTTPRequestHandler.do_OPTIONS env h = log_message (LogRequest 200) h.
Proof.
  intros Hv.
  assert (H09 : forall h', request_version h' = "HTTP/0.9" ->
                           BaseHTTPRequestHandler.not_http09 h' = false).
  { intros h' Hv'. unfold BaseHTTPRequestHandler.not_http09.
    now rewrite Hv'. }
  assert (Hend : forall h', request_version h' = "HTTP/0.9" ->
                            CORSHTTPRequestHandler.end_headers h' = h').
  { intros h' Hv'. unfold CORSHTTPRequestHandler.end_headers.
    rewrite !(send_header_http09 _ _ h' (H09 h' Hv')) by reflexivity.
    unfold BaseHTTPRequestHandler.end_headers. now rewrite (H09 h' Hv'). }
  split; [now apply Hend|].
  unfold CORSHTTPRequestHandler.do_OPTIONS,
    BaseHTTPRequestHandler.send_response,
    BaseHTTPRequestHandler.log_request.
  assert (Hv' : request_version (log_message (LogRequest 200) h) = "HTTP/0.9")
    by exact Hv.
  unfold BaseHTTPRequestHandler.send_response_only.
  rewrite (H09 _ Hv').
  rewrite !(send_header_http09 _ _ _ (H09 _ Hv')) by reflexivity.
  now apply Hend.
Qed.

Lemma http09_gets_no_cors_header_witness :
  request_version (request_handler "OPTIONS" "/x" "HTTP/0.9" []) = "HTTP/0.9" /\
  wfile (CORSHTTPRequestHandler.do_OPTIONS demo_env
           (request_handler "OPTIONS" "/x" "HTTP/0.9" [])) = "".
Proof.
  split; [reflexivity|].
  rewrite (proj2 (http09_gets_no_cors_header demo_env
                    (request_handler "OPTIONS" "/x" "HTTP/0.9" []) eq_refl)).
  reflexivity.
Defined.

Lemma getattr_unsupported env command :
  command <> "OPTIONS" -> command <> "GET" -> command <> "HEAD" ->
  CORSHTTPRequestHandler.getattr env ("do_" ++ command) = None.
Proof.
  intros H1 H2 H3. unfold CORSHTTPRequestHandler.getattr.
  change (String.eqb ("do_" ++ command) "do_OPTIONS")
    with (String.eqb command "OPTIONS").
  change (String.eqb ("do_" ++ command) "do_GET")
    with (String.eqb command "GET").
  change (String.eqb ("do_" ++ command) "do_HEAD")
    with (String.eqb command "HEAD").
  apply String.eqb_neq in H1, H2, H3. now rewrite H1, H2, H3.
Qed.

Lemma call_method_unsupported env h :
  command h <> "OPTIONS" -> command h <> "GET" -> command h <> "HEAD" ->
  call_method env h
  = CORSHTTPRequestHandler.send_error env 501
      (Some ("Unsupported method (" ++ repr env (command h) ++ ")")) None h.
Proof.
  intros H1 H2 H3. unfold call_method.
  now rewrite (getattr_unsupported env (command h) H1 H2 H3).
Qed.

(** X7. The handler has a method for [OPTIONS], [GET] and [HEAD] only.  A
    request that [parse_request] accepts, of a version other than
    HTTP/0.9, with any other method, [POST] and [PUT] among them, is
    answered with status 501 and the reason [Unsupported method], with the
    CORS fields (which name [POST] as allowed) at the end of its header
    section and the error page as its body; no file is looked up; the
    error and the request are logged. *)
Theorem unsupported_method_501
        (env : environ) (bytes : string) (h1 : handler) :
  accepted env bytes = Some h1 ->
  request_version h1 <> "HTTP/0.9" ->
  command h1 <> "OPTIONS" -> command h1 <> "GET" -> command h1 <> "HEAD" ->
  let h := CORSHTTPRequestHandler.handle_one_request
             env (CORSHTTPRequestHandler.new_handler bytes) in
  let message := "Unsupported method (" ++ repr env (command h1) ++ ")" in
  let body := error_message env 501 message
                            "Server does not support this operation" in
  wfile h = response 501 message
              (error_headers env body ++ cors_headers)%list body /\
  fs_log h = [] /\
  log h = [LogError 501 message; LogRequest 501].
Proof.
  intros Ha Hv H1 H2 H3.
  destruct (accepted_call_method env bytes h1 Ha) as (Hf & ->).
  rewrite (call_method_unsupported env h1 H1 H2 H3).
  unfold CORSHTTPRequestHandler.send_error.
  cbv zeta. split; [|split].
  - apply (sent_fresh_wfile h1 _ _ Hf).
    exact (send_error_with_body_sent env h1 (proj1 (not_http09_iff h1) Hv)
             501 ("Unsupported method (" ++ repr env (command h1) ++ ")")
             "Not Implemented" "Server does not support this operation"
             h1 (fresh_idle h1 Hf) eq_refl eq_refl H3).
  - rewrite send_error_fs_log. now destruct Hf as (_ & _ & -> & _).
  - rewrite send_error_log. now destruct Hf as (_ & _ & _ & -> & _).
Qed.

Lemma unsupported_method_501_witness :
  let bytes := request_bytes "POST" "/test-app.html" "HTTP/1.1" [] in
  (exists h1, accepted demo_env bytes = Some h1 /\ command h1 = "POST" /\
              request_version h1 <> "HTTP/0.9") /\
  wfile (CORSHTTPRequestHandler.handle_one_request
           demo_env (CORSHTTPRequestHandler.new_handler bytes))
    = response 501 "Unsupported method ('POST')"
        (error_headers demo_env "<html>error</html>" ++ cors_headers)%list
        "<html>error</html>".
Proof.
  intros bytes. split.
  - eexists. split; [vm_compute; reflexivity|].
    split; [reflexivity|discriminate].
  - pose (h1 := match accepted demo_env bytes with
                | Some h => h
                | None => CORSHTTPRequestHandler.new_handler ""
                end).
    refine (proj1 (unsupported_method_501 demo_env bytes h1 _ _ _ _ _)).
    + vm_compute. reflexivity.
    + discriminate.
    + discriminate.
    + discriminate.
    + discriminate.
Defined.


Section LookupAnswers.

Import BaseHTTPRequestHandler SimpleHTTPRequestHandler.

Variable env : environ.
Variable h0 : handler.
Hypothesis http1x : not_http09 h0 = true.
Hypothesis idle : Idle h0 h0.

Local Abbreviation cors_end := CORSHTTPRequestHandler.end_headers.
Local Abbreviation p0 := (translate_path env (path h0)).

Lemma isdir_directory p listing :
  invalid_name env p = false -> fs env p = Some (Directory listing) ->
  isdir env p = true.
Proof. intros Hv Hfs. unfold isdir. now rewrite Hv, Hfs. Qed.




Lemma do_GET_redirect_sent listing parts_path :
  invalid_name env p0 = false ->
  fs env p0 = Some (Directory listing) ->
  urlsplit_path env (path h0) = Some parts_path ->
  endswith_slash parts_path = false ->
  Sent h0 (response 301 "Moved Permanently"
             (redirect_headers env (path h0) ++ cors_headers)%list "")
       (CORSHTTPRequestHandler.do_GET env h0) /\
  fs_log (CORSHTTPRequestHandler.do_GET env h0)
    = (fs_log h0 ++ [FsIsDir p0])%list.
Proof.
  intros Hvalid Hfs Hsplit Hslash.
  unfold CORSHTTPRequestHandler.do_GET, do_GET, send_head.
  rewrite (isdir_directory p0 listing Hvalid Hfs).
  cbn [path fs_access]. rewrite Hsplit, Hslash. cbn [negb].
  pose proof (idle_send_response env h0 http1x 301 None _
                (idle_fs_access h0 (FsIsDir p0) h0 idle)) as Hp.
  assert (Hpath : path (send_response env 301 None
                          (fs_access (FsIsDir p0) h0)) = path h0)
    by (destruct Hp as ((_ & Hq & _) & _); exact Hq).
  rewrite Hpath.
  apply (pending_send_header h0 http1x _ _ _
           "Location" (redirect_url env (path h0))) in Hp.
  apply (pending_send_header h0 http1x _ _ _ "Content-Length" "0") in Hp.
  simpl reason_phrase in Hp. simpl app in Hp.
  split.
  - apply (pending_cors_end_headers h0 http1x) in Hp. exact Hp.
  - now rewrite cors_end_headers_fs_log, !send_header_fs_log,
      send_response_fs_log.
Qed.

Lemma do_GET_unopenable_sent :
  command h0 = "GET" ->
  isdir env p0 = false ->
  endswith_slash p0 = true \/ open_rb env p0 = OpenOSError ->
  let body := error_message env 404 "File not found"
                            "Nothing matches the given URI" in
  Sent h0 (response 404 "File not found"
             (not_found_headers env body ++ cors_headers)%list body)
       (CORSHTTPRequestHandler.do_GET env h0) /\
  fs_log (CORSHTTPRequestHandler.do_GET env h0)
    = (fs_log h0 ++ if endswith_slash p0 then [FsIsDir p0]
                    else [FsIsDir p0; FsOpen p0])%list.
Proof.
  intros Hget Hdir Hor body.
  unfold CORSHTTPRequestHandler.do_GET, do_GET, send_head.
  rewrite Hdir. unfold send_head_file.
  destruct (endswith_slash p0) eqn:Hslash.
  - split.
    + apply (send_error_404_sent env h0 http1x Hget).
      now apply idle_fs_access.
    + now rewrite send_error_fs_log.
  - destruct Hor as [Hor|Hor]; [discriminate|].
    rewrite Hor. split.
    + apply (send_error_404_sent env h0 http1x Hget).
      now repeat apply idle_fs_access.
    + rewrite send_error_fs_log. cbn [fs_log fs_access].
      now rewrite <- app_assoc.
Qed.

(** [do_GET] when [open] raises an exception that is no [OSError]. *)
Lemma do_GET_open_raises :
  isdir env p0 = false ->
  endswith_slash p0 = false ->
  open_rb env p0 = OpenValueError ->
  CORSHTTPRequestHandler.do_GET env h0
  = raise_from_method "ValueError"
      (fs_access (FsOpen p0) (fs_access (FsIsDir p0) h0)).
Proof.
  intros Hdir Hslash Hopen.
  unfold CORSHTTPRequestHandler.do_GET, do_GET, send_head.
  rewrite Hdir. unfold send_head_file. rewrite Hslash, Hopen. reflexivity.
Qed.

Lemma do_GET_listing_sent listing parts_path :
  command h0 = "GET" ->
  invalid_name env p0 = false ->
  fs env p0 = Some (Directory listing) ->
  urlsplit_path env (path h0) = Some parts_path ->
  endswith_slash parts_path = true ->
  isfile env (path_join env p0 "index.html") = false ->
  isfile env (path_join env p0 "index.htm") = false ->
  match listing with
  | Some names =>
      match render_listing env (path h0) (listing_entries env p0 names) with
      | Some encoded =>
          Sent h0 (response 200 "OK"
                     (listing_headers env encoded ++ cors_headers)%list
                     encoded)
               (CORSHTTPRequestHandler.do_GET env h0)
      | None =>
          wfile (CORSHTTPRequestHandler.do_GET env h0) = wfile h0 /\
          raised (CORSHTTPRequestHandler.do_GET env h0)
            = Some "UnicodeEncodeError"
      end
  | None =>
      let body := error_message env 404
                    "No permission to list directory"
                    "Nothing matches the given URI" in
      Sent h0 (response 404 "No permission to list directory"
                 (not_found_headers env body ++ cors_headers)%list body)
           (CORSHTTPRequestHandler.do_GET env h0)
  end /\
  fs_log (CORSHTTPRequestHandler.do_GET env h0)
    = (fs_log h0 ++ listing_fs_log env p0 listing)%list.
Proof.
  intros Hget Hvalid Hfs Hsplit Hslash Hi1 Hi2.
  unfold CORSHTTPRequestHandler.do_GET, do_GET, send_head.
  rewrite (isdir_directory p0 listing Hvalid Hfs).
  change (path (fs_access (FsIsDir p0) h0)) with (path h0).
  rewrite Hsplit, Hslash. cbn [negb].
  rewrite Hi1, Hi2.
  set (h3 := fs_access (FsIsFile (path_join env p0 "index.htm"))
               (fs_access (FsIsFile (path_join env p0 "index.html"))
                  (fs_access (FsIsDir p0) h0))).
  assert (Hi3 : Idle h0 h3).
  { subst h3. do 2 apply idle_fs_access.
    exact (idle_fs_access h0 (FsIsDir p0) h0 idle). }
  assert (Hf3 : fs_log (fs_access (FsListDir p0) h3)
                = (fs_log h0 ++ [FsIsDir p0;
                                 FsIsFile (path_join env p0 "index.html");
                                 FsIsFile (path_join env p0 "index.htm");
                                 FsListDir p0])%list).
  { subst h3. cbn [fs_log fs_access]. now rewrite <- !app_assoc. }
  unfold list_directory, listdir. rewrite Hfs.
  unfold listing_fs_log.
  destruct listing as [names|].
  - set (h4 := fold_left (fun h name => list_entry env p0 name h)
                         (sort_by_lower names)
                         (fs_access (FsListDir p0) h3)).
    assert (Hi4 : Idle h0 h4).
    { subst h4. apply idle_list_entries. now apply idle_fs_access. }
    assert (Hf4 : fs_log h4
                  = (fs_log h0 ++
                     [FsIsDir p0; FsIsFile (path_join env p0 "index.html");
                      FsIsFile (path_join env p0 "index.htm"); FsListDir p0]
                     ++ listing_lookups env p0 names)%list).
    { subst h4. rewrite list_entries_fs_log, Hf3.
      unfold listing_lookups. now rewrite <- app_assoc. }
    assert (Hp4 : path h4 = path h0)
      by (destruct Hi4 as ((_ & Hp & _) & _); exact Hp).
    rewrite Hp4. fold (listing_entries env p0 names).
    destruct (render_listing env (path h0) (listing_entries env p0 names))
      as [encoded|].
    + pose proof (idle_send_response env h0 http1x 200 None _ Hi4) as Hp.
      apply (pending_send_header h0 http1x _ _ _
               "Content-type"
               ("text/html; charset=" ++ filesystemencoding env)) in Hp.
      apply (pending_send_header h0 http1x _ _ _ "Content-Length"
               (str_Z (Z.of_nat (String.length encoded)))) in Hp.
      simpl reason_phrase in Hp. simpl app in Hp.
      cbn [copyfile]. split.
      * apply (pending_cors_end_headers h0 http1x) in Hp.
        apply (sent_wfile_write h0 _ _ _ "" encoded) in Hp.
        exact Hp.
      * cbn [fs_log wfile_write].
        rewrite cors_end_headers_fs_log, !send_header_fs_log,
          send_response_fs_log.
        exact Hf4.
    + cbn [wfile raised fs_log raise_from_method].
      split; [split; [|reflexivity]|exact Hf4].
      destruct Hi4 as (_ & Hw & _). exact Hw.
  - rewrite app_nil_r. split.
    + apply (send_error_404_sent env h0 http1x Hget).
      now apply idle_fs_access.
    + rewrite send_error_fs_log. exact Hf3.
Qed.


End LookupAnswers.



(** X9. A GET request that [parse_request] accepts, of a version other
    than HTTP/0.9, whose path maps to a directory and does not end with a
    slash is answered with status 301: a redirection to the same address
    with the slash, [Content-Length: 0], the CORS fields, and no body; the
    directory is neither listed nor searched for an index. *)
Theorem get_directory_without_slash_301
        (env : environ) (bytes : string) (h1 : handler)
        (listing : option (list string)) (parts_path : string) :
  accepted env bytes = Some h1 ->
  command h1 = "GET" ->
  request_version h1 <> "HTTP/0.9" ->
  let h := CORSHTTPRequestHandler.handle_one_request
             env (CORSHTTPRequestHandler.new_handler bytes) in
  let p := translate_path env (path h1) in
  SimpleHTTPRequestHandler.invalid_name env p = false ->
  fs env p = Some (Directory listing) ->
  urlsplit_path env (path h1) = Some parts_path ->
  endswith_slash parts_path = false ->
  wfile h = response 301 "Moved Permanently"
              (redirect_headers env (path h1) ++ cors_headers)%list "" /\
  fs_log h = [FsIsDir p].
Proof.
  intros Ha Hc Hv h p Hvalid Hfs Hsplit Hslash. subst h.
  destruct (accepted_call_method env bytes h1 Ha) as (Hf & ->).
  rewrite call_method_GET by exact Hc.
  destruct (do_GET_redirect_sent env h1 (proj1 (not_http09_iff h1) Hv)
              (fresh_idle h1 Hf) listing parts_path
              Hvalid Hfs Hsplit Hslash)
    as (Hs & Hl).
  split; [exact (sent_fresh_wfile h1 _ _ Hf Hs)|].
  rewrite Hl. now destruct Hf as (_ & _ & -> & _).
Qed.

Lemma get_directory_without_slash_301_witness :
  let bytes := request_bytes "GET" "/docs" "HTTP/1.1" [] in
  (exists h1, accepted demo_dir_env bytes = Some h1 /\ command h1 = "GET" /\
              fs demo_dir_env (translate_path demo_dir_env (path h1))
                = Some (Directory (Some ["index.html"])) /\
              urlsplit_path demo_dir_env (path h1) = Some "/docs") /\
  wfile (CORSHTTPRequestHandler.handle_one_request
           demo_dir_env (CORSHTTPRequestHandler.new_handler bytes))
    = response 301 "Moved Permanently"
        (redirect_headers demo_dir_env "/docs" ++ cors_headers)%list "".
Proof.
  intros bytes. split.
  - eexists. split; [vm_compute; reflexivity|].
    split; [reflexivity|]. split; reflexivity.
  - pose (h1 := match accepted demo_dir_env bytes with
                | Some h => h
                | None => CORSHTTPRequestHandler.new_handler ""
                end).
    refine (proj1 (get_directory_without_slash_301
                     demo_dir_env bytes h1 (Some ["index.html"]) "/docs"
                     _ _ _ _ _ _ _)).
    + vm_compute. reflexivity.
    + reflexivity.
    + discriminate.
    + reflexivity.
    + reflexivity.
    + reflexivity.
    + reflexivity.
Defined.

(** X10. A GET request that [parse_request] accepts, of a version other
    than HTTP/0.9, for a name that is not a directory and that ends with a
    slash, or for which [open] raises [OSError] (no such file, or a file
    the server may not read), is answered with status 404 and the reason
    [File not found]: a file that exists but cannot be read is not told
    apart from a missing one, and a name that ends with a slash is refused
    before any file is opened.  When [open] raises [ValueError] instead (a
    null character in the name, or a name that cannot be encoded), the
    exception leaves the handler and nothing is answered. *)
Theorem get_unopenable_file_404
        (env : environ) (bytes : string) (h1 : handler) :
  accepted env bytes = Some h1 ->
  command h1 = "GET" ->
  request_version h1 <> "HTTP/0.9" ->
  let h := CORSHTTPRequestHandler.handle_one_request
             env (CORSHTTPRequestHandler.new_handler bytes) in
  let p := translate_path env (path h1) in
  SimpleHTTPRequestHandler.isdir env p = false ->
  let body := error_message env 404 "File not found"
                            "Nothing matches the given URI" in
  (endswith_slash p = true \/
   SimpleHTTPRequestHandler.open_rb env p
     = SimpleHTTPRequestHandler.OpenOSError ->
   wfile h = response 404 "File not found"
               (not_found_headers env body ++ cors_headers)%list body /\
   fs_log h = (if endswith_slash p then [FsIsDir p]
               else [FsIsDir p; FsOpen p]) /\
   raised h = None) /\
  (endswith_slash p = false ->
   SimpleHTTPRequestHandler.open_rb env p
     = SimpleHTTPRequestHandler.OpenValueError ->
   wfile h = "" /\ fs_log h = [FsIsDir p; FsOpen p] /\
   raised h = Some "ValueError").
Proof.
  intros Ha Hc Hv h p Hdir body. subst h.
  destruct (accepted_call_method env bytes h1 Ha) as (Hf & ->).
  rewrite call_method_GET by exact Hc.
  split.
  - intros Hor.
    destruct (do_GET_unopenable_sent env h1 (proj1 (not_http09_iff h1) Hv)
                (fresh_idle h1 Hf) Hc Hdir Hor)
      as (Hs & Hl).
    split; [exact (sent_fresh_wfile h1 _ _ Hf Hs)|].
    split; [rewrite Hl; now destruct Hf as (_ & _ & -> & _)|].
    unfold CORSHTTPRequestHandler.do_GET, SimpleHTTPRequestHandler.do_GET,
      SimpleHTTPRequestHandler.send_head.
    fold p. rewrite Hdir.
    unfold SimpleHTTPRequestHandler.send_head_file.
    destruct (endswith_slash p) eqn:Hslash.
    + cbn [snd]. rewrite send_error_raised. cbn [raised fs_access].
      now destruct Hf as (_ & _ & _ & _ & ->).
    + destruct Hor as [Hor|Hor]; [discriminate|]. rewrite Hor.
      cbn [snd]. rewrite send_error_raised. cbn [raised fs_access].
      now destruct Hf as (_ & _ & _ & _ & ->).
  - intros Hslash Hopen.
    rewrite (do_GET_open_raises env h1 Hdir Hslash Hopen).
    cbn [wfile fs_log raised raise_from_method fs_access].
    destruct Hf as (-> & _ & -> & _). repeat split.
Qed.

Lemma get_unopenable_file_404_witness :
  let bytes := request_bytes "GET" "/secret.html" "HTTP/1.1" [] in
  (exists h1, accepted demo_dir_env bytes = Some h1 /\ command h1 = "GET" /\
              fs demo_dir_env (translate_path demo_dir_env (path h1))
                = Some (Regular false "<html>secret</html>" demo_mtime)) /\
  wfile (CORSHTTPRequestHandler.handle_one_request
           demo_dir_env (CORSHTTPRequestHandler.new_handler bytes))
    = response 404 "File not found"
        (not_found_headers demo_dir_env "<html>error</html>"
           ++ cors_headers)%list "<html>error</html>".
Proof.
  intros bytes. split.
  - eexists. split; [vm_compute; reflexivity|]. split; reflexivity.
  - pose (h1 := match accepted demo_dir_env bytes with
                | Some h => h
                | None => CORSHTTPRequestHandler.new_handler ""
                end).
    refine (proj1 (proj1 (get_unopenable_file_404
                            demo_dir_env bytes h1 _ _ _ _) _)).
    + vm_compute. reflexivity.
    + reflexivity.
    + discriminate.
    + reflexivity.
    + right. reflexivity.
Defined.

(** X11. A GET request that [parse_request] accepts, of a version other
    than HTTP/0.9, for a directory, with the slash, that holds neither
    [index.html] nor [index.htm] is answered with the listing of the
    directory: status 200, [Content-type: text/html] in the encoding of
    the file system, the length of the page, the CORS fields, and the page
    as the body; the names are taken in the order of their lower-case
    forms and each entry is tested with [os.path.isdir] and
    [os.path.islink].  When the page cannot be encoded the exception
    leaves the handler and nothing is answered; when the directory cannot
    be listed the answer is status 404 with the reason
    [No permission to list directory]. *)
Theorem get_directory_listing
        (env : environ) (bytes : string) (h1 : handler)
        (listing : option (list string)) (parts_path : string) :
  accepted env bytes = Some h1 ->
  command h1 = "GET" ->
  request_version h1 <> "HTTP/0.9" ->
  let h := CORSHTTPRequestHandler.handle_one_request
             env (CORSHTTPRequestHandler.new_handler bytes) in
  let p := translate_path env (path h1) in
  SimpleHTTPRequestHandler.invalid_name env p = false ->
  fs env p = Some (Directory listing) ->
  urlsplit_path env (path h1) = Some parts_path ->
  endswith_slash parts_path = true ->
  SimpleHTTPRequestHandler.isfile env (path_join env p "index.html") = false ->
  SimpleHTTPRequestHandler.isfile env (path_join env p "index.htm") = false ->
  match listing with
  | Some names =>
      match render_listing env (path h1) (listing_entries env p names) with
      | Some encoded =>
          wfile h = response 200 "OK"
                      (listing_headers env encoded ++ cors_headers)%list
                      encoded
      | None => wfile h = "" /\ raised h = Some "UnicodeEncodeError"
      end
  | None =>
      let body := error_message env 404
                    "No permission to list directory"
                    "Nothing matches the given URI" in
      wfile h = response 404 "No permission to list directory"
                  (not_found_headers env body ++ cors_headers)%list body
  end /\
  fs_log h = listing_fs_log env p listing.
Proof.
  intros Ha Hc Hv h p Hvalid Hfs Hsplit Hslash Hi1 Hi2. subst h.
  destruct (accepted_call_method env bytes h1 Ha) as (Hf & ->).
  rewrite call_method_GET by exact Hc.
  destruct (do_GET_listing_sent env h1 (proj1 (not_http09_iff h1) Hv)
              (fresh_idle h1 Hf) listing parts_path
              Hc Hvalid Hfs Hsplit Hslash Hi1 Hi2)
    as (Hs & Hl).
  split.
  - fold p in Hs. destruct listing as [names|].
    + destruct (render_listing env (path h1) (listing_entries env p names))
        as [encoded|].
      * exact (sent_fresh_wfile h1 _ _ Hf Hs).
      * destruct Hs as (Hw & Hr). split; [|exact Hr].
        rewrite Hw. now destruct Hf as (-> & _).
    + exact (sent_fresh_wfile h1 _ _ Hf Hs).
  - rewrite Hl. now destruct Hf as (_ & _ & -> & _).
Qed.

Lemma get_directory_listing_witness :
  let bytes := request_bytes "GET" "/" "HTTP/1.1" [] in
  (exists h1, accepted demo_dir_env bytes = Some h1 /\ command h1 = "GET" /\
              fs demo_dir_env (translate_path demo_dir_env (path h1))
                = Some (Directory (Some ["test-app.html"]))) /\
  wfile (CORSHTTPRequestHandler.handle_one_request
           demo_dir_env (CORSHTTPRequestHandler.new_handler bytes))
    = response 200 "OK"
        (listing_headers demo_dir_env "<html>listing</html>"
           ++ cors_headers)%list "<html>listing</html>" /\
  fs_log (CORSHTTPRequestHandler.handle_one_request
            demo_dir_env (CORSHTTPRequestHandler.new_handler bytes))
    = [FsIsDir "/srv/app/"; FsIsFile "/srv/app/index.html";
       FsIsFile "/srv/app/index.htm"; FsListDir "/srv/app/";
       FsIsDir "/srv/app/test-app.html"; FsIsLink "/srv/app/test-app.html"].
Proof.
  intros bytes. split.
  - eexists. split; [vm_compute; reflexivity|]. split; reflexivity.
  - pose (h1 := match accepted demo_dir_env bytes with
                | Some h => h
                | None => CORSHTTPRequestHandler.new_handler ""
                end).
    refine (get_directory_listing
              demo_dir_env bytes h1 (Some ["test-app.html"]) "/"
              _ _ _ _ _ _ _ _ _).
    + vm_compute. reflexivity.
    + reflexivity.
    + discriminate.
    + reflexivity.
    + reflexivity.
    + reflexivity.
    + reflexivity.
    + reflexivity.
    + reflexivity.
Defined.



(** ** File names: [splitext] and [guess_type] *)

Lemma substring_0_length (s : string) :
  String.substring 0 (String.length s) s = s.
Proof. induction s as [|c s IH]; simpl; [reflexivity | now rewrite IH]. Qed.

Lemma substring_split (p : string) (n : nat) :
  String.substring 0 n p ++ String.substring n (String.length p - n) p = p.
Proof.
  revert n. induction p as [|c p IH]; intros n.
  - destruct n; reflexivity.
  - destruct n as [|n].
    + cbn [String.substring append String.length Nat.sub].
      now rewrite substring_0_length.
    + cbn [String.substring append String.length Nat.sub].
      now rewrite IH.
Qed.

Lemma splitext_loop_roundtrip p dotIndex filenameIndex fuel :
  fst (splitext_loop p dotIndex filenameIndex fuel)
    ++ snd (splitext_loop p dotIndex filenameIndex fuel) = p.
Proof.
  revert filenameIndex. induction fuel as [|fuel IH]; intros filenameIndex.
  - simpl. apply append_nil_r.
  - cbn [splitext_loop].
    destruct (negb (String.eqb (String.substring (Z.to_nat filenameIndex) 1 p)
                               ".")).
    + cbn [fst snd]. unfold slice_to, slice_from. apply substring_split.
    + apply IH.
Qed.

(** Where [rfind_from] finds the character, the string goes on with it. *)
Lemma rfind_from_spec (c : ascii) (s : string) (i last : Z) :
  let r := rfind_from c s i last in
  r = last \/
  (i <= r /\
   exists rest,
     String.substring (Z.to_nat (r - i))
                      (String.length s - Z.to_nat (r - i)) s
     = String c rest).
Proof.
  revert i last. induction s as [|d s IH]; intros i last.
  - now left.
  - cbn [rfind_from].
    destruct (IH (i + 1) (if Ascii.eqb d c then i else last))
      as [Hr | (Hle & rest & Hsub)].
    + destruct (Ascii.eqb d c) eqn:Hd.
      * right. rewrite Hr. split; [apply Z.le_refl|].
        exists s. rewrite Z.sub_diag. cbn [Z.to_nat].
        rewrite Nat.sub_0_r, substring_0_length.
        apply Ascii.eqb_eq in Hd. now subst d.
      * now left.
    + right. split; [eapply Z.le_trans; [|exact Hle]; apply Z.le_succ_diag_r|].
      exists rest.
      set (r := rfind_from c s (i + 1) (if Ascii.eqb d c then i else last))
        in *.
      replace (Z.to_nat (r - i)) with (S (Z.to_nat (r - (i + 1)))).
      * cbn [String.substring String.length Nat.sub]. exact Hsub.
      * rewrite <- Z2Nat.inj_succ.
        -- f_equal. unfold Z.succ. rewrite Z.sub_add_distr.
           now rewrite Z.sub_add.
        -- apply Z.le_0_sub. exact Hle.
Qed.

Lemma splitext_loop_ext p dotIndex filenameIndex fuel :
  (exists rest, slice_from p dotIndex = String "." rest) ->
  snd (splitext_loop p dotIndex filenameIndex fuel) = "" \/
  exists rest, snd (splitext_loop p dotIndex filenameIndex fuel)
               = String "." rest.
Proof.
  intros Hdot. revert filenameIndex.
  induction fuel as [|fuel IH]; intros filenameIndex.
  - now left.
  - cbn [splitext_loop].
    destruct (negb (String.eqb (String.substring (Z.to_nat filenameIndex) 1 p)
                               ".")).
    + right. exact Hdot.
    + apply IH.
Qed.

(** X13. [splitext] cuts a file name without losing or adding a
    character: root and extension, put together, give the name back; and
    the extension is empty or begins with a dot. *)
Theorem splitext_root_ext (p : string) :
  fst (splitext p) ++ snd (splitext p) = p /\
  (snd (splitext p) = "" \/ exists rest, snd (splitext p) = String "." rest).
Proof.
  unfold splitext.
  destruct (rfind "/" p <? rfind "." p) eqn:Hlt.
  - split; [apply splitext_loop_roundtrip|].
    apply splitext_loop_ext.
    apply Z.ltb_lt in Hlt.
    unfold rfind in *.
    destruct (rfind_from_spec "/" p 0 (-1)) as [Hs | (Hs & _)];
      destruct (rfind_from_spec "." p 0 (-1)) as [Hd | (Hd & rest & Hsub)];
      cbv zeta in *.
    + rewrite Hs, Hd in Hlt. now apply Z.lt_irrefl in Hlt.
    + exists rest. unfold slice_from. now rewrite Z.sub_0_r in Hsub.
    + rewrite Hd in Hlt. exfalso.
      apply (Z.lt_irrefl 0). eapply Z.le_lt_trans; [exact Hs|].
      eapply Z.lt_trans; [exact Hlt|]. reflexivity.
    + exists rest. unfold slice_from. now rewrite Z.sub_0_r in Hsub.
  - split; [apply append_nil_r | now left].
Qed.

Lemma extensions_map_not_empty ext t :
  SimpleHTTPRequestHandler.extensions_map ext = Some t -> t <> "".
Proof.
  unfold SimpleHTTPRequestHandler.extensions_map.
  destruct (String.eqb ext ".gz"); [intros [= <-]; discriminate|].
  destruct (String.eqb ext ".Z"); [intros [= <-]; discriminate|].
  destruct (String.eqb ext ".bz2"); [intros [= <-]; discriminate|].
  destruct (String.eqb ext ".xz"); [intros [= <-]; discriminate|].
  discriminate.
Qed.

(** X14. [guess_type] always names a type: whatever the file name and
    whatever the system's table of types answers, the [Content-type] of a
    file is never empty; without a known extension it is
    [application/octet-stream]. *)
Theorem guess_type_never_empty (env : environ) (p : string) :
  SimpleHTTPRequestHandler.guess_type env p <> "" /\
  (SimpleHTTPRequestHandler.extensions_map (snd (splitext p)) = None ->
   SimpleHTTPRequestHandler.extensions_map (lower (snd (splitext p))) = None ->
   mimetypes_guess_type env p = None ->
   SimpleHTTPRequestHandler.guess_type env p = "application/octet-stream").
Proof.
  unfold SimpleHTTPRequestHandler.guess_type.
  destruct (splitext p) as [root ext]. cbn [snd].
  split.
  - destruct (SimpleHTTPRequestHandler.extensions_map ext) as [t|] eqn:H1;
      [now apply (extensions_map_not_empty ext)|].
    destruct (SimpleHTTPRequestHandler.extensions_map (lower ext))
      as [t|] eqn:H2;
      [now apply (extensions_map_not_empty (lower ext))|].
    destruct (mimetypes_guess_type env p) as [guess|]; [|discriminate].
    destruct (String.eqb guess "") eqn:Hg; [discriminate|].
    now apply String.eqb_neq.
  - now intros -> -> ->.
Qed.

Lemma guess_type_never_empty_witness :
  SimpleHTTPRequestHandler.extensions_map (snd (splitext "/srv/app/README"))
    = None /\
  mimetypes_guess_type demo_env "/srv/app/README" = None /\
  SimpleHTTPRequestHandler.guess_type demo_env "/srv/app/README"
    = "application/octet-stream".
Proof.
  split; [reflexivity|]. split; [reflexivity|].
  apply (proj2 (guess_type_never_empty demo_env "/srv/app/README"));
    reflexivity.
Defined.

(** ** The status codes of the answers *)

Section PlainResponses.

Import BaseHTTPRequestHandler SimpleHTTPRequestHandler.

Variable env : environ.
Variable h0 : handler.
Hypothesis http1x : not_http09 h0 = true.

Local Abbreviation cors_end := CORSHTTPRequestHandler.end_headers.

Ltac in_list := cbn; tauto.

Lemma pp_send_response code message h :
  Idle h0 h -> In code sent_codes ->
  PendingPlain h0 (send_response env code message h).
Proof.
  intros Hi Hc. eexists _, _, _. split.
  - apply (idle_send_response env h0 http1x code message h Hi).
  - exact Hc.
Qed.

Lemma pp_send_header k v h :
  PendingPlain h0 h -> PendingPlain h0 (send_header k v h).
Proof.
  intros (code & message & hdrs & Hp & Hc).
  exists code, message, (hdrs ++ [(k, v)])%list. split.
  - now apply pending_send_header.
  - exact Hc.
Qed.

Lemma pp_end_headers h :
  PendingPlain h0 h -> RespondedPlain h0 (cors_end h).
Proof.
  intros (code & message & hdrs & Hp & Hc).
  exists code, message, hdrs, "".
  split; [now apply pending_cors_end_headers | assumption].
Qed.

Lemma rp_wfile_write data h :
  RespondedPlain h0 h -> RespondedPlain h0 (wfile_write data h).
Proof.
  intros (code & message & hdrs & body & Hs & Hc).
  exists code, message, hdrs, (body ++ data).
  split; [now apply sent_wfile_write | assumption].
Qed.

Lemma rp_fs_access e h :
  RespondedPlain h0 h -> RespondedPlain h0 (fs_access e h).
Proof.
  intros (code & message & hdrs & body & Hs & Hc).
  exists code, message, hdrs, body.
  split; [now apply sent_fs_access | assumption].
Qed.

Lemma send_error_rp code message explain h :
  Idle h0 h -> In code sent_codes ->
  RespondedPlain h0 (send_error env cors_end code message explain h).
Proof.
  intros Hi Hc. unfold send_error.
  destruct (match responses code with
            | Some sl => sl
            | None => ("???", "???")
            end) as [shortmsg longmsg].
  set (m := match message with Some m => m | None => shortmsg end).
  set (x := match explain with Some e => e | None => longmsg end).
  pose proof (pp_send_response code (Some m) _
                (idle_log_message h0 (LogError code m) h Hi) Hc) as Hp.
  apply (pp_send_header "Connection" "close") in Hp.
  fold (log_error code m h) in Hp.
  destruct ((200 <=? code) &&
            negb ((code =? 204) || (code =? 205) || (code =? 304))).
  - apply (pp_send_header "Content-Type" error_content_type) in Hp.
    apply (pp_send_header "Content-Length"
             (str_Z (Z.of_nat (String.length (error_message env code m x)))))
      in Hp.
    apply pp_end_headers in Hp.
    match goal with
    | |- RespondedPlain _ (if ?b then _ else _) => destruct b
    end; [apply rp_wfile_write|]; exact Hp.
  - apply pp_end_headers in Hp.
    match goal with
    | |- RespondedPlain _ (if ?b then _ else _) => destruct b
    end; [apply rp_wfile_write|]; exact Hp.
Qed.

Lemma list_directory_rp p h :
  Idle h0 h -> HeadPlain h0 (list_directory env cors_end p h).
Proof.
  intros Hi. unfold list_directory, HeadPlain.
  apply (idle_fs_access h0 (FsListDir p)) in Hi.
  destruct (listdir env p) as [l|]; cbn [fst snd].
  - apply (idle_list_entries env h0 p (sort_by_lower l)) in Hi.
    destruct (render_listing env _ _) as [encoded|]; cbn [fst snd].
    + apply pp_end_headers.
      do 2 apply pp_send_header.
      apply pp_send_response; [exact Hi | in_list].
    + right. now apply idle_raise.
  - left. apply send_error_rp; [exact Hi | in_list].
Qed.

Lemma send_head_file_rp p h :
  Idle h0 h -> HeadPlain h0 (send_head_file env cors_end p h).
Proof.
  intros Hi. unfold send_head_file, HeadPlain.
  destruct (endswith_slash p); cbn [fst snd].
  { left. apply send_error_rp; [exact Hi | in_list]. }
  pose proof (idle_fs_access h0 (FsOpen p) h Hi) as Hi'.
  destruct (open_rb env p) as [content mtime| |]; cbn [fst snd].
  - apply (idle_fs_access h0 (FsStat p)) in Hi'.
    destruct (not_modified_since env _ mtime); cbn [fst snd].
    + left. apply pp_end_headers.
      apply pp_send_response; [exact Hi' | in_list].
    + apply pp_end_headers.
      do 3 apply pp_send_header.
      apply pp_send_response; [exact Hi' | in_list].
  - left. apply send_error_rp; [exact Hi' | in_list].
  - right. now apply idle_raise.
Qed.

Lemma send_head_rp h :
  Idle h0 h -> HeadPlain h0 (send_head env cors_end h).
Proof.
  intros Hi. unfold send_head.
  set (p := translate_path env (path h)).
  pose proof (idle_fs_access h0 (FsIsDir p) h Hi) as Hi1.
  destruct (isdir env p).
  - destruct (urlsplit_path env _) as [parts_path|].
    + destruct (endswith_slash parts_path); cbn [negb].
      * set (i1 := path_join env p "index.html").
        pose proof (idle_fs_access h0 (FsIsFile i1) _ Hi1) as Hi2.
        destruct (isfile env i1).
        -- now apply send_head_file_rp.
        -- set (i2 := path_join env p "index.htm").
           pose proof (idle_fs_access h0 (FsIsFile i2) _ Hi2) as Hi3.
           destruct (isfile env i2).
           ++ now apply send_head_file_rp.
           ++ now apply list_directory_rp.
      * left. apply pp_end_headers.
        do 2 apply pp_send_header.
        apply pp_send_response; [exact Hi1 | in_list].
    + right. now apply idle_raise.
  - now apply send_head_file_rp.
Qed.

Lemma call_method_rp h :
  Idle h0 h ->
  RespondedPlain h0 (call_method env h) \/ Idle h0 (call_method env h).
Proof.
  intros Hi. unfold call_method.
  unfold CORSHTTPRequestHandler.getattr.
  destruct (String.eqb _ "do_OPTIONS").
  { left. unfold CORSHTTPRequestHandler.do_OPTIONS.
    apply pp_end_headers. apply pp_send_response; [exact Hi | in_list]. }
  destruct (String.eqb _ "do_GET").
  { unfold CORSHTTPRequestHandler.do_GET, do_GET.
    pose proof (send_head_rp h Hi) as Hr. unfold HeadPlain in Hr.
    destruct (send_head env cors_end h) as [[f|] h']; cbn [fst snd] in Hr.
    - left. destruct f; cbn [copyfile].
      + apply rp_wfile_write. now apply rp_fs_access.
      + now apply rp_wfile_write.
    - exact Hr. }
  destruct (String.eqb _ "do_HEAD").
  { unfold CORSHTTPRequestHandler.do_HEAD, do_HEAD.
    pose proof (send_head_rp h Hi) as Hr. unfold HeadPlain in Hr.
    destruct (send_head env cors_end h) as [[f|] h']; cbn [fst snd] in Hr.
    - now left.
    - exact Hr. }
  left. apply send_error_rp; [exact Hi | in_list].
Qed.

End PlainResponses.

Lemma responded_plain_fresh h0 h :
  Fresh h0 -> RespondedPlain h0 h \/ Idle h0 h ->
  wfile h = "" \/
  exists code message hdrs body,
    wfile h = response code message (hdrs ++ cors_headers)%list body /\
    In code sent_codes.
Proof.
  intros (Hw0 & _) [(code & message & hdrs & body & (_ & Hw & _) & Hc)
                   |(_ & Hw & _)].
  - right. exists code, message, hdrs, body.
    split; [now rewrite Hw, Hw0|exact Hc].
  - left. now rewrite Hw.
Qed.

(** X15. Whatever bytes a client sends, if the handler ends with a
    request version other than HTTP/0.9, the status line it has written,
    if any, carries one of eight status codes: 200, 301, 304, 400, 404,
    414, 431 or 501.  Status 505 is never sent in a status line: a version
    from 2.0 on is refused while the request version is still HTTP/0.9,
    with the bare error page. *)
Theorem status_line_has_one_of_eight_codes
        (env : environ) (bytes : string) :
  let h := CORSHTTPRequestHandler.handle_one_request
             env (CORSHTTPRequestHandler.new_handler bytes) in
  request_version h <> "HTTP/0.9" ->
  wfile h = "" \/
  exists code message hdrs body,
    wfile h = response code message (hdrs ++ cors_headers)%list body /\
    In code [200; 301; 304; 400; 404; 414; 431; 501].
Proof.
  intros h Hv. subst h.
  destruct (handle_one_request_cases env bytes)
    as [(_ & Ho)|[(_ & hx & code & message & explain & Hx & Hc & Hr)
                 |(h1 & _ & Ho & Hr)]].
  - left. now destruct Ho as (Hw & _).
  - rewrite Hr in Hv |- *.
    unfold CORSHTTPRequestHandler.send_error in Hv |- *.
    rewrite send_error_request_version in Hv.
    apply (same_output_new_fresh bytes) in Hx.
    apply (responded_plain_fresh hx _ Hx). left.
    apply send_error_rp;
      [now apply not_http09_iff|now apply fresh_idle|].
    destruct Hc as [Hc|(_ & H09)]; [|contradiction].
    cbn in Hc |- *. tauto.
  - rewrite Hr in Hv |- *.
    rewrite call_method_request_version in Hv.
    apply (same_output_new_fresh bytes) in Ho.
    apply (responded_plain_fresh h1 _ Ho).
    apply call_method_rp;
      [now apply not_http09_iff|now apply fresh_idle].
Qed.

Lemma status_line_has_one_of_eight_codes_witness :
  request_version (CORSHTTPRequestHandler.handle_one_request
                     demo_env (CORSHTTPRequestHandler.new_handler demo_get))
    <> "HTTP/0.9" /\
  wfile (CORSHTTPRequestHandler.handle_one_request
           demo_env (CORSHTTPRequestHandler.new_handler demo_get)) <> "" /\
  exists code message hdrs body,
    wfile (CORSHTTPRequestHandler.handle_one_request
             demo_env (CORSHTTPRequestHandler.new_handler demo_get))
      = response code message (hdrs ++ cors_headers)%list body /\
    In code [200; 301; 304; 400; 404; 414; 431; 501].
Proof.
  assert (Hv : request_version
                 (CORSHTTPRequestHandler.handle_one_request
                    demo_env (CORSHTTPRequestHandler.new_handler demo_get))
               <> "HTTP/0.9") by (vm_compute; discriminate).
  assert (Hw : wfile
                 (CORSHTTPRequestHandler.handle_one_request
                    demo_env (CORSHTTPRequestHandler.new_handler demo_get))
               <> "") by (vm_compute; discriminate).
  split; [exact Hv|]. split; [exact Hw|].
  destruct (status_line_has_one_of_eight_codes demo_env demo_get Hv)
    as [He|Hr]; [contradiction|exact Hr].
Defined.
(** ** The limits on the request line and on the header lines *)

Lemma readline_append s limit :
  fst (readline s limit) ++ snd (readline s limit) = s.
Proof.
  revert limit. induction s as [|c s IH]; intros limit; [reflexivity|].
  cbn [readline]. destruct (limit <=? 0); [reflexivity|].
  destruct (Ascii.eqb c LF); [reflexivity|].
  specialize (IH (limit - 1)).
  destruct (readline s (limit - 1)) as [line rest].
  cbn [fst snd append] in IH |- *. now rewrite IH.
Qed.

Lemma read_headers_lines room : forall fp acc lines rest,
  _read_headers room fp acc = (HeaderLines lines, rest) ->
  exists new,
    lines = (acc ++ new)%list /\
    (1 <= List.length new <= room)%nat /\
    Forall (fun line => Z.of_nat (String.length line) <= _MAXLINE) new /\
    join new ++ rest = fp /\
    In (last new "x") [CRLF; String LF EmptyString; ""].
Proof.
  induction room as [|room IH]; intros fp acc lines rest H.
  - cbn [_read_headers] in H.
    destruct (readline fp (_MAXLINE + 1)) as [line fp'].
    destruct (_MAXLINE <? Z.of_nat (String.length line)); discriminate H.
  - cbn [_read_headers] in H.
    pose proof (readline_append fp (_MAXLINE + 1)) as Happ.
    destruct (readline fp (_MAXLINE + 1)) as [line fp'].
    cbn [fst snd] in Happ.
    destruct (_MAXLINE <? Z.of_nat (String.length line)) eqn:Hlen;
      [discriminate H|].
    apply Z.ltb_ge in Hlen.
    destruct (String.eqb line CRLF || String.eqb line (String LF EmptyString)
              || String.eqb line "") eqn:Hend.
    + injection H as <- <-. exists [line].
      split; [reflexivity|]. split; [cbn; split; auto with arith|].
      split; [now apply Forall_cons|].
      split; [rewrite join_cons; cbn [join String.concat];
              now rewrite append_nil_r|].
      cbn [last].
      apply orb_true_iff in Hend. destruct Hend as [Hend|Hend].
      * apply orb_true_iff in Hend. destruct Hend as [Hend|Hend];
          apply String.eqb_eq in Hend; cbn; auto.
      * apply String.eqb_eq in Hend. cbn; auto.
    + destruct (IH fp' (acc ++ [line])%list lines rest H)
        as (new & -> & (Hn1 & Hn2) & Hshort & Hjoin & Hlast).
      exists (line :: new).
      split; [now rewrite <- app_assoc|].
      split; [cbn [List.length]; split; auto with arith|].
      split; [now apply Forall_cons|].
      split; [rewrite join_cons, append_assoc, Hjoin; exact Happ|].
      destruct new as [|l new']; [cbn in Hn1; inversion Hn1|exact Hlast].
Qed.

Lemma send_error_default_message env code shortmsg longmsg h :
  responses code = Some (shortmsg, longmsg) ->
  BaseHTTPRequestHandler.send_error
    env CORSHTTPRequestHandler.end_headers code None None h
  = BaseHTTPRequestHandler.send_error
      env CORSHTTPRequestHandler.end_headers code (Some shortmsg) None h.
Proof.
  intros H. unfold BaseHTTPRequestHandler.send_error. rewrite H.
  reflexivity.
Qed.

(** X16. A request line of more than 65536 bytes is refused with status
    414, whatever it holds and whatever follows it: the answer carries the
    CORS fields and the error page, nothing is parsed and no file is
    looked up. *)
Theorem request_line_too_long_414 (env : environ) (bytes : string) :
  65536 < Z.of_nat (String.length (fst (readline bytes 65537))) ->
  let h := CORSHTTPRequestHandler.handle_one_request
             env (CORSHTTPRequestHandler.new_handler bytes) in
  let body := error_message env 414 "Request-URI Too Long"
                            "URI is too long" in
  accepted env bytes = None /\
  wfile h = response 414 "Request-URI Too Long"
              (error_headers env body ++ cors_headers)%list body /\
  fs_log h = [] /\
  log h = [LogError 414 "Request-URI Too Long"; LogRequest 414].
Proof.
  intros Hlen h body. subst h.
  unfold CORSHTTPRequestHandler.handle_one_request, accepted.
  change (rfile (CORSHTTPRequestHandler.new_handler bytes)) with bytes.
  destruct (readline bytes 65537) as [line fp]. cbn [fst] in Hlen.
  set (hr := set_raw_requestline line
               (set_rfile fp (CORSHTTPRequestHandler.new_handler bytes))).
  change (raw_requestline hr) with line.
  apply Z.ltb_lt in Hlen. rewrite Hlen. cbn [orb].
  split; [reflexivity|].
  set (hx := set_command "" (set_request_version "" (set_requestline "" hr))).
  assert (Hf : Fresh hx) by (repeat split).
  unfold CORSHTTPRequestHandler.send_error.
  rewrite (send_error_default_message env 414 "Request-URI Too Long"
             "URI is too long" hx eq_refl).
  split; [|split].
  - apply (sent_fresh_wfile hx _ _ Hf).
    apply (send_error_with_body_sent env hx eq_refl 414
             "Request-URI Too Long" "Request-URI Too Long" "URI is too long"
             hx (fresh_idle hx Hf) eq_refl eq_refl).
    discriminate.
  - now rewrite send_error_fs_log.
  - now rewrite send_error_log.
Qed.

Lemma request_line_too_long_414_witness :
  let bytes := "GET /" ++ join (repeat "a" (256 * 256)) in
  65536 < Z.of_nat (String.length (fst (readline bytes 65537))) /\
  accepted demo_env bytes = None /\
  wfile (CORSHTTPRequestHandler.handle_one_request
           demo_env (CORSHTTPRequestHandler.new_handler bytes))
    = response 414 "Request-URI Too Long"
        (error_headers demo_env "<html>error</html>" ++ cors_headers)%list
        "<html>error</html>".
Proof.
  intros bytes.
  assert (Hlen : 65536 < Z.of_nat (String.length (fst (readline bytes 65537))))
    by (vm_compute; reflexivity).
  split; [exact Hlen|].
  destruct (request_line_too_long_414 demo_env bytes Hlen)
    as (Ha & Hw & _).
  split; [exact Ha|exact Hw].
Defined.

(** X17. The header section [parse_request] accepts is bounded: when
    [_read_headers] returns, it has read at least one and at most 100
    lines, each of at most 65536 bytes, the last of which is the blank
    line that ends the header section (or the end of the input), and it
    has consumed exactly those lines from the connection. *)
Theorem read_headers_bounds (fp : string) (lines : list string)
        (rest : string) :
  _read_headers _MAXHEADERS fp [] = (HeaderLines lines, rest) ->
  (1 <= List.length lines <= 100)%nat /\
  Forall (fun line => Z.of_nat (String.length line) <= 65536) lines /\
  join lines ++ rest = fp /\
  In (last lines "x") [CRLF; String LF EmptyString; ""].
Proof.
  intros H.
  destruct (read_headers_lines _MAXHEADERS fp [] lines rest H)
    as (new & -> & Hn & Hshort & Hjoin & Hlast).
  cbn [app]. repeat split; try assumption; apply Hn.
Qed.

Lemma read_headers_bounds_witness :
  let fp := "Host: localhost:3000" ++ CRLF ++ CRLF ++ "body" in
  _read_headers _MAXHEADERS fp []
    = (HeaderLines ["Host: localhost:3000" ++ CRLF; CRLF], "body") /\
  join ["Host: localhost:3000" ++ CRLF; CRLF] ++ "body" = fp.
Proof.
  intros fp.
  assert (H : _read_headers _MAXHEADERS fp []
              = (HeaderLines ["Host: localhost:3000" ++ CRLF; CRLF], "body"))
    by (vm_compute; reflexivity).
  split; [exact H|].
  exact (proj1 (proj2 (proj2 (read_headers_bounds fp _ _ H)))).
Defined.
